(** * mybase: a paged storage engine with a B+-tree leaf layout

    Shallow embedding of [main.cpp].  Machine integers are [Z] with the
    wrap-around of their C type written out, a page is a list of bytes, a
    pointer into a page is its byte offset from the start of the page, and
    the page cache of the pager is a finite map from page numbers to page
    buffers.  Every [exit(EXIT_FAILURE)] of the engine is a [Fatal] result;
    the exit of [pager_flush] is a [None], and [main] has endings of its own.
    Integers are laid out as on a little-endian machine.  An access outside
    a buffer, which C leaves undefined, is outside the model: a read there
    finds nothing and a write there changes nothing. *)

From Stdlib Require Import ZArith List Lia Ascii String.
From stdpp Require Import base option list gmap sorting.

Local Open Scope Z_scope.

(** ** Machine integers and raw memory *)

Definition byte := Z.

Definition u8  (x : Z) : Z := x mod 256.
Definition u16 (x : Z) : Z := x mod 65536.
Definition u32 (x : Z) : Z := x mod 4294967296.

(** [memcpy(&x, src, 4)] and back on a little-endian machine. *)
Definition encode_u32 (x : Z) : list byte :=
  [ x mod 256; (x / 256) mod 256; (x / 65536) mod 256; (x / 16777216) mod 256 ].

Definition decode_u32 (bs : list byte) : Z :=
  foldr (fun b acc => b + 256 * acc) 0 bs.

(** [memread buf off len]: the [len] bytes of [buf] starting at [off]. *)
Definition memread (buf : list byte) (off len : Z) : list byte :=
  take (Z.to_nat len) (drop (Z.to_nat off) buf).

(** [memwrite buf off data]: [memcpy(buf + off, data, |data|)]. *)
Definition memwrite (buf : list byte) (off : Z) (data : list byte) : list byte :=
  list_inserts (Z.to_nat off) data buf.

Definition load_u8 (buf : list byte) (off : Z) : Z :=
  default 0 (buf !! Z.to_nat off).

Definition store_u8 (buf : list byte) (off : Z) (v : Z) : list byte :=
  memwrite buf off [u8 v].

Definition load_u32 (buf : list byte) (off : Z) : Z :=
  decode_u32 (memread buf off 4).

Definition store_u32 (buf : list byte) (off : Z) (v : Z) : list byte :=
  memwrite buf off (encode_u32 v).

(** ** Rows *)

Definition COLUMN_USERNAME_SIZE : Z := 32.
Definition COLUMN_EMAIL_SIZE    : Z := 255.
Definition TABLE_MAX_PAGES      : Z := 100.

(** [username] and [email] are the [char] arrays of the struct, all of their
    33 and 256 bytes. *)
Record Row := mkRow {
  id       : Z;
  username : list byte;
  email    : list byte
}.

Definition PAGE_SIZE       : Z := 4096.
Definition ID_SIZE         : Z := 4.
Definition USERNAME_SIZE   : Z := COLUMN_USERNAME_SIZE + 1.
Definition EMAIL_SIZE      : Z := COLUMN_EMAIL_SIZE + 1.
Definition ID_OFFSET       : Z := 0.
Definition USERNAME_OFFSET : Z := ID_OFFSET + ID_SIZE.
Definition EMAIL_OFFSET    : Z := USERNAME_OFFSET + USERNAME_SIZE.
Definition ROW_SIZE        : Z := ID_SIZE + USERNAME_SIZE + EMAIL_SIZE.

(** A value of the C type [Row]. *)
Definition row_wf (r : Row) : Prop :=
  0 <= id r < 4294967296 /\
  length (username r) = Z.to_nat USERNAME_SIZE /\
  length (email r) = Z.to_nat EMAIL_SIZE.

(** The strings of a row that [prepare_insert] accepts end inside their
    fields. *)
Definition row_valid (r : Row) : Prop :=
  row_wf r /\ In 0 (username r) /\ In 0 (email r).

(** [serialize_row(source, buf + destination)] *)
Definition serialize_row (source : Row) (buf : list byte) (destination : Z) : list byte :=
  let buf := memwrite buf (destination + ID_OFFSET) (encode_u32 (id source)) in
  let buf := memwrite buf (destination + USERNAME_OFFSET) (username source) in
  memwrite buf (destination + EMAIL_OFFSET) (email source).

(** [deserialize_row(buf + source, &row)] *)
Definition deserialize_row (buf : list byte) (source : Z) : Row :=
  {| id       := decode_u32 (memread buf (source + ID_OFFSET) ID_SIZE);
     username := memread buf (source + USERNAME_OFFSET) USERNAME_SIZE;
     email    := memread buf (source + EMAIL_OFFSET) EMAIL_SIZE |}.


(** ** Node layout *)

Definition NODE_INTERNAL : Z := 0.
Definition NODE_LEAF     : Z := 1.

(** Common node header *)
Definition NODE_TYPE_SIZE          : Z := 1.
Definition NODE_TYPE_OFFSET        : Z := 0.
Definition IS_ROOT_SIZE            : Z := 1.
Definition IS_ROOT_OFFSET          : Z := NODE_TYPE_SIZE.
Definition PARENT_POINTER_SIZE     : Z := 4.
Definition PARENT_POINTER_OFFSET   : Z := IS_ROOT_OFFSET + IS_ROOT_SIZE.
Definition COMMON_NODE_HEADER_SIZE : Z :=
  NODE_TYPE_SIZE + IS_ROOT_SIZE + PARENT_POINTER_OFFSET.

(** Leaf node header *)
Definition LEAF_NODE_NUM_CELLS_SIZE   : Z := 4.
Definition LEAF_NODE_NUM_CELLS_OFFSET : Z := COMMON_NODE_HEADER_SIZE.
Definition LEAF_NODE_HEADER_SIZE      : Z :=
  COMMON_NODE_HEADER_SIZE + LEAF_NODE_NUM_CELLS_SIZE.

(** Leaf node body *)
Definition LEAF_NODE_KEY_SIZE        : Z := 4.
Definition LEAF_NODE_KEY_OFFSET      : Z := 0.
Definition LEAF_NODE_VALUE_SIZE      : Z := ROW_SIZE.
Definition LEAF_NODE_VALUE_OFFSET    : Z := LEAF_NODE_KEY_OFFSET + LEAF_NODE_KEY_SIZE.
Definition LEAF_NODE_CELL_SIZE       : Z := LEAF_NODE_KEY_SIZE + LEAF_NODE_VALUE_SIZE.
Definition LEAF_NODE_SPACE_FOR_CELLS : Z := PAGE_SIZE - LEAF_NODE_HEADER_SIZE.
Definition LEAF_NODE_MAX_CELLS       : Z :=
  LEAF_NODE_SPACE_FOR_CELLS / LEAF_NODE_CELL_SIZE.

Definition LEAF_NODE_RIGHT_SPLIT_COUNT : Z := (LEAF_NODE_MAX_CELLS + 1) / 2.
Definition LEAF_NODE_LEFT_SPLIT_COUNT  : Z :=
  (LEAF_NODE_MAX_CELLS + 1) - LEAF_NODE_RIGHT_SPLIT_COUNT.

(** Internal node header *)
Definition INTERNAL_NODE_NUM_KEYS_SIZE      : Z := 4.
Definition INTERNAL_NODE_NUM_KEYS_OFFSET    : Z := COMMON_NODE_HEADER_SIZE.
Definition INTERNAL_NODE_RIGHT_CHILD_SIZE   : Z := 4.
Definition INTERNAL_NODE_RIGHT_CHILD_OFFSET : Z :=
  INTERNAL_NODE_NUM_KEYS_OFFSET + INTERNAL_NODE_NUM_KEYS_SIZE.
Definition INTERNAL_NODE_HEADER_SIZE        : Z :=
  COMMON_NODE_HEADER_SIZE + INTERNAL_NODE_NUM_KEYS_SIZE + INTERNAL_NODE_RIGHT_CHILD_SIZE.

(** Internal node body *)
Definition INTERNAL_NODE_KEY_SIZE   : Z := 4.
Definition INTERNAL_NODE_CHILD_SIZE : Z := 4.
Definition INTERNAL_NODE_CELL_SIZE  : Z :=
  INTERNAL_NODE_CHILD_SIZE + INTERNAL_NODE_KEY_SIZE.

(** Pointers into a node are byte offsets from the start of its page.
    [void*] arithmetic moves by bytes, [uint32_t*] arithmetic by elements
    of four bytes. *)
Definition void_ptr_add (p n : Z) : Z := p + n.
Definition u32_ptr_add  (p n : Z) : Z := p + 4 * n.

Definition get_node_type (node : list byte) : Z :=
  load_u8 node NODE_TYPE_OFFSET.

Definition set_node_type (node : list byte) (type : Z) : list byte :=
  store_u8 node NODE_TYPE_OFFSET type.

Definition is_node_root (node : list byte) : bool :=
  negb (load_u8 node IS_ROOT_OFFSET =? 0).

Definition set_node_root (node : list byte) (is_root : bool) : list byte :=
  store_u8 node IS_ROOT_OFFSET (if is_root then 1 else 0).

Definition leaf_node_num_cells : Z := LEAF_NODE_NUM_CELLS_OFFSET.

Definition leaf_node_cell (cell_num : Z) : Z :=
  void_ptr_add LEAF_NODE_HEADER_SIZE (u32 (cell_num * LEAF_NODE_CELL_SIZE)).

Definition leaf_node_key (cell_num : Z) : Z := leaf_node_cell cell_num.

Definition leaf_node_value (cell_num : Z) : Z :=
  void_ptr_add (leaf_node_cell cell_num) LEAF_NODE_KEY_SIZE.

Definition initialize_leaf_node (node : list byte) : list byte :=
  let node := set_node_type node NODE_LEAF in
  let node := set_node_root node false in
  store_u32 node leaf_node_num_cells 0.

(** Modelled from the spec: [initialize_internal_node] is called by
    [create_new_root] and has no definition in the source (a cut-off
    [void initialize] stands where it would be); the spec has it set
    type = internal, is_root = false, num_keys = 0. *)
Definition initialize_internal_node (node : list byte) : list byte :=
  let node := set_node_type node NODE_INTERNAL in
  let node := set_node_root node false in
  store_u32 node INTERNAL_NODE_NUM_KEYS_OFFSET 0.

Definition internal_node_num_keys : Z := INTERNAL_NODE_NUM_KEYS_OFFSET.

Definition internal_node_right_child : Z := INTERNAL_NODE_RIGHT_CHILD_OFFSET.

Definition internal_node_cell (cell_num : Z) : Z :=
  void_ptr_add INTERNAL_NODE_HEADER_SIZE (u32 (cell_num * INTERNAL_NODE_CELL_SIZE)).

(** ** Fatal exits *)

Inductive fatal :=
  | PageOutOfBound
  | CorruptFile
  | ChildOutOfRange
  | InternalSearchUnimplemented
  | ParentUpdateUnimplemented
  | NoReturnValue.

(** [Ok a]: the call returns [a]; [Fatal e]: the process exits in it;
    [OutOfFuel]: a loop of the call was cut off by the model. *)
Inductive result (A : Type) :=
  | Ok (a : A)
  | Fatal (e : fatal)
  | OutOfFuel.
Arguments Ok {A} a.
Arguments Fatal {A} e.
Arguments OutOfFuel {A}.

#[global] Instance result_ret : MRet result := fun A a => Ok a.
#[global] Instance result_bind : MBind result := fun A B f m =>
  match m with
  | Ok a => f a
  | Fatal e => Fatal e
  | OutOfFuel => OutOfFuel
  end.

Definition internal_node_child (node : list byte) (child_num : Z) : result Z :=
  let num_keys := load_u32 node internal_node_num_keys in
  if child_num >? num_keys then Fatal ChildOutOfRange
  else if child_num =? num_keys then Ok internal_node_right_child
  else Ok (internal_node_cell child_num).

(** [internal_node_cell] returns a [uint32_t*] and the addition is done on
    that type. *)
Definition internal_node_key (key_num : Z) : Z :=
  u32_ptr_add (internal_node_cell key_num) INTERNAL_NODE_CHILD_SIZE.

(** The [switch] has no default: another type byte leaves the function
    without a return value. *)
Definition get_node_max_key (node : list byte) : result Z :=
  if get_node_type node =? NODE_INTERNAL then
    Ok (load_u32 node (internal_node_key (u32 (load_u32 node internal_node_num_keys - 1))))
  else if get_node_type node =? NODE_LEAF then
    Ok (load_u32 node (leaf_node_key (u32 (load_u32 node leaf_node_num_cells - 1))))
  else Fatal NoReturnValue.

(** ** Pager, table, cursor *)

(** [file_descriptor] stands for the open file: its bytes.  A slot of
    [pages] that holds [NULL] is an absent key. *)
Record Pager := mkPager {
  file_descriptor : list byte;
  file_length     : Z;
  num_pages       : Z;
  pages           : gmap Z (list byte)
}.

Record Table := mkTable {
  root_page_num : Z;
  pager         : Pager
}.

(** The [table] pointer of the C cursor is the table threaded through the
    calls. *)
Record Cursor := mkCursor {
  page_num     : Z;
  cell_num     : Z;
  end_of_table : bool
}.

Inductive ExecuteResult :=
  | EXECUTE_SUCCESS
  | EXECUTE_DUPLICATE_KEY
  | EXECUTE_TABLE_FULL.

Inductive PrepareResult :=
  | PREPARE_SUCCESS
  | PREPARE_NEGATIVE_ID
  | PREPARE_SYNTAX_ERROR
  | PREPARE_STRING_TOO_LONG
  | PREPARE_UNRECOGNIZED_STATEMENT.

Inductive StatementType :=
  | STATEMENT_INSERT
  | STATEMENT_SELECT.

Record Statement := mkStatement {
  type          : StatementType;
  row_to_insert : Row
}.

(** A write through a [void* node] that [get_page] returned lands in the
    cached page. *)
Definition put_page (p : Pager) (n : Z) (node : list byte) : Pager :=
  {| file_descriptor := file_descriptor p;
     file_length     := file_length p;
     num_pages       := num_pages p;
     pages           := <[n := node]> (pages p) |}.

Definition put_table_page (t : Table) (n : Z) (node : list byte) : Table :=
  {| root_page_num := root_page_num t; pager := put_page (pager t) n node |}.

(** Reading and writing through a [void* node] held from an earlier
    [get_page]: the access goes to the cached page as it is now. *)
Definition page_at (t : Table) (n : Z) : list byte :=
  default [] (pages (pager t) !! n).

Definition update_page (t : Table) (n : Z) (f : list byte -> list byte) : Table :=
  put_table_page t n (f (page_at t n)).

Definition get_unused_page_num (p : Pager) : Z := num_pages p.

(** [lseek(fd, off, SEEK_SET); read(fd, page, PAGE_SIZE)]: the bytes the file
    has from [off] on, at most a page of them, land at the start of the
    buffer.  The read never fails in this model. *)
Definition read_page (file : list byte) (off : Z) (page : list byte) : list byte :=
  memwrite page 0 (memread file off PAGE_SIZE).

Definition pager_open (file : list byte) : result Pager :=
  let file_length := Z.of_nat (length file) in
  if negb (file_length mod PAGE_SIZE =? 0) then Fatal CorruptFile
  else Ok {| file_descriptor := file;
             file_length     := u32 file_length;
             num_pages       := u32 (file_length / PAGE_SIZE);
             pages           := ∅ |}.

(** ** The engine *)

Section Engine.

(** [malloc_page n]: the contents of the buffer that [malloc(PAGE_SIZE)]
    hands to [get_page] when it faults in page [n].  The C library leaves
    them open. *)
Variable malloc_page : Z -> list byte.

(** [malloc_cursor]: the contents of the buffer that
    [malloc(sizeof(Cursor))] hands to [leaf_node_find].  The C library leaves
    them open, and [leaf_node_find] leaves [end_of_table] as it finds it. *)
Variable malloc_cursor : Cursor.

(** [LEAF_NODE_SPLIT_COUNT] is used by [leaf_node_split_and_insert] and
    declared nowhere in the source. *)
Variable LEAF_NODE_SPLIT_COUNT : Z.

Definition get_page (p : Pager) (page_num : Z) : result (list byte * Pager) :=
  if page_num >? TABLE_MAX_PAGES then Fatal PageOutOfBound
  else
    match pages p !! page_num with
    | Some page => Ok (page, p)
    | None =>
        (* cache miss *)
        let page := malloc_page page_num in
        let num_pages0 := file_length p / PAGE_SIZE in
        let num_pages1 :=
          if negb (file_length p mod PAGE_SIZE =? 0) then u32 (num_pages0 + 1)
          else num_pages0 in
        let page :=
          if page_num <=? num_pages1
          then read_page (file_descriptor p) (u32 (page_num * PAGE_SIZE)) page
          else page in
        Ok (page,
            {| file_descriptor := file_descriptor p;
               file_length     := file_length p;
               num_pages       := if page_num >=? num_pages p
                                  then u32 (page_num + 1) else num_pages p;
               pages           := <[page_num := page]> (pages p) |})
    end.

(** [get_page] on the pager of a table, the table keeping the pager that
    results. *)
Definition table_get_page (t : Table) (n : Z) : result (list byte * Table) :=
  '(node, p) ← get_page (pager t) n;
  mret (node, {| root_page_num := root_page_num t; pager := p |}).

(** *** Cursors *)

Definition table_start (t : Table) : result (Cursor * Table) :=
  '(root_node, t) ← table_get_page t (root_page_num t);
  let num_cells := load_u32 root_node leaf_node_num_cells in
  mret ({| page_num := root_page_num t; cell_num := 0;
           end_of_table := num_cells =? 0 |}, t).

(** The binary search of [leaf_node_find]; each turn of the loop takes one
    unit of [fuel].  [None]: the fuel ran out. *)
Fixpoint leaf_node_find_loop (fuel : nat) (node : list byte) (key : Z)
    (min_index one_past_max_index : Z) : option Z :=
  if one_past_max_index =? min_index then Some min_index
  else
    match fuel with
    | O => None
    | S fuel =>
        let index := u32 (min_index + one_past_max_index) / 2 in
        let key_at_index := load_u32 node (leaf_node_key index) in
        if key =? key_at_index then Some index
        else if key <? key_at_index
             then leaf_node_find_loop fuel node key min_index index
             else leaf_node_find_loop fuel node key (u32 (index + 1)) one_past_max_index
    end.

(** The fuel is the number of cells of the node: the interval of the
    search starts that wide and narrows with every turn. *)
Definition leaf_node_find (t : Table) (page_num : Z) (key : Z)
    : result (Cursor * Table) :=
  '(node, t) ← table_get_page t page_num;
  let num_cells := load_u32 node leaf_node_num_cells in
  match leaf_node_find_loop (Z.to_nat num_cells) node key 0 num_cells with
  | Some i => mret ({| page_num := page_num; cell_num := i;
                       end_of_table := end_of_table malloc_cursor |}, t)
  | None => OutOfFuel
  end.

Definition table_find (t : Table) (key : Z) : result (Cursor * Table) :=
  let root_page_num := root_page_num t in
  '(root_node, t) ← table_get_page t root_page_num;
  if get_node_type root_node =? NODE_LEAF
  then leaf_node_find t root_page_num key
  else Fatal InternalSearchUnimplemented.

(** The page and the offset in it of the row under the cursor. *)
Definition cursor_value (c : Cursor) (t : Table) : result (list byte * Z * Table) :=
  '(page, t) ← table_get_page t (page_num c);
  mret (page, leaf_node_value (cell_num c), t).

Definition cursor_advance (c : Cursor) (t : Table) : result (Cursor * Table) :=
  '(node, t) ← table_get_page t (page_num c);
  let cell_num' := u32 (cell_num c + 1) in
  mret ({| page_num := page_num c; cell_num := cell_num';
           end_of_table :=
             if cell_num' >=? load_u32 node leaf_node_num_cells
             then true else end_of_table c |}, t).

(** *** Splitting and inserting *)

(** The source passes [cursor->value], a field the cursor does not have,
    where the table is meant. *)
Definition create_new_root (t : Table) (right_child_page_num : Z) : result Table :=
  let root := root_page_num t in
  '(_, t) ← table_get_page t root;
  '(_, t) ← table_get_page t right_child_page_num;
  let left_child_page_num := get_unused_page_num (pager t) in
  '(_, t) ← table_get_page t left_child_page_num;
  (* the left child has the data of the old root *)
  let t := update_page t left_child_page_num
             (fun left_child => memwrite left_child 0 (memread (page_at t root) 0 PAGE_SIZE)) in
  let t := update_page t left_child_page_num (fun n => set_node_root n false) in
  (* the root page becomes an internal node with two children *)
  let t := update_page t root initialize_internal_node in
  let t := update_page t root (fun n => set_node_root n true) in
  let t := update_page t root (fun n => store_u32 n internal_node_num_keys 1) in
  child0 ← internal_node_child (page_at t root) 0;
  let t := update_page t root (fun n => store_u32 n child0 left_child_page_num) in
  left_child_max_key ← get_node_max_key (page_at t left_child_page_num);
  let t := update_page t root (fun n => store_u32 n (internal_node_key 0) left_child_max_key) in
  mret (update_page t root (fun n => store_u32 n internal_node_right_child right_child_page_num)).

(** The body of the [for] loop of [leaf_node_split_and_insert] for one
    value of [i]; [old_node] and [new_node] are the pages [page_num c] and
    [new_page_num].  Both branches of the [if] that ends the body leave
    the function, so the body has no next turn. *)
Definition split_loop_body (c : Cursor) (value : Row) (new_page_num : Z)
    (i : Z) (t : Table) : result Table :=
  let old_node := page_num c in
  let new_node := new_page_num in
  let destination_node :=
    if i >=? LEAF_NODE_SPLIT_COUNT then new_node else old_node in
  let index_within_node := i mod LEAF_NODE_LEFT_SPLIT_COUNT in
  let destination := leaf_node_cell index_within_node in
  let t :=
    if i =? cell_num c then
      update_page t destination_node (fun n => serialize_row value n destination)
    else if i >? cell_num c then
      update_page t destination_node (fun n =>
        memwrite n destination
          (memread (page_at t old_node) (leaf_node_cell (u32 (i - 1))) LEAF_NODE_CELL_SIZE))
    else
      update_page t destination_node (fun n =>
        memwrite n destination
          (memread (page_at t old_node) (leaf_node_cell i) LEAF_NODE_CELL_SIZE)) in
  (* update cell count on both leaf nodes *)
  let t := update_page t old_node
             (fun n => store_u32 n leaf_node_num_cells LEAF_NODE_LEFT_SPLIT_COUNT) in
  let t := update_page t new_node
             (fun n => store_u32 n leaf_node_num_cells LEAF_NODE_RIGHT_SPLIT_COUNT) in
  if is_node_root (page_at t old_node)
  then create_new_root t new_page_num
  else Fatal ParentUpdateUnimplemented.

Definition leaf_node_split_and_insert (c : Cursor) (key : Z) (value : Row)
    (t : Table) : result Table :=
  '(_, t) ← table_get_page t (page_num c);
  let new_page_num := get_unused_page_num (pager t) in
  '(_, t) ← table_get_page t new_page_num;
  let t := update_page t new_page_num initialize_leaf_node in
  (* for (uint32_t i = LEAF_NODE_MAX_CELLS; i >= 0; i--): the first turn *)
  split_loop_body c value new_page_num LEAF_NODE_MAX_CELLS t.

(** [for (i = num_cells; i > cell_num; i--) memcpy(cell i, cell i - 1)],
    [n] turns of it from [i] down. *)
Fixpoint shift_cells (n : nat) (node : list byte) (i : Z) : list byte :=
  match n with
  | O => node
  | S n =>
      let node := memwrite node (leaf_node_cell i)
                    (memread node (leaf_node_cell (u32 (i - 1))) LEAF_NODE_CELL_SIZE) in
      shift_cells n node (u32 (i - 1))
  end.

Definition leaf_node_insert (c : Cursor) (key : Z) (value : Row) (t : Table)
    : result Table :=
  '(node, t) ← table_get_page t (page_num c);
  let num_cells := load_u32 node leaf_node_num_cells in
  if num_cells >=? LEAF_NODE_MAX_CELLS then
    (* node full *)
    leaf_node_split_and_insert c key value t
  else
    let node :=
      if cell_num c <? num_cells
      then shift_cells (Z.to_nat (num_cells - cell_num c)) node num_cells
      else node in
    let node := store_u32 node leaf_node_num_cells
                  (u32 (load_u32 node leaf_node_num_cells + 1)) in
    let node := store_u32 node (leaf_node_key (cell_num c)) key in
    let node := serialize_row value node (leaf_node_value (cell_num c)) in
    mret (put_table_page t (page_num c) node).

(** *** Opening the database *)

Definition db_open (file : list byte) : result Table :=
  p ← pager_open file;
  let t := {| root_page_num := 0; pager := p |} in
  if num_pages p =? 0 then
    (* new database file: page 0 becomes a leaf node *)
    '(_, t) ← table_get_page t 0;
    mret (update_page t 0 initialize_leaf_node)
  else mret t.

(** *** Statements *)

Definition execute_insert (st : Statement) (t : Table)
    : result (ExecuteResult * Table) :=
  '(node, t) ← table_get_page t (root_page_num t);
  let num_cells := load_u32 node leaf_node_num_cells in
  let row := row_to_insert st in
  let key_to_insert := u16 (id row) in
  '(cursor, t) ← table_find t key_to_insert;
  if (cell_num cursor <? num_cells)
     && (load_u32 node (leaf_node_key (cell_num cursor)) =? key_to_insert)
  then mret (EXECUTE_DUPLICATE_KEY, t)
  else
    t ← leaf_node_insert cursor (id row) row t;
    mret (EXECUTE_SUCCESS, t).

(** The [while (!cursor->end_of_table)] loop of [execute_select]; the rows
    it prints, in order. *)
Fixpoint select_loop (fuel : nat) (c : Cursor) (t : Table)
    : result (list Row * Table) :=
  if end_of_table c then mret ([], t)
  else
    match fuel with
    | O => OutOfFuel
    | S fuel =>
        '(page, off, t) ← cursor_value c t;
        let row := deserialize_row page off in
        '(c, t) ← cursor_advance c t;
        '(rows, t) ← select_loop fuel c t;
        mret (row :: rows, t)
    end.

(** The fuel is the number of cells the root page announces: the cursor
    reaches it in that many steps. *)
Definition execute_select (st : Statement) (t : Table)
    : result (ExecuteResult * list Row * Table) :=
  '(cursor, t) ← table_start t;
  let fuel := Z.to_nat (load_u32 (page_at t (root_page_num t)) leaf_node_num_cells) in
  '(rows, t) ← select_loop fuel cursor t;
  mret (EXECUTE_SUCCESS, rows, t).

Definition execute_statement (st : Statement) (t : Table)
    : result (ExecuteResult * list Row * Table) :=
  match type st with
  | STATEMENT_INSERT =>
      '(r, t) ← execute_insert st t; mret (r, [], t)
  | STATEMENT_SELECT => execute_select st t
  end.

End Engine.

(** Running the insert statements of a session one after the other; the
    result codes, in order, and the table at the end. *)
Fixpoint execute_inserts (malloc_page : Z -> list byte) (malloc_cursor : Cursor)
    (LEAF_NODE_SPLIT_COUNT : Z) (rows : list Row) (t : Table)
    : result (list ExecuteResult * Table) :=
  match rows with
  | [] => mret ([], t)
  | r :: rows =>
      '(code, t) ← execute_insert malloc_page malloc_cursor LEAF_NODE_SPLIT_COUNT
                     {| type := STATEMENT_INSERT; row_to_insert := r |} t;
      '(codes, t) ← execute_inserts malloc_page malloc_cursor LEAF_NODE_SPLIT_COUNT rows t;
      mret (code :: codes, t)
  end.

(** ** Preparing statements *)

Definition byte_of_ascii (c : ascii) : byte := Z.of_N (N_of_ascii c).

(** [strtok(s, " ")] on the characters [s] that are left of the line: the
    next token and what is left after it, or [None] for [NULL]. *)
Definition is_delim (c : ascii) : bool := Ascii.eqb c " "%char.

Fixpoint skip_delims (s : list ascii) : list ascii :=
  match s with
  | c :: s' => if is_delim c then skip_delims s' else s
  | [] => []
  end.

Fixpoint split_token (s : list ascii) : list ascii * list ascii :=
  match s with
  | [] => ([], [])
  | c :: s' =>
      if is_delim c then ([], s')
      else let '(tok, rest) := split_token s' in (c :: tok, rest)
  end.

Definition strtok (s : list ascii) : option (list ascii * list ascii) :=
  match skip_delims s with
  | [] => None
  | s1 => Some (split_token s1)
  end.

(** [atoi]: white space, an optional sign, then the decimal digits there
    are; [strtol] clamped to [long] and cut to [int] as the C library does. *)
Definition isspace (c : ascii) : bool :=
  let n := byte_of_ascii c in (n =? 32) || ((9 <=? n) && (n <=? 13)).

Definition digit_of (c : ascii) : option Z :=
  let n := byte_of_ascii c in
  if (48 <=? n) && (n <=? 57) then Some (n - 48) else None.

Fixpoint skip_spaces (s : list ascii) : list ascii :=
  match s with
  | c :: s' => if isspace c then skip_spaces s' else s
  | [] => []
  end.

Fixpoint atoi_digits (s : list ascii) (acc : Z) : Z :=
  match s with
  | c :: s' =>
      match digit_of c with
      | Some d => atoi_digits s' (10 * acc + d)
      | None => acc
      end
  | [] => acc
  end.

Definition clamp_long (x : Z) : Z :=
  Z.max (- 9223372036854775808) (Z.min 9223372036854775807 x).

Definition int_of_long (x : Z) : Z :=
  (x + 2147483648) mod 4294967296 - 2147483648.

Definition atoi (s : list ascii) : Z :=
  match skip_spaces s with
  | "-"%char :: s' => int_of_long (clamp_long (- atoi_digits s' 0))
  | "+"%char :: s' => int_of_long (clamp_long (atoi_digits s' 0))
  | s' => int_of_long (clamp_long (atoi_digits s' 0))
  end.

(** [strcpy(dst, src)]: the characters and the zero after them. *)
Definition strcpy (dst : list byte) (src : list ascii) : list byte :=
  memwrite dst 0 (map byte_of_ascii src ++ [0]).

Definition strlen (s : list ascii) : Z := Z.of_nat (length s).

(** [buffer]: the characters of the input line before its zero;
    [statement]: the statement as the caller left it. *)
Definition prepare_insert (buffer : list ascii) (statement : Statement)
    : PrepareResult * Statement :=
  let statement := {| type := STATEMENT_INSERT;
                      row_to_insert := row_to_insert statement |} in
  let row_username := username (row_to_insert statement) in
  let row_email    := email (row_to_insert statement) in
  let keyword   := strtok buffer in
  let id_string := '(_, rest) ← keyword; strtok rest in
  let username  := '(_, rest) ← id_string; strtok rest in
  let email     := '(_, rest) ← username; strtok rest in
  match id_string, username, email with
  | Some (id_string, _), Some (username, _), Some (email, _) =>
      let id := atoi id_string in
      if id <? 0 then (PREPARE_NEGATIVE_ID, statement)
      else if strlen username >? COLUMN_USERNAME_SIZE
      then (PREPARE_STRING_TOO_LONG, statement)
      else if strlen email >? COLUMN_EMAIL_SIZE
      then (PREPARE_STRING_TOO_LONG, statement)
      else
        (PREPARE_SUCCESS,
         {| type := STATEMENT_INSERT;
            row_to_insert :=
              {| id       := u32 id;
                 username := strcpy row_username username;
                 email    := strcpy row_email email |} |})
  | _, _, _ => (PREPARE_SYNTAX_ERROR, statement)
  end.

Fixpoint strncmp_eq (a b : list ascii) (n : nat) : bool :=
  match n with
  | O => true
  | S n =>
      match a, b with
      | [], [] => true
      | x :: a, y :: b => Ascii.eqb x y && strncmp_eq a b n
      | _, _ => false
      end
  end.

Definition prepare_statement (buffer : list ascii) (statement : Statement)
    : PrepareResult * Statement :=
  if strncmp_eq buffer (list_ascii_of_string "insert") 6
  then prepare_insert buffer statement
  else if decide (buffer = list_ascii_of_string "select")
  then (PREPARE_SUCCESS,
        {| type := STATEMENT_SELECT; row_to_insert := row_to_insert statement |})
  else (PREPARE_UNRECOGNIZED_STATEMENT, statement).

(** A token in which [atoi] finds no number: after white space and one
    sign, it does not go on with a decimal digit. *)
Definition strip_sign (s : list ascii) : list ascii :=
  match s with
  | "-"%char :: s' => s'
  | "+"%char :: s' => s'
  | _ => s
  end.

Definition non_numeric (s : list ascii) : Prop :=
  match strip_sign (skip_spaces s) with
  | c :: _ => digit_of c = None
  | [] => True
  end.

(** ** What a leaf page holds *)

Definition insert_statement (r : Row) : Statement :=
  {| type := STATEMENT_INSERT; row_to_insert := r |}.

(** The bytes of the cell [leaf_node_insert] writes for [key] and [r]: the
    key, then the serialised row. *)
Definition cell_bytes (key : Z) (r : Row) : list byte :=
  encode_u32 key ++ encode_u32 (id r) ++ username r ++ email r.

Definition cell_at (node : list byte) (i : Z) : list byte :=
  memread node (leaf_node_cell i) LEAF_NODE_CELL_SIZE.

(** [node] is a page with a leaf node in it, not flagged as root, whose
    cells are the rows [cells], in this order, each under its id. *)
Definition leaf_holds (node : list byte) (cells : list Row) : Prop :=
  length node = Z.to_nat PAGE_SIZE /\
  get_node_type node = NODE_LEAF /\
  is_node_root node = false /\
  load_u32 node leaf_node_num_cells = Z.of_nat (length cells) /\
  Z.of_nat (length cells) <= LEAF_NODE_MAX_CELLS /\
  Forall row_wf cells /\
  forall (i : nat) r, cells !! i = Some r ->
    cell_at node (Z.of_nat i) = cell_bytes (id r) r.

(** The table of a database that has page 0 only, a leaf with [cells]. *)
Definition single_leaf (t : Table) (cells : list Row) : Prop :=
  root_page_num t = 0 /\ num_pages (pager t) = 1 /\
  exists node, pages (pager t) !! 0 = Some node /\ leaf_holds node cells.

(** The number of rows with an id below [key]. *)
Definition rank (key : Z) (cells : list Row) : nat :=
  length (filter (fun r => id r < key) cells).

Definition ascending (cells : list Row) : Prop :=
  StronglySorted (fun a b => id a < id b) cells.

(** ** Closing the database *)

(** [lseek(fd, off, SEEK_SET); write(fd, data, n)] for the [n] bytes of
    [data]: a file that ends before the written region gets zero bytes up to
    it.  The seek and the write never fail in this model. *)
Definition file_write (file : list byte) (off : Z) (data : list byte) : list byte :=
  memwrite (file ++ replicate (Z.to_nat off + length data - length file) 0) off data.

(** [None]: the exit for a slot that holds [NULL]. *)
Definition pager_flush (p : Pager) (page_num : Z) : option Pager :=
  match pages p !! page_num with
  | None => None
  | Some page =>
      Some {| file_descriptor :=
                file_write (file_descriptor p) (u32 (page_num * PAGE_SIZE))
                  (memread page 0 PAGE_SIZE);
              file_length := file_length p;
              num_pages   := num_pages p;
              pages       := pages p |}
  end.

(** [n] turns of the first loop of [db_close], from page [i] on: a cached
    page is flushed and its slot set to [NULL]. *)
Fixpoint db_close_loop (n : nat) (i : Z) (p : Pager) : option Pager :=
  match n with
  | O => Some p
  | S n =>
      match pages p !! i with
      | None => db_close_loop n (u32 (i + 1)) p
      | Some _ =>
          p ← pager_flush p i;
          db_close_loop n (u32 (i + 1))
            {| file_descriptor := file_descriptor p;
               file_length     := file_length p;
               num_pages       := num_pages p;
               pages           := delete i (pages p) |}
      end
  end.

(** The file that [db_close] leaves.  Its second loop and the calls of
    [free] release memory and write nothing. *)
Definition db_close (t : Table) : option (list byte) :=
  p ← db_close_loop (Z.to_nat (num_pages (pager t))) 0 (pager t);
  Some (file_descriptor p).

(** ** What the pager keeps *)

(** Every cached page has a page number below [num_pages] and at most
    [TABLE_MAX_PAGES], and a buffer of [PAGE_SIZE] bytes. *)
Definition pager_wf (p : Pager) : Prop :=
  0 <= num_pages p < 4294967296 /\
  forall i page, pages p !! i = Some page ->
    0 <= i < num_pages p /\ i <= TABLE_MAX_PAGES /\
    length page = Z.to_nat PAGE_SIZE.

Definition table_wf (t : Table) : Prop :=
  0 <= root_page_num t /\ pager_wf (pager t).

(** [t'] is [t] after some calls: the same root and the same file, no page
    dropped from the cache, and [num_pages] not smaller. *)
Definition table_le (t t' : Table) : Prop :=
  root_page_num t' = root_page_num t /\
  file_descriptor (pager t') = file_descriptor (pager t) /\
  file_length (pager t') = file_length (pager t) /\
  num_pages (pager t) <= num_pages (pager t') /\
  forall i, is_Some (pages (pager t) !! i) -> is_Some (pages (pager t') !! i).

Definition cached (t : Table) (n : Z) : Prop :=
  is_Some (pages (pager t) !! n).

(** [t] is a state the calls reach from [t0]. *)
Definition reaches (t0 t : Table) : Prop :=
  table_wf t /\ table_le t0 t.

Definition keeps_length (f : list byte -> list byte) : Prop :=
  forall x, length (f x) = length x.

(** The key of cell [i] of a leaf page, as [leaf_node_find] reads it. *)
Definition key_at (node : list byte) (i : Z) : Z :=
  load_u32 node (leaf_node_key i).

(** The row of cell [i] of a page, as [execute_select] reads it. *)
Definition row_at (node : list byte) (i : Z) : Row :=
  deserialize_row node (leaf_node_value i).

(** ** Lines and strings *)

(** The tokens of a line as [strtok] cuts them: the runs of characters
    between spaces, in order.  [cur]: the token that is being read. *)
Fixpoint tokens_go (cur : list ascii) (s : list ascii) : list (list ascii) :=
  match s with
  | [] => match cur with [] => [] | _ => [cur] end
  | c :: s' =>
      if is_delim c
      then match cur with [] => tokens_go [] s' | _ => cur :: tokens_go [] s' end
      else tokens_go (cur ++ [c]) s'
  end.

Definition tokens (s : list ascii) : list (list ascii) := tokens_go [] s.

(** The string a [char] array holds: its bytes before the first zero. *)
Fixpoint c_chars (s : list byte) : list byte :=
  match s with
  | [] => []
  | b :: s' => if b =? 0 then [] else b :: c_chars s'
  end.

(** [printf("(%d, %s, %s)\n", row->id, row->username, row->email)]: the
    number and the two strings that are printed; [%d] takes the id as an
    [int]. *)
Definition print_row (row : Row) : Z * list byte * list byte :=
  (int_of_long (id row), c_chars (username row), c_chars (email row)).

(** ** The command loop *)

Inductive MetaCommandResult :=
  | META_COMMAND_SUCCESS
  | META_COMMAND_UNRECOGNIZED_COMMAND.

(** What the program prints: one constructor for each [printf] of [main]
    and of the functions it calls that return.  [%d] takes its argument as
    an [int]; [%s] prints the string up to its zero. *)
Inductive output :=
  | PROMPT
  | PRINTED_ROW (row : Z * list byte * list byte)
  | EXECUTED
  | ERROR_DUPLICATE_KEY
  | ERROR_TABLE_FULL
  | ID_MUST_BE_POSITIVE
  | STRING_IS_TOO_LONG
  | SYNTAX_ERROR
  | UNRECOGNIZED_KEYWORD (buffer : list ascii)
  | UNRECOGNIZED_COMMAND (buffer : list ascii)
  | TREE
  | LEAF_SIZE (num_cells : Z)
  | LEAF_KEY (i key : Z)
  | CONSTANTS
  | CONSTANT (name : string) (value : Z)
  | ERROR_READING_INPUT
  | MUST_SUPPLY_FILENAME.

(** How the process ends.  [EXIT_SUCCESS]: by [.exit], with the file that
    [db_close] leaves; [EXIT_FAILURE_input]: in [read_input], with the file
    as it is then. *)
Inductive ending :=
  | EXIT_SUCCESS (file : list byte)
  | EXIT_FAILURE_input (file : list byte)
  | EXIT_FAILURE_usage
  | EXIT_FAILURE_flush
  | EXIT_FAILURE_fatal (e : fatal)
  | CUT_OFF.

Definition print_leaf_node (node : list byte) : list output :=
  let num_cells := load_u32 node leaf_node_num_cells in
  LEAF_SIZE (int_of_long num_cells)
  :: ((fun i => LEAF_KEY (int_of_long i) (int_of_long (key_at node i)))
        <$> seqZ 0 num_cells).

Definition print_constants : list output :=
  [CONSTANT "ROW_SIZE" (int_of_long ROW_SIZE);
   CONSTANT "COMMON_NODE_HEADER_SIZE" (int_of_long COMMON_NODE_HEADER_SIZE);
   CONSTANT "LEAF_NODE_HEADER_SIZE" (int_of_long LEAF_NODE_HEADER_SIZE);
   CONSTANT "LEAF_NODE_CELL_SIZE" (int_of_long LEAF_NODE_CELL_SIZE);
   CONSTANT "LEAF_NODE_SPACE_FOR_CELLS" (int_of_long LEAF_NODE_SPACE_FOR_CELLS);
   CONSTANT "LEAF_NODE_MAX_CELLS" (int_of_long LEAF_NODE_MAX_CELLS)].

(** The characters of a [char] buffer before its first zero. *)
Fixpoint c_line (s : list ascii) : list ascii :=
  match s with
  | [] => []
  | c :: s' => if Ascii.eqb c Ascii.zero then [] else c :: c_line s'
  end.

(** [read_input] on what [getline] hands over: [raw] is the line with its
    newline, [[]] stands for a [getline] that fails (end of input).  The last
    character is overwritten with a zero; the result is the buffer as a
    string.  [None]: the exit. *)
Definition read_input (raw : list ascii) : option (list ascii) :=
  match raw with
  | [] => None
  | _ => Some (c_line (removelast raw))
  end.

(** What [do_meta_command] does: it ends the process, or it returns. *)
Inductive meta_result :=
  | META_ENDS (out : list output) (e : ending)
  | META_RETURNS (out : list output) (r : MetaCommandResult) (t : Table).

Definition print_execute_result (r : ExecuteResult) : output :=
  match r with
  | EXECUTE_SUCCESS => EXECUTED
  | EXECUTE_DUPLICATE_KEY => ERROR_DUPLICATE_KEY
  | EXECUTE_TABLE_FULL => ERROR_TABLE_FULL
  end.

Section Main.

Variable malloc_page : Z -> list byte.
Variable malloc_cursor : Cursor.
Variable LEAF_NODE_SPLIT_COUNT : Z.

(** [stack_statement i]: what the stack holds where [Statement statement]
    is declared, at turn [i] of the loop of [main].  The declaration
    initialises nothing. *)
Variable stack_statement : nat -> Statement.

Definition do_meta_command (buffer : list ascii) (t : Table) : meta_result :=
  if decide (buffer = list_ascii_of_string ".exit") then
    match db_close t with
    | Some file => META_ENDS [] (EXIT_SUCCESS file)
    | None => META_ENDS [] EXIT_FAILURE_flush
    end
  else if decide (buffer = list_ascii_of_string ".btree") then
    match table_get_page malloc_page t 0 with
    | Ok (node, t) => META_RETURNS (TREE :: print_leaf_node node) META_COMMAND_SUCCESS t
    | Fatal e => META_ENDS [TREE] (EXIT_FAILURE_fatal e)
    | OutOfFuel => META_ENDS [TREE] CUT_OFF
    end
  else if decide (buffer = list_ascii_of_string ".constants") then
    META_RETURNS (CONSTANTS :: print_constants) META_COMMAND_SUCCESS t
  else META_RETURNS [] META_COMMAND_UNRECOGNIZED_COMMAND t.

(** The [while (true)] of [main], on the lines that are left of the input;
    [i] counts the turns.  What is printed, and how the process ends; of a
    statement that ends the process, what it prints before is left out. *)
Fixpoint main_loop (stdin : list (list ascii)) (i : nat) (t : Table)
    : list output * ending :=
  match stdin with
  | [] => ([PROMPT; ERROR_READING_INPUT], EXIT_FAILURE_input (file_descriptor (pager t)))
  | raw :: stdin =>
      match read_input raw with
      | None =>
          ([PROMPT; ERROR_READING_INPUT], EXIT_FAILURE_input (file_descriptor (pager t)))
      | Some buffer =>
          let continue (out : list output) (t : Table) :=
            let '(rest, e) := main_loop stdin (S i) t in (PROMPT :: out ++ rest, e) in
          if bool_decide (head buffer = Some "."%char) then
            match do_meta_command buffer t with
            | META_ENDS out e => (PROMPT :: out, e)
            | META_RETURNS out META_COMMAND_SUCCESS t => continue out t
            | META_RETURNS out META_COMMAND_UNRECOGNIZED_COMMAND t =>
                continue (out ++ [UNRECOGNIZED_COMMAND buffer]) t
            end
          else
            match prepare_statement buffer (stack_statement i) with
            | (PREPARE_SUCCESS, statement) =>
                match execute_statement malloc_page malloc_cursor LEAF_NODE_SPLIT_COUNT
                        statement t with
                | Ok (r, rows, t) =>
                    continue ((PRINTED_ROW ∘ print_row <$> rows) ++ [print_execute_result r]) t
                | Fatal e => ([PROMPT], EXIT_FAILURE_fatal e)
                | OutOfFuel => ([PROMPT], CUT_OFF)
                end
            | (PREPARE_NEGATIVE_ID, _) => continue [ID_MUST_BE_POSITIVE] t
            | (PREPARE_STRING_TOO_LONG, _) => continue [STRING_IS_TOO_LONG] t
            | (PREPARE_SYNTAX_ERROR, _) => continue [SYNTAX_ERROR] t
            | (PREPARE_UNRECOGNIZED_STATEMENT, _) => continue [UNRECOGNIZED_KEYWORD buffer] t
            end
      end
  end.

(** [main]; [filename]: the bytes of the file that [argv[1]] names, none
    for a file that does not exist yet, [None] when no name is given. *)
Definition main (filename : option (list byte)) (stdin : list (list ascii))
    : list output * ending :=
  match filename with
  | None => ([MUST_SUPPLY_FILENAME], EXIT_FAILURE_usage)
  | Some file =>
      match db_open malloc_page file with
      | Ok t => main_loop stdin 0 t
      | Fatal e => ([], EXIT_FAILURE_fatal e)
      | OutOfFuel => ([], CUT_OFF)
      end
  end.

End Main.

(** ** Lines of a session *)

(** A word of a line: some characters, none of them a space or a zero. *)
Definition word (s : list ascii) : Prop :=
  s <> [] /\ (" "%char ∉ s) /\ (Ascii.zero ∉ s).

(** An entry: the id, the name and the mail as they are typed. *)
Definition entry : Type := list ascii * list ascii * list ascii.

(** The line [insert id name mail] as [getline] hands it over, with its
    newline. *)
Definition insert_line (e : entry) : list ascii :=
  let '(id_string, name, mail) := e in
  list_ascii_of_string "insert " ++ id_string ++ (" "%char :: name)
    ++ (" "%char :: mail) ++ ["010"%char].

Definition entry_id (e : entry) : Z := atoi e.1.1.

(** An entry that [prepare_insert] accepts, with an id of 16 bits. *)
Definition entry_ok (e : entry) : Prop :=
  let '(id_string, name, mail) := e in
  word id_string /\ word name /\ word mail /\
  0 <= atoi id_string < 65536 /\
  strlen name <= COLUMN_USERNAME_SIZE /\ strlen mail <= COLUMN_EMAIL_SIZE.

(** What [print_row] shows of the row of an entry. *)
Definition entry_printed (e : entry) : Z * list byte * list byte :=
  let '(id_string, name, mail) := e in
  (atoi id_string, byte_of_ascii <$> name, byte_of_ascii <$> mail).

(** The row [prepare_insert] makes of an entry in the statement [st]. *)
Definition entry_row (st : Statement) (e : entry) : Row :=
  let '(id_string, name, mail) := e in
  {| id := u32 (atoi id_string);
     username := strcpy (username (row_to_insert st)) name;
     email := strcpy (email (row_to_insert st)) mail |}.

(** The rows of the entries that are typed from turn [i] of the loop on. *)
Fixpoint entry_rows (stack_statement : nat -> Statement) (i : nat) (es : list entry)
    : list Row :=
  match es with
  | [] => []
  | e :: es => entry_row (stack_statement i) e :: entry_rows stack_statement (S i) es
  end.

(** The line [s] as [getline] hands it over, with its newline. *)
Definition typed (s : string) : list ascii :=
  list_ascii_of_string s ++ ["010"%char].

(** ** Sample inputs *)

(** Two allocators: one hands out zeroed buffers, one buffers full of what
    was in them before. *)
Definition zeroed_malloc (n : Z) : list byte := replicate 4096 0.
Definition stale_malloc (n : Z) : list byte := replicate 4096 255.

(** A cursor buffer that was in use before: the flag is set. *)
Definition stale_cursor : Cursor :=
  {| page_num := 4294967295; cell_num := 4294967295; end_of_table := true |}.

(** The string [s] in a field of [size] bytes, zeroes after it. *)
Definition c_string (s : list byte) (size : nat) : list byte :=
  s ++ replicate (size - length s) 0.

(** The row [(i, user, u@x)]. *)
Definition sample_row (i : Z) : Row :=
  {| id := i; username := c_string [117; 115; 101; 114] 33;
     email := c_string [117; 64; 120] 256 |}.

Definition select_statement : Statement :=
  {| type := STATEMENT_SELECT; row_to_insert := sample_row 0 |}.

Definition sample_line : list ascii := list_ascii_of_string "insert abc bob b@x".

(** The table [db_open] makes of an empty file. *)
Definition empty_table (malloc_page : Z -> list byte) : Table :=
  {| root_page_num := 0;
     pager := {| file_descriptor := []; file_length := 0; num_pages := 1;
                 pages := <[0 := initialize_leaf_node (malloc_page 0)]> ∅ |} |}.

(** A session on a new database file: the inserts of [rows], then a select.
    The result codes of the inserts and the rows the select prints. *)
Definition session (malloc_page : Z -> list byte) (malloc_cursor : Cursor)
    (LEAF_NODE_SPLIT_COUNT : Z) (rows : list Row)
    : result (list ExecuteResult * list Row) :=
  t ← db_open malloc_page [];
  '(codes, t) ← execute_inserts malloc_page malloc_cursor LEAF_NODE_SPLIT_COUNT rows t;
  '(_, scanned, _) ← execute_select malloc_page select_statement t;
  mret (codes, scanned).

Definition sample_cells : list Row := [sample_row 1; sample_row 2; sample_row 3].

(** The table after the rows 3, 1, 2 went into a new database. *)
Definition sample_table : Table :=
  match execute_inserts zeroed_malloc stale_cursor 7 (map sample_row [3; 1; 2])
          (empty_table zeroed_malloc) with
  | Ok (_, t) => t
  | _ => empty_table zeroed_malloc
  end.

(** A pager on a file of one page, every byte of it 7, nothing cached. *)
Definition sample_pager : Pager :=
  {| file_descriptor := replicate 4096 7; file_length := 4096; num_pages := 1;
     pages := ∅ |}.

(** A table whose root page has the type of an internal node. *)
Definition internal_root_table : Table :=
  update_page (empty_table zeroed_malloc) 0 (fun node => set_node_type node NODE_INTERNAL).

(** A stack that holds the same statement at every turn. *)
Definition sample_stack (i : nat) : Statement := select_statement.

Definition sample_entries : list entry :=
  [(list_ascii_of_string "2", list_ascii_of_string "bob", list_ascii_of_string "b@x");
   (list_ascii_of_string "1", list_ascii_of_string "al", list_ascii_of_string "a@y")].

(** ** Proof automation *)

(** Opens [Hsl : single_leaf t cells] into the page [node] of the root
    ([Hpage]) and what the page holds. *)
Ltac open_single_leaf Hsl :=
  pose proof Hsl as (Hroot & Hnp & node & Hpage & Hleaf);
  pose proof Hleaf as (Hlen & Hty & Hnr & Hnum & Hmax & Hwf & Hcells);
  change LEAF_NODE_MAX_CELLS with 13 in *.

(** Proves [Forall P l] for a list [l] that is written out, each element
    by [tac]. *)
Ltac forall_by tac :=
  cbn [map app];
  repeat first [apply Forall_nil_2 | apply Forall_cons_2; [tac|]].

(** ** Raw memory lemmas *)

Lemma length_memwrite buf off data :
  length (memwrite buf off data) = length buf.
Proof. apply length_inserts. Qed.

Lemma length_encode_u32 x : length (encode_u32 x) = 4%nat.
Proof. reflexivity. Qed.

Lemma decode_encode_u32 x :
  0 <= x < 4294967296 -> decode_u32 (encode_u32 x) = x.
Proof.
  intros Hx. unfold decode_u32, encode_u32. cbn [foldr].
  assert (E2 : x / 65536 = x / 256 / 256) by (by rewrite Z.div_div by lia).
  assert (E3 : x / 16777216 = x / 65536 / 256) by (by rewrite Z.div_div by lia).
  assert (E4 : x / 16777216 / 256 = 0)
    by (rewrite Z.div_div by lia; apply Z.div_small; lia).
  pose proof (Z.div_mod x 256 ltac:(lia)) as H0.
  pose proof (Z.div_mod (x / 256) 256 ltac:(lia)) as H1.
  pose proof (Z.div_mod (x / 65536) 256 ltac:(lia)) as H2.
  pose proof (Z.div_mod (x / 16777216) 256 ltac:(lia)) as H3.
  lia.
Qed.

(** Reading back the region just written. *)
Lemma memread_memwrite_same buf off data n :
  0 <= off -> n = Z.of_nat (length data) ->
  (Z.to_nat off + length data <= length buf)%nat ->
  memread (memwrite buf off data) off n = data.
Proof.
  intros Hoff -> Hlen. unfold memread, memwrite.
  rewrite Nat2Z.id. apply list_eq. intros i.
  destruct (decide (i < length data)%nat) as [Hi|Hi].
  - rewrite lookup_take_lt by done. rewrite lookup_drop.
    rewrite list_lookup_inserts by lia. f_equal. lia.
  - rewrite lookup_take_ge by lia. symmetry. apply lookup_ge_None. lia.
Qed.

(** A write that lies entirely before or after the region read. *)
Lemma memread_memwrite_disjoint buf off data off' n :
  0 <= off -> 0 <= off' -> 0 <= n ->
  off' + n <= off \/ off + Z.of_nat (length data) <= off' ->
  memread (memwrite buf off data) off' n = memread buf off' n.
Proof.
  intros Hoff Hoff' Hn Hdis. unfold memread, memwrite.
  apply list_eq. intros i.
  destruct (decide (i < Z.to_nat n)%nat) as [Hi|Hi].
  - rewrite !lookup_take_lt by done. rewrite !lookup_drop.
    destruct Hdis as [Hd|Hd].
    + apply list_lookup_inserts_lt. lia.
    + apply list_lookup_inserts_ge. lia.
  - by rewrite !lookup_take_ge by lia.
Qed.

(** ** Row round trip *)

(** C6. For every valid row [r] (a 32-bit id, a 33-byte and a 256-byte
    string field), serialising [r] at any place of a buffer that has room
    for it and deserialising from the same place gives back [r]. *)
Theorem deserialize_serialize_row (r : Row) (buf : list byte) (dst : Z) :
  row_valid r ->
  0 <= dst -> (Z.to_nat dst + Z.to_nat ROW_SIZE <= length buf)%nat ->
  deserialize_row (serialize_row r buf dst) dst = r.
Proof.
  intros [(Hid & Hu & He) _] Hdst Hroom.
  destruct r as [i u e]; simpl in *.
  unfold deserialize_row, serialize_row. simpl.
  change ROW_SIZE with 293 in Hroom.
  change USERNAME_SIZE with 33 in *. change EMAIL_SIZE with 256 in *.
  change ID_SIZE with 4. change ID_OFFSET with 0.
  change USERNAME_OFFSET with 4. change EMAIL_OFFSET with 37.
  f_equal.
  - rewrite !memread_memwrite_disjoint by lia.
    rewrite memread_memwrite_same; [by apply decode_encode_u32|lia|done|].
    rewrite length_encode_u32. lia.
  - rewrite memread_memwrite_disjoint by lia.
    rewrite memread_memwrite_same; [done|lia|lia|].
    rewrite length_memwrite. lia.
  - rewrite memread_memwrite_same; [done|lia|lia|].
    rewrite !length_memwrite. lia.
Qed.

(** ** Node layout as the accessors compute it *)

Lemma leaf_node_cell_eq n :
  0 <= n <= 14460000 -> leaf_node_cell n = 8 + 297 * n.
Proof.
  intros Hn. unfold leaf_node_cell, void_ptr_add, u32.
  change LEAF_NODE_HEADER_SIZE with 8. change LEAF_NODE_CELL_SIZE with 297.
  rewrite Z.mod_small by lia. lia.
Qed.

Lemma internal_node_cell_eq n :
  0 <= n < 536870912 -> internal_node_cell n = 12 + 8 * n.
Proof.
  intros Hn. unfold internal_node_cell, void_ptr_add, u32.
  change INTERNAL_NODE_HEADER_SIZE with 12. change INTERNAL_NODE_CELL_SIZE with 8.
  rewrite Z.mod_small by lia. lia.
Qed.

(** C4. The accessors do not realise the documented layout: the common
    header is counted as 4 bytes, not 6, so a leaf keeps [num_cells] in
    bytes 4-7 (over the last two bytes of the parent pointer) and its cells
    start at byte 8; an internal node keeps [num_keys] in bytes 4-7, its
    right child in bytes 8-11, its cells from byte 12 on, and reads the key
    of a cell 16 bytes, not 4, after the start of the cell.  The node type
    at byte 0, the root flag at byte 1, the parent pointer at byte 2 and the
    strides 297 and 8 are as documented. *)
Theorem node_layout_of_the_accessors :
  NODE_TYPE_OFFSET = 0 /\ IS_ROOT_OFFSET = 1 /\ PARENT_POINTER_OFFSET = 2 /\
  PARENT_POINTER_SIZE = 4 /\
  COMMON_NODE_HEADER_SIZE = 4 /\
  leaf_node_num_cells = 4 /\
  LEAF_NODE_HEADER_SIZE = 8 /\
  LEAF_NODE_MAX_CELLS = 13 /\
  (forall n, 0 <= n <= LEAF_NODE_MAX_CELLS ->
     leaf_node_cell n = 8 + 297 * n /\
     leaf_node_key n = 8 + 297 * n /\
     leaf_node_value n = 8 + 297 * n + 4) /\
  internal_node_num_keys = 4 /\
  internal_node_right_child = 8 /\
  (forall n, 0 <= n < 536870912 ->
     internal_node_cell n = 12 + 8 * n /\
     internal_node_key n = internal_node_cell n + 16).
Proof.
  repeat split; try reflexivity.
  - apply leaf_node_cell_eq. change LEAF_NODE_MAX_CELLS with 13 in *. lia.
  - apply leaf_node_cell_eq. change LEAF_NODE_MAX_CELLS with 13 in *. lia.
  - unfold leaf_node_value, void_ptr_add. rewrite leaf_node_cell_eq; [reflexivity|].
    change LEAF_NODE_MAX_CELLS with 13 in *. lia.
  - by apply internal_node_cell_eq.
Qed.

(** ** The page cache *)

Lemma memread_past_end buf off n :
  0 <= off -> (length buf <= Z.to_nat off)%nat -> memread buf off n = [].
Proof.
  intros Hoff Hlen. unfold memread. rewrite drop_ge by done. by rewrite take_nil.
Qed.

Lemma read_page_at_eof file off page :
  0 <= off -> (length file <= Z.to_nat off)%nat -> read_page file off page = page.
Proof.
  intros Hoff Hlen. unfold read_page. by rewrite memread_past_end.
Qed.

Section PageCache.

Variable malloc_page : Z -> list byte.

(** C7, as the code has it.  When [get_page] misses on a page that starts
    at or after the end of the backing file, the buffer it installs and
    returns is the buffer [malloc] handed out, byte for byte: [get_page]
    writes nothing into it, zeroes included. *)
Theorem get_page_beyond_file_is_malloc_buffer (p : Pager) (n : Z) :
  0 <= n <= TABLE_MAX_PAGES ->
  pages p !! n = None ->
  Z.of_nat (length (file_descriptor p)) <= n * PAGE_SIZE ->
  exists p', get_page malloc_page p n = Ok (malloc_page n, p') /\
             pages p' !! n = Some (malloc_page n).
Proof.
  intros Hn Hmiss Heof. unfold get_page.
  change TABLE_MAX_PAGES with 100 in *. change PAGE_SIZE with 4096 in *.
  destruct (n >? 100) eqn:Hgt; [lia|]. rewrite Hmiss.
  assert (Hrd : read_page (file_descriptor p) (u32 (n * 4096)) (malloc_page n)
                = malloc_page n).
  { unfold u32. rewrite Z.mod_small by lia. apply read_page_at_eof; lia. }
  rewrite Hrd.
  eexists. split.
  - by destruct (n <=? _).
  - simpl. by rewrite lookup_insert_eq.
Qed.

(** Page numbers above [TABLE_MAX_PAGES] are turned down. *)
Lemma get_page_rejects_above (p : Pager) (n : Z) :
  TABLE_MAX_PAGES < n -> get_page malloc_page p n = Fatal PageOutOfBound.
Proof.
  intros Hn. unfold get_page. by destruct (n >? TABLE_MAX_PAGES) eqn:E; [|lia].
Qed.

(** C8.  [get_page] lets page number [TABLE_MAX_PAGES] through: it does
    not exit and, on a miss, fills slot 100, one past the last slot of
    the array. *)
Theorem get_page_accepts_table_max_pages (p : Pager) :
  exists page p',
    get_page malloc_page p TABLE_MAX_PAGES = Ok (page, p') /\
    pages p' !! TABLE_MAX_PAGES = Some page.
Proof.
  unfold get_page. change (TABLE_MAX_PAGES >? TABLE_MAX_PAGES) with false.
  cbv iota.
  destruct (pages p !! TABLE_MAX_PAGES) as [page|] eqn:Hslot.
  - by exists page, p.
  - eexists _, _. split; [reflexivity|]. simpl. by rewrite lookup_insert_eq.
Qed.

End PageCache.

(** ** Preparing an insert *)

Lemma atoi_digits_no_digit s :
  match s with c :: _ => digit_of c = None | [] => True end ->
  atoi_digits s 0 = 0.
Proof. destruct s as [|c s]; [done|]. simpl. by intros ->. Qed.

Lemma atoi_non_numeric s : non_numeric s -> atoi s = 0.
Proof.
  unfold non_numeric, atoi, strip_sign.
  destruct (skip_spaces s) as [|c s']; [done|].
  destruct c as [[] [] [] [] [] [] [] []]; intros H;
    first [ rewrite (atoi_digits_no_digit _ H); reflexivity
          | reflexivity
          | vm_compute in H; discriminate H ].
Qed.

(** C10.  An insert line whose second token holds no number for [atoi]
    and whose third and fourth tokens are at most 32 and 255 characters long
    is prepared with success, and the row gets id 0. *)
Theorem prepare_insert_non_numeric_id
    (buffer keyword id_string username email r1 r2 r3 r4 : list ascii)
    (statement : Statement) :
  strtok buffer = Some (keyword, r1) ->
  strtok r1 = Some (id_string, r2) ->
  strtok r2 = Some (username, r3) ->
  strtok r3 = Some (email, r4) ->
  non_numeric id_string ->
  strlen username <= COLUMN_USERNAME_SIZE ->
  strlen email <= COLUMN_EMAIL_SIZE ->
  exists statement',
    prepare_insert buffer statement = (PREPARE_SUCCESS, statement') /\
    type statement' = STATEMENT_INSERT /\
    id (row_to_insert statement') = 0.
Proof.
  intros Hk Hi Hu He Hnon Hlu Hle. unfold prepare_insert.
  rewrite Hk. simpl. rewrite Hi. simpl. rewrite Hu. simpl. rewrite He.
  rewrite (atoi_non_numeric _ Hnon).
  change (0 <? 0) with false. cbv iota.
  destruct (strlen username >? COLUMN_USERNAME_SIZE) eqn:E1; [lia|].
  destruct (strlen email >? COLUMN_EMAIL_SIZE) eqn:E2; [lia|].
  eexists. split; [reflexivity|]. split; reflexivity.
Qed.

(** ** Loads and stores *)

Lemma load_u8_memwrite_above buf off data k :
  0 <= k < off -> load_u8 (memwrite buf off data) k = load_u8 buf k.
Proof.
  intros Hk. unfold load_u8, memwrite.
  rewrite list_lookup_inserts_lt by lia. done.
Qed.

Lemma load_u32_memwrite_disjoint buf off data k :
  0 <= off -> 0 <= k ->
  k + 4 <= off \/ off + Z.of_nat (length data) <= k ->
  load_u32 (memwrite buf off data) k = load_u32 buf k.
Proof.
  intros. unfold load_u32. by rewrite memread_memwrite_disjoint by lia.
Qed.

Lemma load_store_u32 buf off v :
  0 <= off -> 0 <= v < 4294967296 -> (Z.to_nat off + 4 <= length buf)%nat ->
  load_u32 (store_u32 buf off v) off = v.
Proof.
  intros Hoff Hv Hlen. unfold load_u32, store_u32.
  rewrite memread_memwrite_same; [by apply decode_encode_u32|done|done|].
  by rewrite length_encode_u32.
Qed.

Lemma memwrite_app buf off d1 d2 :
  0 <= off ->
  memwrite (memwrite buf off d1) (off + Z.of_nat (length d1)) d2 = memwrite buf off (d1 ++ d2).
Proof.
  intros Hoff. unfold memwrite. rewrite list_inserts_app_l.
  f_equal. lia.
Qed.

(** A read inside a region that is read whole. *)
Lemma memread_sub buf off a n m :
  0 <= off -> 0 <= a -> 0 <= n -> a + n <= m ->
  memread buf (off + a) n = take (Z.to_nat n) (drop (Z.to_nat a) (memread buf off m)).
Proof.
  intros Hoff Ha Hn Hm. unfold memread. apply list_eq. intros i.
  destruct (decide (i < Z.to_nat n)%nat) as [Hi|Hi].
  - rewrite !lookup_take_lt by done. rewrite !lookup_drop.
    rewrite lookup_take_lt by lia. rewrite lookup_drop. f_equal. lia.
  - by rewrite !lookup_take_ge by lia.
Qed.

Lemma length_memread buf off n :
  0 <= off -> 0 <= n -> (Z.to_nat off + Z.to_nat n <= length buf)%nat ->
  length (memread buf off n) = Z.to_nat n.
Proof.
  intros. unfold memread. rewrite length_take, length_drop. lia.
Qed.

(** ** Cells of a leaf page *)

Lemma leaf_cell_off i : 0 <= i <= 13 -> leaf_node_cell i = 8 + 297 * i.
Proof. intros. apply leaf_node_cell_eq. lia. Qed.

Lemma cell_at_memwrite_cell node i j d :
  length node = 4096%nat -> 0 <= i <= 12 -> 0 <= j <= 12 -> length d = 297%nat ->
  cell_at (memwrite node (leaf_node_cell i) d) j = if decide (i = j) then d else cell_at node j.
Proof.
  intros Hlen Hi Hj Hd. unfold cell_at. rewrite !leaf_cell_off by lia.
  change LEAF_NODE_CELL_SIZE with 297.
  destruct (decide (i = j)) as [->|Hne].
  - apply memread_memwrite_same; lia.
  - apply memread_memwrite_disjoint; lia.
Qed.

Lemma cell_at_memwrite_header node off d j :
  0 <= off -> off + Z.of_nat (length d) <= 8 -> 0 <= j <= 12 ->
  cell_at (memwrite node off d) j = cell_at node j.
Proof.
  intros Hoff Hd Hj. unfold cell_at. rewrite !leaf_cell_off by lia.
  apply memread_memwrite_disjoint; change LEAF_NODE_CELL_SIZE with 297; lia.
Qed.

Lemma length_cell_at node j :
  length node = 4096%nat -> 0 <= j <= 12 -> length (cell_at node j) = 297%nat.
Proof.
  intros Hlen Hj. unfold cell_at. rewrite leaf_cell_off by lia.
  rewrite length_memread; change LEAF_NODE_CELL_SIZE with 297; lia.
Qed.

Lemma length_shift_cells k node i :
  length (shift_cells k node i) = length node.
Proof.
  revert node i. induction k as [|k IH]; intros node i; simpl; [done|].
  by rewrite IH, length_memwrite.
Qed.

(** The header survives the shift. *)
Lemma shift_cells_header k node i :
  Z.of_nat k <= i <= 12 ->
  load_u8 (shift_cells k node i) 0 = load_u8 node 0 /\
  load_u8 (shift_cells k node i) 1 = load_u8 node 1 /\
  load_u32 (shift_cells k node i) 4 = load_u32 node 4.
Proof.
  revert node i. induction k as [|k IH]; intros node i Hi; simpl; [done|].
  assert (Hu : u32 (i - 1) = i - 1) by (unfold u32; rewrite Z.mod_small; lia).
  rewrite Hu. destruct (IH (memwrite node (leaf_node_cell i)
    (memread node (leaf_node_cell (i - 1)) LEAF_NODE_CELL_SIZE)) (i - 1)) as (H0 & H1 & H4); [lia|].
  rewrite H0, H1, H4. rewrite !leaf_cell_off by lia.
  rewrite !load_u8_memwrite_above by lia.
  rewrite load_u32_memwrite_disjoint by lia. done.
Qed.

(** After [k] turns from [i] down, the cells [i - k .. i - 1] have moved
    one place up and every other cell is as before. *)
Lemma shift_cells_cells k node i j :
  length node = 4096%nat -> Z.of_nat k <= i <= 12 -> 0 <= j <= 12 ->
  cell_at (shift_cells k node i) j =
    if decide (i - Z.of_nat k < j <= i) then cell_at node (j - 1) else cell_at node j.
Proof.
  revert node i. induction k as [|k IH]; intros node i Hlen Hi Hj.
  - simpl. destruct (decide _); [lia|done].
  - cbn [shift_cells].
    assert (Hu : u32 (i - 1) = i - 1) by (unfold u32; rewrite Z.mod_small; lia).
    rewrite Hu. fold (cell_at node (i - 1)).
    rewrite IH; [|by rewrite length_memwrite|lia|lia].
    assert (Hd : length (cell_at node (i - 1)) = 297%nat) by (apply length_cell_at; lia).
    destruct (decide (i - 1 - Z.of_nat k < j <= i - 1)) as [Hin|Hout].
    + rewrite cell_at_memwrite_cell by lia.
      destruct (decide (i = j - 1)); [lia|].
      destruct (decide (i - Z.of_nat (S k) < j <= i)); [done|lia].
    + rewrite cell_at_memwrite_cell by lia.
      destruct (decide (i = j)) as [->|Hne].
      * destruct (decide (j - Z.of_nat (S k) < j <= j)); [done|lia].
      * destruct (decide (i - Z.of_nat (S k) < j <= i)); [lia|done].
Qed.

Lemma length_cell_bytes key r : row_wf r -> length (cell_bytes key r) = 297%nat.
Proof.
  intros (_ & Hu & He). unfold cell_bytes.
  rewrite !length_app, !length_encode_u32, Hu, He. reflexivity.
Qed.

(** The key and the row that [leaf_node_insert] writes fill one cell. *)
Lemma serialize_row_after_key buf c key r :
  0 <= c -> length (username r) = 33%nat ->
  serialize_row r (store_u32 buf c key) (c + 4) = memwrite buf c (cell_bytes key r).
Proof.
  intros Hc Hu. unfold serialize_row, store_u32, cell_bytes.
  change ID_OFFSET with 0. change USERNAME_OFFSET with 4. change EMAIL_OFFSET with 37.
  rewrite !app_assoc.
  rewrite <- (memwrite_app buf c (_ ++ username r)) by done.
  rewrite <- (memwrite_app buf c (_ ++ encode_u32 (id r))) by done.
  rewrite <- (memwrite_app buf c (encode_u32 key)) by done.
  rewrite !length_app, !length_encode_u32, Hu.
  change (Z.of_nat 4) with 4. change (Z.of_nat (4 + 4)) with 8.
  change (Z.of_nat (4 + 4 + 33)) with 41.
  by replace (c + 4 + 0) with (c + 4) by lia;
     replace (c + 4 + 4) with (c + 8) by lia;
     replace (c + 4 + 37) with (c + 41) by lia.
Qed.

Lemma lookup_insert_at {A} (cells : list A) (p i : nat) (r x : A) :
  (p <= length cells)%nat ->
  (take p cells ++ r :: drop p cells) !! i = Some x ->
  (i < p)%nat /\ cells !! i = Some x \/
  i = p /\ x = r \/
  (p < i)%nat /\ cells !! (i - 1)%nat = Some x.
Proof.
  intros Hp H. apply lookup_app_Some in H as [H|[Hlen H]].
  - apply lookup_take_Some in H as [H Hi]. by left.
  - rewrite length_take in Hlen, H.
    replace (p `min` length cells)%nat with p in * by lia.
    apply lookup_cons_Some in H as [[Hi ->]|[Hi H]].
    + right; left. split; [lia|done].
    + right; right. rewrite lookup_drop in H. split; [lia|].
      rewrite <- H. f_equal. lia.
Qed.

(** Reading the key and the row back from a cell. *)
Lemma load_key_of_cell node i key r :
  0 <= i <= 12 -> 0 <= key < 4294967296 ->
  cell_at node i = cell_bytes key r ->
  load_u32 node (leaf_node_key i) = key.
Proof.
  intros Hi Hkey Hcell. unfold load_u32, leaf_node_key.
  rewrite <- (Z.add_0_r (leaf_node_cell i)).
  rewrite (memread_sub _ _ 0 4 LEAF_NODE_CELL_SIZE);
    [|rewrite leaf_cell_off by lia; lia|done|done|done].
  fold (cell_at node i). rewrite Hcell. by apply decode_encode_u32.
Qed.

Lemma deserialize_row_of_cell node i key r :
  0 <= i <= 12 -> row_wf r ->
  cell_at node i = cell_bytes key r ->
  deserialize_row node (leaf_node_value i) = r.
Proof.
  intros Hi (Hid & Hu & He) Hcell. unfold deserialize_row, leaf_node_value, void_ptr_add.
  change LEAF_NODE_KEY_SIZE with 4. change ID_OFFSET with 0.
  change USERNAME_OFFSET with 4. change EMAIL_OFFSET with 37.
  change ID_SIZE with 4. change USERNAME_SIZE with 33 in *. change EMAIL_SIZE with 256 in *.
  assert (Hoff : 0 <= leaf_node_cell i) by (rewrite leaf_cell_off by lia; lia).
  replace (leaf_node_cell i + 4 + 0) with (leaf_node_cell i + 4) by lia.
  replace (leaf_node_cell i + 4 + 4) with (leaf_node_cell i + 8) by lia.
  replace (leaf_node_cell i + 4 + 37) with (leaf_node_cell i + 41) by lia.
  rewrite (memread_sub _ _ 4 4 LEAF_NODE_CELL_SIZE) by done.
  rewrite (memread_sub _ _ 8 33 LEAF_NODE_CELL_SIZE) by done.
  rewrite (memread_sub _ _ 41 256 LEAF_NODE_CELL_SIZE) by done.
  fold (cell_at node i). rewrite Hcell. unfold cell_bytes.
  destruct r as [i0 u e]; cbn [id username email] in *. f_equal.
  - rewrite drop_app_length' by done. rewrite take_app_length' by done.
    by apply decode_encode_u32.
  - rewrite app_assoc.
    rewrite drop_app_length' by done.
    by rewrite take_app_length' by lia.
  - rewrite (app_assoc (encode_u32 key)), (app_assoc _ u).
    rewrite drop_app_length' by (rewrite !length_app, !length_encode_u32; lia).
    apply take_ge. lia.
Qed.

(** The page [leaf_node_insert] leaves when the leaf has room. *)
Lemma leaf_insert_page_holds node cells (p : nat) r :
  leaf_holds node cells -> Z.of_nat (length cells) < 13 ->
  (p <= length cells)%nat -> row_wf r ->
  let n := Z.of_nat (length cells) in
  let node1 := if Z.of_nat p <? n
               then shift_cells (Z.to_nat (n - Z.of_nat p)) node n else node in
  let node2 := store_u32 node1 leaf_node_num_cells
                 (u32 (load_u32 node1 leaf_node_num_cells + 1)) in
  let node3 := store_u32 node2 (leaf_node_key (Z.of_nat p)) (id r) in
  leaf_holds (serialize_row r node3 (leaf_node_value (Z.of_nat p)))
             (take p cells ++ r :: drop p cells).
Proof.
  intros (Hlen & Hty & Hroot & Hnum & Hmax & Hwf & Hcells) Hroom Hp Hr n node1 node2 node3.
  change (Z.to_nat PAGE_SIZE) with 4096%nat in Hlen.
  change leaf_node_num_cells with 4 in *.
  unfold get_node_type, is_node_root in *.
  change NODE_TYPE_OFFSET with 0 in *. change IS_ROOT_OFFSET with 1 in *.
  assert (H1 : length node1 = 4096%nat /\ load_u8 node1 0 = load_u8 node 0 /\
               load_u8 node1 1 = load_u8 node 1 /\ load_u32 node1 4 = n /\
               forall j, 0 <= j <= 12 ->
                 cell_at node1 j = if decide (Z.of_nat p < j <= n)
                                   then cell_at node (j - 1) else cell_at node j).
  { subst node1. destruct (Z.of_nat p <? n) eqn:Hlt.
    - destruct (shift_cells_header (Z.to_nat (n - Z.of_nat p)) node n) as (A0 & A1 & A4); [lia|].
      rewrite length_shift_cells. repeat split; try done; [by rewrite A4|].
      intros j Hj. rewrite shift_cells_cells by lia.
      replace (n - Z.of_nat (Z.to_nat (n - Z.of_nat p))) with (Z.of_nat p) by lia. done.
    - repeat split; try done. intros j Hj. destruct (decide _); [lia|done]. }
  destruct H1 as (L1 & T1 & R1 & N1 & C1).
  assert (Hn1 : u32 (load_u32 node1 4 + 1) = n + 1).
  { rewrite N1. unfold u32. rewrite Z.mod_small; lia. }
  assert (Hcp : leaf_node_cell (Z.of_nat p) = 8 + 297 * Z.of_nat p) by (apply leaf_cell_off; lia).
  assert (Hfinal : serialize_row r node3 (leaf_node_value (Z.of_nat p))
                   = memwrite node2 (leaf_node_cell (Z.of_nat p)) (cell_bytes (id r) r)).
  { subst node3. unfold leaf_node_value, leaf_node_key, void_ptr_add.
    change LEAF_NODE_KEY_SIZE with 4. apply serialize_row_after_key; [lia|].
    by destruct Hr as (_ & Hu & _). }
  rewrite Hfinal. clear Hfinal node3.
  assert (L2 : length node2 = 4096%nat) by (subst node2; unfold store_u32; by rewrite length_memwrite).
  pose proof (length_cell_bytes (id r) r Hr) as Lc.
  unfold leaf_holds. change (Z.to_nat PAGE_SIZE) with 4096%nat.
  change leaf_node_num_cells with 4.
  unfold get_node_type, is_node_root.
  change NODE_TYPE_OFFSET with 0. change IS_ROOT_OFFSET with 1.
  assert (Hlen' : length (take p cells ++ r :: drop p cells) = S (length cells)).
  { rewrite length_app, length_take. simpl. rewrite length_drop. lia. }
  rewrite Hlen'. change LEAF_NODE_MAX_CELLS with 13 in *.
  repeat split.
  - by rewrite length_memwrite.
  - rewrite load_u8_memwrite_above by lia. subst node2. unfold store_u32.
    rewrite load_u8_memwrite_above by lia. congruence.
  - rewrite load_u8_memwrite_above by lia. subst node2. unfold store_u32.
    rewrite load_u8_memwrite_above by lia. congruence.
  - rewrite load_u32_memwrite_disjoint by lia. subst node2.
    rewrite load_store_u32; lia.
  - lia.
  - apply Forall_app. split; [by apply Forall_take|].
    constructor; [done|by apply Forall_drop].
  - intros i x Hx. assert (Hi : (i < S (length cells))%nat).
    { rewrite <- Hlen'. by eapply lookup_lt_Some. }
    rewrite cell_at_memwrite_cell by lia.
    apply lookup_insert_at in Hx as [[Hip Hx]|[[-> ->]|[Hip Hx]]]; [| | |done].
    + destruct (decide (Z.of_nat p = Z.of_nat i)); [lia|].
      subst node2. unfold store_u32.
      rewrite cell_at_memwrite_header by (rewrite ?length_encode_u32; lia).
      rewrite C1 by lia. destruct (decide _); [lia|]. by apply Hcells.
    + by destruct (decide (Z.of_nat p = Z.of_nat p)).
    + destruct (decide (Z.of_nat p = Z.of_nat i)); [lia|].
      subst node2. unfold store_u32.
      rewrite cell_at_memwrite_header by (rewrite ?length_encode_u32; lia).
      rewrite C1 by lia. destruct (decide _); [|lia].
      replace (Z.of_nat i - 1) with (Z.of_nat (i - 1)) by lia. by apply Hcells.
Qed.

Lemma rank_all_ge key cells :
  Forall (fun r => key <= id r) cells -> rank key cells = 0%nat.
Proof.
  unfold rank. induction 1 as [|c cs Hc _ IH]; [done|].
  rewrite filter_cons_False by lia. done.
Qed.

(** In an ascending list the rows below [key] are the first [rank key]
    ones, and a row with id [key] sits at index [rank key]. *)
Lemma rank_spec key cells (i : nat) r :
  ascending cells -> cells !! i = Some r ->
  (id r < key <-> (i < rank key cells)%nat) /\ (id r = key -> i = rank key cells).
Proof.
  unfold ascending. intros Hs. revert i. induction Hs as [|c cs Hs IH Hc]; intros i Hi; [done|].
  destruct (decide (id c < key)) as [Hlt|Hge].
  - unfold rank. rewrite filter_cons_True by done. cbn [length]. fold (rank key cs).
    destruct i as [|i]; simpl in Hi.
    + injection Hi as <-. split; [split; [lia|done]|lia].
    + destruct (IH i Hi) as [IH1 IH2]. split; [rewrite IH1; lia|]. intros E. by rewrite <- IH2.
  - assert (Hz : rank key cs = 0%nat).
    { apply rank_all_ge. eapply Forall_impl; [exact Hc|]. simpl. lia. }
    unfold rank. rewrite filter_cons_False by done. fold (rank key cs). rewrite Hz.
    destruct i as [|i]; simpl in Hi.
    + injection Hi as <-. split; [split; lia|done].
    + assert (id c < id r).
      { rewrite Forall_forall in Hc. apply Hc.
        by eapply list_elem_of_lookup_2. }
      split; [split; lia|lia].
Qed.

Lemma rank_le_length key cells : (rank key cells <= length cells)%nat.
Proof. apply length_filter. Qed.

(** The binary search ends at the rank of the key. *)
Lemma leaf_node_find_loop_rank node cells key (fuel : nat) (lo hi : Z) :
  leaf_holds node cells -> ascending cells ->
  0 <= lo <= Z.of_nat (rank key cells) ->
  Z.of_nat (rank key cells) <= hi <= Z.of_nat (length cells) ->
  hi - lo <= Z.of_nat fuel ->
  leaf_node_find_loop fuel node key lo hi = Some (Z.of_nat (rank key cells)).
Proof.
  intros Hleaf Hs. revert lo hi.
  destruct Hleaf as (Hlen & Hty & Hroot & Hnum & Hmax & Hwf & Hcells).
  change LEAF_NODE_MAX_CELLS with 13 in Hmax.
  induction fuel as [|fuel IH]; intros lo hi Hlo Hhi Hfuel.
  - simpl. destruct (hi =? lo) eqn:E; [f_equal; lia|lia].
  - cbn [leaf_node_find_loop]. destruct (hi =? lo) eqn:E; [f_equal; lia|].
    assert (Hu : u32 (lo + hi) = lo + hi) by (unfold u32; rewrite Z.mod_small; lia).
    rewrite Hu. set (index := (lo + hi) / 2).
    assert (Hidx : lo <= index < hi).
    { subst index. pose proof (Z.div_mod (lo + hi) 2 ltac:(lia)).
      pose proof (Z.mod_pos_bound (lo + hi) 2 ltac:(lia)). lia. }
    destruct (lookup_lt_is_Some_2 cells (Z.to_nat index) ltac:(lia)) as [r Hr].
    assert (Hrwf : row_wf r).
    { rewrite Forall_forall in Hwf. apply Hwf.
      by eapply list_elem_of_lookup_2. }
    assert (Hkey : load_u32 node (leaf_node_key index) = id r).
    { apply (load_key_of_cell _ _ _ r); [lia|by destruct Hrwf|].
      rewrite <- (Z2Nat.id index) by lia. by apply Hcells. }
    rewrite Hkey. destruct (rank_spec key cells _ r Hs Hr) as [R1 R2].
    destruct (key =? id r) eqn:Eq.
    { f_equal. rewrite <- R2 by lia. lia. }
    destruct (key <? id r) eqn:Elt.
    + apply IH; lia.
    + assert (Hu1 : u32 (index + 1) = index + 1) by (unfold u32; rewrite Z.mod_small; lia).
      rewrite Hu1. apply IH; lia.
Qed.

(** Putting a fresh row at its rank keeps the list ascending. *)
Lemma insert_at_rank_ascending cells r :
  ascending cells -> id r ∉ map id cells ->
  ascending (take (rank (id r) cells) cells ++ r :: drop (rank (id r) cells) cells).
Proof.
  intros Hs Hnew. set (p := rank (id r) cells). unfold ascending in *.
  pose proof Hs as Hs'. rewrite <- (take_drop p cells) in Hs'.
  apply StronglySorted_app in Hs' as (Hcross & Hs1 & Hs2).
  apply StronglySorted_app. split; [|split; [done|]].
  - intros x1 x2 H1 H2. apply elem_of_cons in H2 as [->|H2]; [|by apply Hcross].
    apply list_elem_of_lookup in H1 as [i Hi].
    apply lookup_take_Some in Hi as [Hi Hlt].
    by apply (rank_spec (id r) cells i x1 Hs Hi).
  - apply StronglySorted_cons. split; [|done].
    apply Forall_forall. intros x Hx. apply list_elem_of_lookup in Hx as [i Hi].
    rewrite lookup_drop in Hi.
    destruct (rank_spec (id r) cells _ x Hs Hi) as [R1 R2].
    assert (id x <> id r).
    { intros E. apply Hnew. rewrite <- E. apply list_elem_of_fmap_2.
      by eapply list_elem_of_lookup_2. }
    fold p in R1. lia.
Qed.

Lemma insert_at_rank_perm {A} (cells : list A) (p : nat) r :
  take p cells ++ r :: drop p cells ≡ₚ r :: cells.
Proof. rewrite <- Permutation_middle. by rewrite take_drop. Qed.

Lemma bind_Ok {A B} (a : A) (f : A -> result B) : (Ok a ≫= f) = f a.
Proof. reflexivity. Qed.

Lemma page_at_put t n node m :
  page_at (put_table_page t n node) m = if decide (n = m) then node else page_at t m.
Proof.
  unfold page_at, put_table_page, put_page. simpl.
  destruct (decide (n = m)) as [->|Hne].
  - by rewrite lookup_insert_eq.
  - by rewrite lookup_insert_ne.
Qed.

Lemma page_at_cached t n node :
  pages (pager t) !! n = Some node -> page_at t n = node.
Proof. unfold page_at. by intros ->. Qed.

Lemma page_at_update t n f m :
  page_at (update_page t n f) m = if decide (n = m) then f (page_at t n) else page_at t m.
Proof. apply page_at_put. Qed.

Lemma is_node_root_memwrite node off d :
  2 <= off -> is_node_root (memwrite node off d) = is_node_root node.
Proof.
  intros. unfold is_node_root. change IS_ROOT_OFFSET with 1.
  by rewrite load_u8_memwrite_above by lia.
Qed.

Lemma is_node_root_serialize_row r node off :
  2 <= off -> is_node_root (serialize_row r node off) = is_node_root node.
Proof.
  intros. unfold serialize_row.
  change ID_OFFSET with 0. change USERNAME_OFFSET with 4. change EMAIL_OFFSET with 37.
  by rewrite !is_node_root_memwrite by lia.
Qed.

Lemma is_node_root_initialize_leaf_node node :
  is_node_root (initialize_leaf_node node) = false.
Proof.
  unfold initialize_leaf_node, store_u32. rewrite is_node_root_memwrite by done.
  destruct node as [|a [|b node]]; reflexivity.
Qed.

(** The rows of a leaf are values of the C type. *)
Lemma cell_row_wf node cells (i : nat) r :
  leaf_holds node cells -> cells !! i = Some r -> row_wf r.
Proof.
  intros (_ & _ & _ & _ & _ & Hwf & _) Hr.
  rewrite Forall_forall in Hwf. apply Hwf. by eapply list_elem_of_lookup_2.
Qed.

(** ** A database of one leaf *)

Section Leaf.

Variable malloc_page : Z -> list byte.
Variable malloc_cursor : Cursor.
Variable LEAF_NODE_SPLIT_COUNT : Z.

Lemma table_get_page_hit t n node :
  pages (pager t) !! n = Some node -> n <= TABLE_MAX_PAGES ->
  table_get_page malloc_page t n = Ok (node, t).
Proof.
  intros Hhit Hn. unfold table_get_page, get_page.
  destruct (n >? TABLE_MAX_PAGES) eqn:E; [lia|]. rewrite Hhit.
  rewrite bind_Ok. by destruct t.
Qed.

(** A page that is not cached yet is faulted in; the other pages stay. *)
Lemma table_get_page_other t n m node :
  n <= TABLE_MAX_PAGES -> n <> m -> pages (pager t) !! m = Some node ->
  exists page t', table_get_page malloc_page t n = Ok (page, t') /\
                  pages (pager t') !! n = Some page /\
                  pages (pager t') !! m = Some node /\
                  root_page_num t' = root_page_num t.
Proof.
  intros Hn Hne Hm. unfold table_get_page, get_page.
  destruct (n >? TABLE_MAX_PAGES) eqn:E; [lia|].
  destruct (pages (pager t) !! n) as [page|] eqn:Hslot; rewrite bind_Ok.
  - exists page. eexists. split; [reflexivity|]. by simpl.
  - eexists _, _. split; [reflexivity|]. simpl.
    rewrite lookup_insert_eq, lookup_insert_ne by done. done.
Qed.

Lemma table_find_rank t cells key :
  single_leaf t cells -> ascending cells ->
  table_find malloc_page malloc_cursor t key
  = Ok ({| page_num := 0; cell_num := Z.of_nat (rank key cells);
           end_of_table := end_of_table malloc_cursor |}, t).
Proof.
  intros (Hroot & Hnp & node & Hpage & Hleaf) Hs. unfold table_find. rewrite Hroot.
  rewrite (table_get_page_hit t 0 node) by done. rewrite bind_Ok.
  destruct Hleaf as (Hlen & Hty & Hleaf'). rewrite Hty. change (NODE_LEAF =? NODE_LEAF) with true.
  cbv iota. unfold leaf_node_find.
  rewrite (table_get_page_hit t 0 node) by done. rewrite bind_Ok.
  destruct Hleaf' as (Hr & Hnum & Hmax & Hwf & Hcells). rewrite Hnum.
  rewrite (leaf_node_find_loop_rank node cells key); try done; try lia.
  pose proof (rank_le_length key cells). lia.
Qed.

(** On a single leaf [execute_insert] looks for the id cut to 16 bits, and
    unless the cell at that rank has the cut id as its key, it gets to
    [leaf_node_insert] with the cursor at that rank and the whole id. *)
Lemma execute_insert_reaches_leaf_node_insert t cells r :
  single_leaf t cells -> ascending cells ->
  (forall x, cells !! rank (u16 (id r)) cells = Some x -> id x <> u16 (id r)) ->
  execute_insert malloc_page malloc_cursor LEAF_NODE_SPLIT_COUNT (insert_statement r) t
  = (t' ← leaf_node_insert malloc_page LEAF_NODE_SPLIT_COUNT
            {| page_num := 0; cell_num := Z.of_nat (rank (u16 (id r)) cells);
               end_of_table := end_of_table malloc_cursor |} (id r) r t;
     mret (EXECUTE_SUCCESS, t')).
Proof.
  intros Hsl Hs Hnodup. open_single_leaf Hsl.
  unfold execute_insert. rewrite Hroot.
  rewrite (table_get_page_hit t 0 node) by done. rewrite bind_Ok.
  cbn [row_to_insert insert_statement].
  rewrite (table_find_rank t cells (u16 (id r)) Hsl Hs), bind_Ok.
  cbn [cell_num page_num]. set (p := rank (u16 (id r)) cells) in *.
  rewrite Hnum.
  destruct (Z.of_nat p <? Z.of_nat (length cells)) eqn:Elt; [|done]. cbn [andb].
  destruct (lookup_lt_is_Some_2 cells p ltac:(lia)) as [x Hx].
  rewrite (load_key_of_cell node _ (id x) x);
    [|lia|by destruct (cell_row_wf _ _ _ _ Hleaf Hx)|by apply Hcells].
  by destruct (Z.eqb_spec (id x) (u16 (id r))) as [E|E]; [destruct (Hnodup x Hx E)|].
Qed.

(** With room in the leaf the row is stored, under its whole id, at the
    rank of its cut id. *)
Lemma execute_insert_at_truncated_rank t cells r :
  single_leaf t cells -> ascending cells -> row_wf r ->
  Z.of_nat (length cells) < LEAF_NODE_MAX_CELLS ->
  (forall x, cells !! rank (u16 (id r)) cells = Some x -> id x <> u16 (id r)) ->
  exists t',
    execute_insert malloc_page malloc_cursor LEAF_NODE_SPLIT_COUNT (insert_statement r) t
    = Ok (EXECUTE_SUCCESS, t') /\
    single_leaf t' (take (rank (u16 (id r)) cells) cells
                      ++ r :: drop (rank (u16 (id r)) cells) cells).
Proof.
  intros Hsl Hs Hr Hroom Hnodup.
  rewrite (execute_insert_reaches_leaf_node_insert t cells r Hsl Hs Hnodup).
  open_single_leaf Hsl. set (p := rank (u16 (id r)) cells) in *.
  pose proof (rank_le_length (u16 (id r)) cells) as Hp. fold p in Hp.
  unfold leaf_node_insert. cbn [page_num cell_num].
  rewrite (table_get_page_hit t 0 node) by done. rewrite bind_Ok, Hnum.
  destruct (Z.of_nat (length cells) >=? LEAF_NODE_MAX_CELLS) eqn:Efull;
    [change LEAF_NODE_MAX_CELLS with 13 in Efull; lia|].
  unfold mret, result_ret. rewrite !bind_Ok.
  eexists. split; [reflexivity|].
  split; [done|]. split; [done|]. eexists. split.
  - unfold put_table_page, put_page. simpl. by rewrite lookup_insert_eq.
  - rewrite <- Hnum at 2. rewrite Hnum. by apply leaf_insert_page_holds.
Qed.

(** When the cell at the rank of the cut id has the cut id as its key, the
    row is turned down and the table stays as it is. *)
Lemma execute_insert_duplicate t cells r x :
  single_leaf t cells -> ascending cells ->
  cells !! rank (u16 (id r)) cells = Some x -> id x = u16 (id r) ->
  execute_insert malloc_page malloc_cursor LEAF_NODE_SPLIT_COUNT (insert_statement r) t
  = Ok (EXECUTE_DUPLICATE_KEY, t).
Proof.
  intros Hsl Hs Hx Hid. open_single_leaf Hsl.
  unfold execute_insert. rewrite Hroot.
  rewrite (table_get_page_hit t 0 node) by done. rewrite bind_Ok.
  cbn [row_to_insert insert_statement].
  rewrite (table_find_rank t cells (u16 (id r)) Hsl Hs), bind_Ok.
  cbn [cell_num page_num]. set (p := rank (u16 (id r)) cells) in *.
  pose proof (lookup_lt_Some _ _ _ Hx) as Hp.
  rewrite Hnum, (load_key_of_cell node _ (id x) x);
    [|lia|by destruct (cell_row_wf _ _ _ _ Hleaf Hx)|by apply Hcells].
  rewrite Hid, Z.eqb_refl.
  destruct (Z.of_nat p <? Z.of_nat (length cells)) eqn:Elt; [done|lia].
Qed.

(** An id below 65536 is its own cut, and when it is new no cell has it. *)
Lemma fresh_id_not_at_rank cells r :
  row_wf r -> id r < 65536 -> id r ∉ map id cells ->
  u16 (id r) = id r /\
  forall x, cells !! rank (u16 (id r)) cells = Some x -> id x <> u16 (id r).
Proof.
  intros (Hid & _) Hsmall Hnew.
  assert (Hu16 : u16 (id r) = id r) by (unfold u16; rewrite Z.mod_small; lia).
  split; [done|]. intros x Hx E. apply Hnew. rewrite <- Hu16, <- E.
  apply list_elem_of_fmap_2. by eapply list_elem_of_lookup_2.
Qed.

(** A row with a new id below 65536 goes into a leaf that has room, at
    its rank. *)
Lemma execute_insert_fresh t cells r :
  single_leaf t cells -> ascending cells ->
  row_wf r -> id r < 65536 -> id r ∉ map id cells ->
  Z.of_nat (length cells) < LEAF_NODE_MAX_CELLS ->
  exists t',
    execute_insert malloc_page malloc_cursor LEAF_NODE_SPLIT_COUNT (insert_statement r) t
    = Ok (EXECUTE_SUCCESS, t') /\
    single_leaf t' (take (rank (id r) cells) cells ++ r :: drop (rank (id r) cells) cells).
Proof.
  intros Hsl Hs Hr Hsmall Hnew Hroom.
  destruct (fresh_id_not_at_rank cells r Hr Hsmall Hnew) as [Hu16 Hnodup].
  destruct (execute_insert_at_truncated_rank t cells r) as (t' & Hins & Hsl'); try done.
  rewrite Hu16 in Hsl'. by exists t'.
Qed.

(** On a leaf that is full and not flagged as root, the split ends in the
    exit for the parent update. *)
Lemma leaf_node_split_and_insert_not_root c key value t node :
  root_page_num t = 0 -> num_pages (pager t) = 1 -> page_num c = 0 ->
  pages (pager t) !! 0 = Some node -> is_node_root node = false ->
  leaf_node_split_and_insert malloc_page LEAF_NODE_SPLIT_COUNT c key value t
  = Fatal ParentUpdateUnimplemented.
Proof.
  intros Hroot Hnp Hc Hpage Hnr. unfold leaf_node_split_and_insert. rewrite Hc.
  rewrite (table_get_page_hit t 0 node) by done. rewrite bind_Ok.
  unfold get_unused_page_num. rewrite Hnp.
  destruct (table_get_page_other t 1 0 node) as (page & t1 & Hget & H1 & H0 & Hr1); try done.
  rewrite Hget, bind_Ok.
  unfold split_loop_body. rewrite Hc.
  set (t2 := update_page t1 1 initialize_leaf_node).
  assert (Hold2 : is_node_root (page_at t2 0) = false).
  { subst t2. rewrite page_at_update. destruct (decide (1 = 0)); [done|].
    unfold page_at. by rewrite H0. }
  assert (Hcell : leaf_node_cell (LEAF_NODE_MAX_CELLS `mod` LEAF_NODE_LEFT_SPLIT_COUNT) = 1790)
    by reflexivity.
  rewrite Hcell.
  match goal with |- context [update_page (update_page ?t3 0 _) 1 _] => set (t3' := t3) end.
  assert (Hold3 : is_node_root (page_at t3' 0) = false).
  { subst t3'.
    destruct (LEAF_NODE_MAX_CELLS >=? LEAF_NODE_SPLIT_COUNT),
             (LEAF_NODE_MAX_CELLS =? cell_num c), (LEAF_NODE_MAX_CELLS >? cell_num c);
      rewrite page_at_update; try (destruct (decide (1 = 0)); [done|exact Hold2]);
      (destruct (decide (0 = 0)); [|done]);
      rewrite ?is_node_root_serialize_row, ?is_node_root_memwrite by done; exact Hold2. }
  assert (Hfinal : is_node_root (page_at
      (update_page (update_page t3' 0
         (fun n => store_u32 n leaf_node_num_cells LEAF_NODE_LEFT_SPLIT_COUNT)) 1
         (fun n => store_u32 n leaf_node_num_cells LEAF_NODE_RIGHT_SPLIT_COUNT)) 0) = false).
  { rewrite !page_at_update. destruct (decide (1 = 0)); [done|].
    destruct (decide (0 = 0)); [|done]. unfold store_u32.
    by rewrite is_node_root_memwrite by done. }
  by rewrite Hfinal.
Qed.

(** A row that is not turned down and meets a full leaf: the insert does
    not return. *)
Lemma execute_insert_full t cells r :
  single_leaf t cells -> ascending cells ->
  (forall x, cells !! rank (u16 (id r)) cells = Some x -> id x <> u16 (id r)) ->
  Z.of_nat (length cells) = LEAF_NODE_MAX_CELLS ->
  execute_insert malloc_page malloc_cursor LEAF_NODE_SPLIT_COUNT (insert_statement r) t
  = Fatal ParentUpdateUnimplemented.
Proof.
  intros Hsl Hs Hnodup Hfull.
  rewrite (execute_insert_reaches_leaf_node_insert t cells r Hsl Hs Hnodup).
  open_single_leaf Hsl.
  unfold leaf_node_insert. cbn [page_num cell_num].
  rewrite (table_get_page_hit t 0 node) by done. rewrite bind_Ok.
  rewrite Hnum, Hfull. change (13 >=? LEAF_NODE_MAX_CELLS) with true. cbv iota.
  by rewrite (leaf_node_split_and_insert_not_root _ _ _ t node).
Qed.

(** Rows with new ids below 65536 all go in while the leaf has room. *)
Lemma execute_inserts_fresh rows : forall t cells,
  single_leaf t cells -> ascending cells ->
  Forall row_wf rows -> Forall (fun r => id r < 65536) rows ->
  NoDup (map id (rows ++ cells)) ->
  Z.of_nat (length rows + length cells) <= LEAF_NODE_MAX_CELLS ->
  exists t' cells',
    execute_inserts malloc_page malloc_cursor LEAF_NODE_SPLIT_COUNT rows t
    = Ok (map (fun _ => EXECUTE_SUCCESS) rows, t') /\
    single_leaf t' cells' /\ ascending cells' /\ cells' ≡ₚ rows ++ cells.
Proof.
  induction rows as [|r rows IH]; intros t cells Hsl Hs Hwf Hsmall Hnd Hroom.
  - exists t, cells. split; [done|]. split; [done|]. split; done.
  - apply Forall_cons in Hwf as [Hr Hwf]. apply Forall_cons in Hsmall as [Hr16 Hsmall].
    cbn [app map] in Hnd. apply NoDup_cons in Hnd as [Hnew Hnd].
    cbn [length] in Hroom.
    assert (Hnew' : id r ∉ map id cells).
    { intros Hin. apply Hnew. rewrite map_app. apply elem_of_app. by right. }
    destruct (execute_insert_fresh t cells r) as (t1 & Hins & Hsl1); try done; [lia|].
    set (cells1 := take (rank (id r) cells) cells ++ r :: drop (rank (id r) cells) cells) in *.
    assert (Hperm1 : cells1 ≡ₚ r :: cells) by apply insert_at_rank_perm.
    destruct (IH t1 cells1) as (t' & cells' & Hrun & Hsl' & Hs' & Hperm'); try done.
    + by apply insert_at_rank_ascending.
    + rewrite map_app. rewrite Hperm1. cbn [map].
      rewrite <- Permutation_middle. constructor; [|by rewrite <- map_app].
      rewrite <- map_app. done.
    + rewrite Hperm1. cbn [length]. lia.
    + exists t', cells'. split; [|split; [done|split; [done|]]].
      * cbn [execute_inserts map]. fold (insert_statement r).
        rewrite Hins, bind_Ok, Hrun, bind_Ok. done.
      * rewrite Hperm', Hperm1. cbn [app]. by rewrite <- Permutation_middle.
Qed.

(** The scan of a single leaf gives its cells from the cursor on. *)
Lemma select_loop_cells t cells (fuel : nat) : forall (i : nat),
  single_leaf t cells ->
  (i < length cells)%nat -> (length cells - i <= fuel)%nat ->
  select_loop malloc_page fuel
    {| page_num := 0; cell_num := Z.of_nat i; end_of_table := false |} t
  = Ok (drop i cells, t).
Proof.
  induction fuel as [|fuel IH]; intros i Hsl Hi Hfuel; [lia|].
  open_single_leaf Hsl.
  cbn [select_loop end_of_table]. unfold cursor_value, cursor_advance.
  cbn [page_num cell_num end_of_table].
  rewrite (table_get_page_hit t 0 node) by done.
  unfold mret, result_ret. rewrite !bind_Ok.
  rewrite (table_get_page_hit t 0 node) by done. rewrite !bind_Ok.
  destruct (lookup_lt_is_Some_2 cells i Hi) as [r Hr].
  assert (Hrwf : row_wf r).
  { rewrite Forall_forall in Hwf. apply Hwf. by eapply list_elem_of_lookup_2. }
  rewrite (deserialize_row_of_cell node _ (id r) r); [|lia|done|by apply Hcells].
  assert (Hu : u32 (Z.of_nat i + 1) = Z.of_nat (S i)).
  { unfold u32. rewrite Z.mod_small; lia. }
  rewrite Hu, Hnum.
  rewrite (drop_S cells r i Hr).
  destruct (Z.of_nat (S i) >=? Z.of_nat (length cells)) eqn:Eend.
  - apply Z.geb_le in Eend.
    destruct fuel; cbn [select_loop end_of_table]; rewrite bind_Ok;
      rewrite drop_ge by lia; done.
  - rewrite Z.geb_leb in Eend. apply Z.leb_gt in Eend. rewrite IH by (done || lia). by rewrite bind_Ok.
Qed.

Lemma execute_select_cells st t cells :
  single_leaf t cells ->
  execute_select malloc_page st t = Ok (EXECUTE_SUCCESS, cells, t).
Proof.
  intros Hsl.
  open_single_leaf Hsl.
  unfold execute_select, table_start. rewrite Hroot.
  rewrite (table_get_page_hit t 0 node) by done.
  unfold mret, result_ret. rewrite !bind_Ok. rewrite Hroot.
  rewrite (page_at_cached t 0 node Hpage), !Hnum, Nat2Z.id.
  destruct cells as [|c cells'].
  - reflexivity.
  - change (Z.of_nat (length (c :: cells')) =? 0) with false.
    rewrite (select_loop_cells t (c :: cells') _ 0%nat Hsl); [done|simpl; lia|lia].
Qed.

Lemma db_open_empty_eq :
  db_open malloc_page [] = Ok (empty_table malloc_page).
Proof.
  unfold empty_table.
  unfold db_open. change (pager_open []) with
    (Ok {| file_descriptor := []; file_length := 0; num_pages := 0; pages := ∅ |}).
  rewrite bind_Ok. cbn [num_pages]. change (0 =? 0) with true. cbv iota.
  unfold table_get_page, get_page. cbn [pager pages file_length file_descriptor num_pages].
  change (0 >? TABLE_MAX_PAGES) with false. cbv iota.
  rewrite lookup_empty.
  change (read_page [] (u32 (0 * PAGE_SIZE)) (malloc_page 0)) with (malloc_page 0).
  change (0 <=? _) with true. cbv iota. rewrite bind_Ok.
  unfold mret, result_ret. rewrite bind_Ok. unfold update_page, page_at.
  cbn [pager pages root_page_num]. rewrite lookup_insert_eq. cbn [default from_option].
  unfold put_table_page, put_page. cbn [pager pages root_page_num file_length file_descriptor num_pages].
  rewrite insert_insert_eq. reflexivity.
Qed.

(** Opening an empty file gives a single empty leaf. *)
Lemma db_open_empty :
  length (malloc_page 0) = Z.to_nat PAGE_SIZE ->
  exists t, db_open malloc_page [] = Ok t /\ single_leaf t [].
Proof.
  intros Hlen. eexists. split; [apply db_open_empty_eq|]. unfold empty_table.
  split; [done|]. split; [done|]. eexists. split; [apply lookup_insert_eq|].
  change (Z.to_nat PAGE_SIZE) with 4096%nat in *.
  unfold leaf_holds. change (Z.to_nat PAGE_SIZE) with 4096%nat.
  split; [|split; [|split; [|split; [|split; [done|split; [done|done]]]]]].
  - unfold initialize_leaf_node, store_u32, set_node_root, set_node_type, store_u8.
    by rewrite !length_memwrite.
  - destruct (malloc_page 0) as [|a [|b l]]; try done.
  - apply is_node_root_initialize_leaf_node.
  - unfold initialize_leaf_node. rewrite load_store_u32; try done.
    unfold set_node_root, set_node_type, store_u8. rewrite !length_memwrite, Hlen.
    change leaf_node_num_cells with 4. lia.
Qed.

End Leaf.

(** ** Sessions on a new database file *)

Section Sessions.

Variable malloc_page : Z -> list byte.
Variable malloc_cursor : Cursor.
Variable LEAF_NODE_SPLIT_COUNT : Z.

(** C1, as the code has it.  Rows with pairwise distinct ids below 65536,
    at most [LEAF_NODE_MAX_CELLS] = 13 of them, inserted in any order into a
    new database: every insert succeeds, and the select that follows prints
    exactly these rows, in ascending order of id.  This holds whatever
    [malloc] left in the page and whatever [LEAF_NODE_SPLIT_COUNT] is. *)
Theorem insert_then_scan_single_leaf (rows : list Row) (st : Statement) :
  length (malloc_page 0) = Z.to_nat PAGE_SIZE ->
  Forall row_wf rows ->
  Forall (fun r => id r < 65536) rows ->
  NoDup (map id rows) ->
  Z.of_nat (length rows) <= LEAF_NODE_MAX_CELLS ->
  exists t0 t1 scanned,
    db_open malloc_page [] = Ok t0 /\
    execute_inserts malloc_page malloc_cursor LEAF_NODE_SPLIT_COUNT rows t0
    = Ok (map (fun _ => EXECUTE_SUCCESS) rows, t1) /\
    execute_select malloc_page st t1 = Ok (EXECUTE_SUCCESS, scanned, t1) /\
    Permutation scanned rows /\
    ascending scanned.
Proof.
  intros Hm Hwf Hsmall Hnd Hlen.
  destruct (db_open_empty malloc_page Hm) as (t0 & Hopen & Hsl0).
  destruct (execute_inserts_fresh malloc_page malloc_cursor LEAF_NODE_SPLIT_COUNT rows t0 [])
    as (t1 & cells & Hrun & Hsl1 & Hs1 & Hperm); try done.
  - constructor.
  - by rewrite app_nil_r.
  - simpl. lia.
  - exists t0, t1, cells. split; [done|]. split; [done|].
    split; [by apply execute_select_cells|]. split; [|done].
    by rewrite app_nil_r in Hperm.
Qed.

(** C2.  Fourteen rows with distinct ids below 65536 (ascending ids are one
    such order) into a new database: thirteen inserts succeed and leave
    page 0 a leaf; the fourteenth starts the split and exits in it, at the
    parent update that is not implemented, because the root page was never
    flagged as root.  [create_new_root] is not reached. *)
Theorem fourteenth_insert_exits (rows : list Row) (r : Row) :
  length (malloc_page 0) = Z.to_nat PAGE_SIZE ->
  Forall row_wf (rows ++ [r]) ->
  Forall (fun r => id r < 65536) (rows ++ [r]) ->
  NoDup (map id (rows ++ [r])) ->
  Z.of_nat (length rows) = LEAF_NODE_MAX_CELLS ->
  exists t0 t1,
    db_open malloc_page [] = Ok t0 /\
    execute_inserts malloc_page malloc_cursor LEAF_NODE_SPLIT_COUNT rows t0
    = Ok (map (fun _ => EXECUTE_SUCCESS) rows, t1) /\
    get_node_type (page_at t1 0) = NODE_LEAF /\
    execute_insert malloc_page malloc_cursor LEAF_NODE_SPLIT_COUNT (insert_statement r) t1
    = Fatal ParentUpdateUnimplemented.
Proof.
  intros Hm Hwf Hsmall Hnd Hlen.
  apply Forall_app in Hwf as [Hwf Hr]. apply Forall_app in Hsmall as [Hsmall Hr16].
  rewrite Forall_singleton in Hr, Hr16.
  rewrite map_app in Hnd. apply NoDup_app in Hnd as (Hnd & Hnew & _).
  destruct (db_open_empty malloc_page Hm) as (t0 & Hopen & Hsl0).
  destruct (execute_inserts_fresh malloc_page malloc_cursor LEAF_NODE_SPLIT_COUNT rows t0 [])
    as (t1 & cells & Hrun & Hsl1 & Hs1 & Hperm); try done.
  - constructor.
  - by rewrite app_nil_r.
  - simpl. lia.
  - rewrite app_nil_r in Hperm.
    exists t0, t1. split; [done|]. split; [done|]. split.
    + destruct Hsl1 as (_ & _ & node & Hpage & Hleaf).
      rewrite (page_at_cached _ _ _ Hpage). by destruct Hleaf as (_ & Hty & _).
    + assert (Hfresh : id r ∉ map id cells).
      { intros Hin. rewrite Hperm in Hin. apply (Hnew _ Hin). simpl. by left. }
      assert (Hfull : Z.of_nat (length cells) = LEAF_NODE_MAX_CELLS) by (by rewrite Hperm).
      apply (execute_insert_full _ _ _ t1 cells); try done.
      by apply fresh_id_not_at_rank.
Qed.

(** C5.  After [db_open] on an empty file the root is page 0 and its
    [is_root] byte is 0, not 1: [initialize_leaf_node] clears the flag and
    nothing sets it. *)
Theorem root_flag_after_db_open :
  exists t, db_open malloc_page [] = Ok t /\
            root_page_num t = 0 /\
            load_u8 (page_at t 0) IS_ROOT_OFFSET = 0 /\
            is_node_root (page_at t 0) = false.
Proof.
  eexists. split; [apply db_open_empty_eq|]. split; [done|].
  unfold page_at, empty_table. cbn [pager pages]. rewrite lookup_insert_eq.
  cbn [default from_option].
  pose proof (is_node_root_initialize_leaf_node (malloc_page 0)) as H.
  split; [|exact H]. unfold is_node_root in H.
  by destruct (load_u8 _ _ =? 0) eqn:E; [apply Z.eqb_eq in E|].
Qed.

(** The verdict of the duplicate check depends on the id through its last
    16 bits only, in every state of the table. *)
Lemma execute_insert_duplicate_congruent (t t' : Table) (r1 r2 : Row) :
  u16 (id r1) = u16 (id r2) ->
  execute_insert malloc_page malloc_cursor LEAF_NODE_SPLIT_COUNT (insert_statement r1) t
  = Ok (EXECUTE_DUPLICATE_KEY, t') ->
  execute_insert malloc_page malloc_cursor LEAF_NODE_SPLIT_COUNT (insert_statement r2) t
  = Ok (EXECUTE_DUPLICATE_KEY, t').
Proof.
  intros Hcong. unfold execute_insert. cbn [row_to_insert insert_statement].
  rewrite <- Hcong.
  destruct (table_get_page malloc_page t (root_page_num t)) as [[node t0]|e|];
    [|done|done].
  rewrite !bind_Ok.
  destruct (table_find malloc_page malloc_cursor t0 (u16 (id r1))) as [[c t1]|e|]; [|done|done].
  rewrite !bind_Ok.
  destruct (_ && _); [done|].
  intros H. match type of H with (?m ≫= _) = _ => destruct m; discriminate H end.
Qed.

End Sessions.

(** ** The theorems at sample inputs *)

Lemma empty_table_single_leaf malloc_page :
  length (malloc_page 0) = Z.to_nat PAGE_SIZE -> single_leaf (empty_table malloc_page) [].
Proof.
  intros Hm. destruct (db_open_empty malloc_page Hm) as (t & Hopen & Hsl).
  rewrite db_open_empty_eq in Hopen. by injection Hopen as <-.
Qed.

Lemma sample_row_wf i : 0 <= i < 4294967296 -> row_wf (sample_row i).
Proof. intros Hi. unfold row_wf. cbn [id sample_row]. repeat split; try lia; reflexivity. Qed.

Lemma sample_row_valid i : 0 <= i < 4294967296 -> row_valid (sample_row i).
Proof.
  intros Hi. split; [by apply sample_row_wf|].
  split; apply list_elem_of_In; apply (bool_decide_unpack _); by vm_compute.
Qed.

(** C1 fails as stated: fourteen rows with ids 1 to 14 do not all go in
    (the session exits in the fourteenth insert), and the two rows with ids
    1 and 65536, inserted in this order, are scanned in descending order. *)
Lemma scan_counterexample :
  session stale_malloc stale_cursor 7 (map sample_row [1; 2; 3; 4; 5; 6; 7; 8; 9; 10; 11; 12; 13; 14])
  = Fatal ParentUpdateUnimplemented /\
  session stale_malloc stale_cursor 7 [sample_row 1; sample_row 65536]
  = Ok ([EXECUTE_SUCCESS; EXECUTE_SUCCESS], [sample_row 65536; sample_row 1]).
Proof. split; vm_compute; reflexivity. Qed.

(** C1 at the rows with ids 3, 1, 2. *)
Lemma insert_then_scan_single_leaf_witness :
  exists t0 t1 scanned,
    db_open zeroed_malloc [] = Ok t0 /\
    execute_inserts zeroed_malloc stale_cursor 7 (map sample_row [3; 1; 2]) t0
    = Ok ([EXECUTE_SUCCESS; EXECUTE_SUCCESS; EXECUTE_SUCCESS], t1) /\
    execute_select zeroed_malloc select_statement t1 = Ok (EXECUTE_SUCCESS, scanned, t1) /\
    Permutation scanned (map sample_row [3; 1; 2]) /\
    ascending scanned.
Proof.
  apply (insert_then_scan_single_leaf zeroed_malloc stale_cursor 7 (map sample_row [3; 1; 2])
           select_statement).
  - reflexivity.
  - forall_by ltac:(apply sample_row_wf; lia).
  - forall_by ltac:(cbn [id sample_row]; lia).
  - apply (bool_decide_unpack _). vm_compute. exact I.
  - vm_compute. discriminate.
Defined.

(** C3.  The duplicate check compares the id cut to 16 bits.  After row 1,
    the row with id 65537, which the table does not hold, is turned down as a
    duplicate; and the row with id 65536 is accepted twice, so that the
    table holds the id twice. *)
Theorem duplicate_check_misjudges_ids :
  session stale_malloc stale_cursor 7 [sample_row 1; sample_row 65537]
  = Ok ([EXECUTE_SUCCESS; EXECUTE_DUPLICATE_KEY], [sample_row 1]) /\
  session stale_malloc stale_cursor 7 [sample_row 65536; sample_row 65536]
  = Ok ([EXECUTE_SUCCESS; EXECUTE_SUCCESS], [sample_row 65536; sample_row 65536]).
Proof. split; vm_compute; reflexivity. Qed.

(** C2 at the rows with ids 1 to 14, in ascending order. *)
Lemma fourteenth_insert_exits_witness :
  exists t0 t1,
    db_open zeroed_malloc [] = Ok t0 /\
    execute_inserts zeroed_malloc stale_cursor 7
      (map sample_row [1; 2; 3; 4; 5; 6; 7; 8; 9; 10; 11; 12; 13]) t0
    = Ok (map (fun _ => EXECUTE_SUCCESS)
            (map sample_row [1; 2; 3; 4; 5; 6; 7; 8; 9; 10; 11; 12; 13]), t1) /\
    get_node_type (page_at t1 0) = NODE_LEAF /\
    execute_insert zeroed_malloc stale_cursor 7 (insert_statement (sample_row 14)) t1
    = Fatal ParentUpdateUnimplemented.
Proof.
  apply (fourteenth_insert_exits zeroed_malloc stale_cursor 7
           (map sample_row [1; 2; 3; 4; 5; 6; 7; 8; 9; 10; 11; 12; 13]) (sample_row 14)).
  - reflexivity.
  - forall_by ltac:(apply sample_row_wf; lia).
  - forall_by ltac:(cbn [id sample_row]; lia).
  - apply (bool_decide_unpack _). vm_compute. exact I.
  - reflexivity.
Defined.

(** C7 fails as stated: on an empty file, with an allocator that hands out
    a used buffer, the page 0 that [get_page] returns to [db_open] starts
    with the byte 255. *)
Lemma get_page_stale_buffer :
  exists p page p',
    pager_open [] = Ok p /\
    get_page stale_malloc p 0 = Ok (page, p') /\
    load_u8 page 0 = 255.
Proof. eexists _, _, _. split; [reflexivity|]. split; reflexivity. Qed.

(** C7 at page 1 of an empty file. *)
Lemma get_page_beyond_file_is_malloc_buffer_witness :
  exists p',
    get_page stale_malloc
      {| file_descriptor := []; file_length := 0; num_pages := 0; pages := ∅ |} 1
    = Ok (stale_malloc 1, p') /\
    pages p' !! 1 = Some (stale_malloc 1).
Proof.
  apply (get_page_beyond_file_is_malloc_buffer stale_malloc
           {| file_descriptor := []; file_length := 0; num_pages := 0; pages := ∅ |} 1).
  - vm_compute. split; discriminate.
  - reflexivity.
  - vm_compute. discriminate.
Defined.

(** C6 at the row [(7, user, u@x)], written at offset 12 of a page. *)
Lemma deserialize_serialize_row_witness :
  deserialize_row (serialize_row (sample_row 7) (replicate 4096 0) 12) 12 = sample_row 7.
Proof.
  apply (deserialize_serialize_row (sample_row 7) (replicate 4096 0) 12).
  - apply sample_row_valid. lia.
  - lia.
  - vm_compute. lia.
Defined.

(** C10 at the line [insert abc bob b@x]. *)
Lemma prepare_insert_non_numeric_id_witness :
  exists statement',
    prepare_insert sample_line select_statement = (PREPARE_SUCCESS, statement') /\
    type statement' = STATEMENT_INSERT /\
    id (row_to_insert statement') = 0.
Proof.
  apply (prepare_insert_non_numeric_id sample_line
           (list_ascii_of_string "insert") (list_ascii_of_string "abc")
           (list_ascii_of_string "bob") (list_ascii_of_string "b@x")
           (list_ascii_of_string "abc bob b@x") (list_ascii_of_string "bob b@x")
           (list_ascii_of_string "b@x") [] select_statement).
  - reflexivity.
  - reflexivity.
  - reflexivity.
  - reflexivity.
  - reflexivity.
  - vm_compute. discriminate.
  - vm_compute. discriminate.
Defined.

(** ** The page cache, once more *)

Section Cache.

Variable malloc_page : Z -> list byte.
Hypothesis malloc_size : forall n, length (malloc_page n) = Z.to_nat PAGE_SIZE.

Lemma length_read_page file off page :
  length (read_page file off page) = length page.
Proof. unfold read_page. apply length_memwrite. Qed.

Lemma get_page_again (p p' : Pager) (n : Z) (page : list byte) :
  get_page malloc_page p n = Ok (page, p') ->
  pages p' !! n = Some page /\ get_page malloc_page p' n = Ok (page, p').
Proof.
  unfold get_page. destruct (n >? TABLE_MAX_PAGES) eqn:E; [done|].
  destruct (pages p !! n) as [x|] eqn:Hslot.
  - intros [= <- <-]. by rewrite Hslot.
  - intros [= <- <-]. cbn [pages]. by rewrite lookup_insert_eq.
Qed.

Lemma get_page_pager_wf (p p' : Pager) (n : Z) (page : list byte) :
  pager_wf p -> 0 <= n ->
  get_page malloc_page p n = Ok (page, p') ->
  pager_wf p' /\
  length page = Z.to_nat PAGE_SIZE /\
  file_descriptor p' = file_descriptor p /\
  file_length p' = file_length p /\
  num_pages p <= num_pages p' /\ n < num_pages p' /\
  (forall i x, pages p !! i = Some x -> pages p' !! i = Some x) /\
  (forall i, i <> n -> pages p' !! i = pages p !! i).
Proof.
  intros [Hnp Hwf] Hn. unfold get_page.
  destruct (Z.gtb_spec n TABLE_MAX_PAGES) as [E|E]; [done|].
  change TABLE_MAX_PAGES with 100 in *.
  destruct (pages p !! n) as [x|] eqn:Hslot.
  - intros [= <- <-]. destruct (Hwf n x Hslot) as (Hi & _ & Hlen).
    split; [by split|]. split; [done|]. split; [done|]. split; [done|].
    split; [lia|]. split; [lia|]. by split.
  - intros [= <- <-]. cbn [pages num_pages file_descriptor file_length].
    assert (Hu : u32 (n + 1) = n + 1) by (unfold u32; rewrite Z.mod_small; lia).
    rewrite Hu.
    match goal with |- context [<[n := ?x]> _] => set (page' := x) end.
    assert (Hlen : length page' = Z.to_nat PAGE_SIZE).
    { subst page'. destruct (n <=? _); [rewrite length_read_page|]; apply malloc_size. }
    clearbody page'.
    unfold pager_wf. cbn [pages num_pages file_descriptor file_length].
    change TABLE_MAX_PAGES with 100.
    split; [|split; [done|]].
    + split; [destruct (Z.geb_spec n (num_pages p)); lia|].
      intros i y Hy. destruct (decide (i = n)) as [Heq|Hne].
      * subst i. rewrite lookup_insert_eq in Hy. injection Hy as <-.
        split; [destruct (Z.geb_spec n (num_pages p)); lia|]. split; [lia|done].
      * rewrite lookup_insert_ne in Hy by done. destruct (Hwf i y Hy) as (? & ? & ?).
        split; [destruct (Z.geb_spec n (num_pages p)); lia|]. done.
    + split; [done|]. split; [done|].
      split; [destruct (Z.geb_spec n (num_pages p)); lia|].
      split; [destruct (Z.geb_spec n (num_pages p)); lia|]. split.
      * intros i y Hy. rewrite lookup_insert_ne; [done|]. intros ->. congruence.
      * intros i Hi. by rewrite lookup_insert_ne.
Qed.


(** A miss on a page that the file holds whole: the page comes back as the
    file has it. *)
Lemma get_page_from_file (p : Pager) (n : Z) :
  0 <= n <= TABLE_MAX_PAGES ->
  pages p !! n = None ->
  file_length p = Z.of_nat (length (file_descriptor p)) ->
  (n + 1) * PAGE_SIZE <= Z.of_nat (length (file_descriptor p)) < 4294967296 ->
  exists p',
    get_page malloc_page p n
    = Ok (memread (file_descriptor p) (n * PAGE_SIZE) PAGE_SIZE, p') /\
    pages p' !! n = Some (memread (file_descriptor p) (n * PAGE_SIZE) PAGE_SIZE).
Proof.
  intros Hn Hmiss Hfl Hin. unfold get_page.
  change TABLE_MAX_PAGES with 100 in *. change PAGE_SIZE with 4096 in *.
  destruct (Z.gtb_spec n 100) as [E|E]; [lia|]. rewrite Hmiss.
  set (len := Z.of_nat (length (file_descriptor p))) in *. rewrite Hfl.
  assert (Hdiv : n + 1 <= len / 4096) by (apply Z.div_le_lower_bound; lia).
  assert (Hle : (n <=? (if negb (len mod 4096 =? 0)
                        then u32 (len / 4096 + 1) else len / 4096)) = true).
  { apply Z.leb_le. destruct (negb _); [|lia].
    assert (len / 4096 < 1048576) by (apply Z.div_lt_upper_bound; lia).
    unfold u32. rewrite Z.mod_small; lia. }
  rewrite Hle.
  assert (Hu : u32 (n * 4096) = n * 4096) by (unfold u32; rewrite Z.mod_small; lia).
  rewrite Hu.
  assert (Hrd : read_page (file_descriptor p) (n * 4096) (malloc_page n)
                = memread (file_descriptor p) (n * 4096) 4096).
  { unfold read_page, memwrite. change PAGE_SIZE with 4096.
    rewrite <- (app_nil_r (malloc_page n)) at 1. change (Z.to_nat 0) with 0%nat.
    rewrite list_inserts_0_r; [apply app_nil_r|].
    rewrite length_memread, malloc_size by lia. reflexivity. }
  rewrite Hrd. eexists. split; [reflexivity|]. cbn [pages]. apply lookup_insert_eq.
Qed.

Lemma get_page_miss_pager (p p' : Pager) (n : Z) (page : list byte) :
  pages p !! n = None ->
  get_page malloc_page p n = Ok (page, p') ->
  p' = {| file_descriptor := file_descriptor p; file_length := file_length p;
          num_pages := if n >=? num_pages p then u32 (n + 1) else num_pages p;
          pages := <[n := page]> (pages p) |}.
Proof.
  intros Hmiss. unfold get_page. destruct (n >? TABLE_MAX_PAGES); [done|].
  rewrite Hmiss. by intros [= <- <-].
Qed.

Lemma get_page_num_pages (p p' : Pager) (n : Z) (page : list byte) :
  pager_wf p -> 0 <= n ->
  get_page malloc_page p n = Ok (page, p') ->
  num_pages p' = Z.max (num_pages p) (n + 1).
Proof.
  intros [Hnp Hwf] Hn. unfold get_page.
  destruct (Z.gtb_spec n TABLE_MAX_PAGES) as [E|E]; [done|].
  change TABLE_MAX_PAGES with 100 in *.
  destruct (pages p !! n) as [x|] eqn:Hslot.
  - intros [= <- <-]. destruct (Hwf n x Hslot) as (Hi & _). lia.
  - intros [= <- <-]. cbn [num_pages].
    assert (Hu : u32 (n + 1) = n + 1) by (unfold u32; rewrite Z.mod_small; lia).
    rewrite Hu. destruct (Z.geb_spec n (num_pages p)); lia.
Qed.

Lemma get_page_returns (p : Pager) (n : Z) :
  n <= TABLE_MAX_PAGES -> exists page p', get_page malloc_page p n = Ok (page, p').
Proof.
  intros Hn. unfold get_page. destruct (Z.gtb_spec n TABLE_MAX_PAGES) as [E|E]; [lia|].
  destruct (pages p !! n); by eexists _, _.
Qed.

End Cache.

(** ** Writing pages back *)

Lemma memread_app_l file pad off n :
  0 <= off -> 0 <= n -> (Z.to_nat off + Z.to_nat n <= length file)%nat ->
  memread (file ++ pad) off n = memread file off n.
Proof.
  intros Hoff Hn Hin. unfold memread. rewrite drop_app_le by lia.
  apply take_app_le. rewrite length_drop. lia.
Qed.

Lemma length_file_write file off data :
  0 <= off ->
  length (file_write file off data)
  = (length file `max` (Z.to_nat off + length data))%nat.
Proof.
  intros Hoff. unfold file_write. rewrite length_memwrite, length_app, length_replicate. lia.
Qed.

Lemma memread_file_write_same file off data n :
  0 <= off -> n = Z.of_nat (length data) ->
  memread (file_write file off data) off n = data.
Proof.
  intros Hoff ->. unfold file_write. apply memread_memwrite_same; [done|done|].
  rewrite length_app, length_replicate. lia.
Qed.

(** A write leaves alone what the file has elsewhere. *)
Lemma memread_file_write_disjoint file off data off' n :
  0 <= off -> 0 <= off' -> 0 <= n ->
  (Z.to_nat off' + Z.to_nat n <= length file)%nat ->
  off' + n <= off \/ off + Z.of_nat (length data) <= off' ->
  memread (file_write file off data) off' n = memread file off' n.
Proof.
  intros Hoff Hoff' Hn Hin Hdis. unfold file_write.
  rewrite memread_memwrite_disjoint by done. by apply memread_app_l.
Qed.

Lemma memread_whole page :
  length page = Z.to_nat PAGE_SIZE -> memread page 0 PAGE_SIZE = page.
Proof. intros H. unfold memread. rewrite drop_0. apply take_ge. lia. Qed.

(** The first loop of [db_close], [n] turns from page [i] on: every cached
    page in this range is in the file at its place, the other pages of the
    file are as before, and the file is a whole number of pages again. *)
Lemma db_close_loop_spec (n : nat) : forall (i : Z) (p : Pager),
  (forall j page, pages p !! j = Some page ->
     0 <= j <= TABLE_MAX_PAGES /\ length page = Z.to_nat PAGE_SIZE) ->
  0 <= i -> i + Z.of_nat n < 4294967296 ->
  (exists k : nat, length (file_descriptor p) = (4096 * k)%nat) ->
  exists p',
    db_close_loop n i p = Some p' /\
    (exists k : nat, length (file_descriptor p') = (4096 * k)%nat) /\
    (length (file_descriptor p) <= length (file_descriptor p'))%nat /\
    (length (file_descriptor p')
     <= length (file_descriptor p) `max` (4096 * Z.to_nat (i + Z.of_nat n)))%nat /\
    (forall j page, i <= j < i + Z.of_nat n -> pages p !! j = Some page ->
       memread (file_descriptor p') (j * PAGE_SIZE) PAGE_SIZE = page) /\
    (forall j, 0 <= j ->
       (j + 1) * PAGE_SIZE <= Z.of_nat (length (file_descriptor p)) ->
       (i <= j < i + Z.of_nat n -> pages p !! j = None) ->
       memread (file_descriptor p') (j * PAGE_SIZE) PAGE_SIZE
       = memread (file_descriptor p) (j * PAGE_SIZE) PAGE_SIZE).
Proof.
  change TABLE_MAX_PAGES with 100. change PAGE_SIZE with 4096.
  induction n as [|n IH]; intros i p Hpages Hi Hbound (k & Hk).
  - exists p. split; [done|]. split; [by exists k|]. split; [done|].
    split; [lia|]. split; [intros; lia|done].
  - cbn [db_close_loop].
    assert (Hu : u32 (i + 1) = i + 1) by (unfold u32; rewrite Z.mod_small; lia).
    rewrite Hu.
    destruct (pages p !! i) as [page|] eqn:Hslot.
    + destruct (Hpages i page Hslot) as [Hi100 Hlen].
      unfold pager_flush. rewrite Hslot. cbn [mbind option_bind].
      rewrite (memread_whole page Hlen). change PAGE_SIZE with 4096.
      assert (Hoff : u32 (i * 4096) = i * 4096) by (unfold u32; rewrite Z.mod_small; lia).
      rewrite Hoff.
      set (file1 := file_write (file_descriptor p) (i * 4096) page).
      assert (Hlen1 : length file1
                      = (length (file_descriptor p) `max` (Z.to_nat (i * 4096) + 4096))%nat).
      { subst file1. rewrite length_file_write by lia. by rewrite Hlen. }
      destruct (IH (i + 1)
                  {| file_descriptor := file1; file_length := file_length p;
                     num_pages := num_pages p; pages := delete i (pages p) |})
        as (p' & Hrun & Hk' & Hle & Hub & Hin & Hout).
      * intros j x Hj. cbn [pages] in Hj. apply lookup_delete_Some in Hj as [_ Hj].
        by apply Hpages.
      * lia.
      * lia.
      * cbn [file_descriptor]. exists (k `max` (Z.to_nat i + 1))%nat. lia.
      * cbn [file_descriptor pages] in *.
        exists p'. split; [done|]. split; [done|]. split; [lia|]. split; [lia|]. split.
        -- intros j x Hj Hx. destruct (decide (j = i)) as [->|Hne].
           ++ rewrite Hslot in Hx. injection Hx as <-.
              rewrite Hout; [|lia|lia|intros; apply lookup_delete_eq].
              subst file1. apply memread_file_write_same; lia.
           ++ apply Hin; [lia|]. by rewrite lookup_delete_ne.
        -- intros j Hj Hjin Hnone.
           assert (Hne : j <> i) by (intros ->; rewrite Hnone in Hslot; [done|lia]).
           rewrite Hout; [|lia|lia|].
           ++ subst file1. apply memread_file_write_disjoint; lia.
           ++ intros Hr. rewrite lookup_delete_ne by done. apply Hnone. lia.
    + destruct (IH (i + 1) p) as (p' & Hrun & Hk' & Hle & Hub & Hin & Hout);
        [done|lia|lia|by exists k|].
      exists p'. split; [done|]. split; [done|]. split; [done|]. split; [lia|]. split.
      * intros j x Hj Hx. apply Hin; [|done].
        destruct (decide (j = i)) as [->|]; [congruence|lia].
      * intros j Hj Hjin Hnone. apply Hout; [done|done|]. intros Hr. apply Hnone. lia.
Qed.

Lemma db_close_spec (t : Table) :
  pager_wf (pager t) ->
  (exists k : nat, length (file_descriptor (pager t)) = (4096 * k)%nat) ->
  exists file,
    db_close t = Some file /\
    (exists k : nat, length file = (4096 * k)%nat) /\
    (length (file_descriptor (pager t)) <= length file)%nat /\
    (length file
     <= length (file_descriptor (pager t)) `max` (4096 * Z.to_nat (num_pages (pager t))))%nat /\
    (forall j page, pages (pager t) !! j = Some page ->
       memread file (j * PAGE_SIZE) PAGE_SIZE = page) /\
    (forall j, 0 <= j ->
       (j + 1) * PAGE_SIZE <= Z.of_nat (length (file_descriptor (pager t))) ->
       pages (pager t) !! j = None ->
       memread file (j * PAGE_SIZE) PAGE_SIZE
       = memread (file_descriptor (pager t)) (j * PAGE_SIZE) PAGE_SIZE).
Proof.
  intros [Hnp Hwf] Hk. unfold db_close.
  destruct (db_close_loop_spec (Z.to_nat (num_pages (pager t))) 0 (pager t))
    as (p' & Hrun & Hk' & Hle & Hub & Hin & Hout).
  - intros j page Hj. destruct (Hwf j page Hj) as (? & ? & ?). split; [lia|done].
  - lia.
  - lia.
  - done.
  - rewrite Hrun. cbn [mbind option_bind]. exists (file_descriptor p').
    split; [done|]. split; [done|]. split; [done|]. split; [|split].
    + replace (0 + Z.of_nat (Z.to_nat (num_pages (pager t)))) with (num_pages (pager t)) in Hub
        by lia. done.
    + intros j page Hj. apply Hin; [|done]. destruct (Hwf j page Hj) as (? & ? & ?). lia.
    + intros j Hj Hfile Hnone. by apply Hout.
Qed.

(** ** What the statements keep *)

Lemma table_le_refl t : table_le t t.
Proof. by repeat split. Qed.

Lemma table_le_trans t1 t2 t3 : table_le t1 t2 -> table_le t2 t3 -> table_le t1 t3.
Proof.
  intros (A1 & A2 & A3 & A4 & A5) (B1 & B2 & B3 & B4 & B5).
  split; [congruence|]. split; [congruence|]. split; [congruence|].
  split; [lia|]. intros i Hi. by apply B5, A5.
Qed.

Lemma reaches_refl t : table_wf t -> reaches t t.
Proof. intros H. split; [done|apply table_le_refl]. Qed.

Lemma reaches_cached t0 t n : reaches t0 t -> cached t0 n -> cached t n.
Proof. intros [_ (_ & _ & _ & _ & H)]. apply H. Qed.

Lemma keeps_length_memwrite off data : keeps_length (fun n => memwrite n off data).
Proof. intros x. apply length_memwrite. Qed.

Lemma keeps_length_store_u32 off v : keeps_length (fun n => store_u32 n off v).
Proof. intros x. apply length_memwrite. Qed.

Lemma keeps_length_set_node_root b : keeps_length (fun n => set_node_root n b).
Proof. intros x. apply length_memwrite. Qed.

Lemma keeps_length_serialize_row r off : keeps_length (fun n => serialize_row r n off).
Proof. intros x. unfold serialize_row. by rewrite !length_memwrite. Qed.

Lemma keeps_length_initialize_leaf_node : keeps_length initialize_leaf_node.
Proof.
  intros x. unfold initialize_leaf_node, store_u32, set_node_root, set_node_type, store_u8.
  by rewrite !length_memwrite.
Qed.

Lemma keeps_length_initialize_internal_node : keeps_length initialize_internal_node.
Proof.
  intros x. unfold initialize_internal_node, store_u32, set_node_root, set_node_type, store_u8.
  by rewrite !length_memwrite.
Qed.

Create HintDb keeps_length.

#[global] Hint Resolve keeps_length_memwrite keeps_length_store_u32
  keeps_length_set_node_root keeps_length_serialize_row
  keeps_length_initialize_leaf_node keeps_length_initialize_internal_node
  : keeps_length.

(** A write through a pointer to a cached page. *)
Lemma put_table_page_reaches t0 t n node :
  reaches t0 t -> cached t n -> length node = Z.to_nat PAGE_SIZE ->
  reaches t0 (put_table_page t n node).
Proof.
  intros [[Hroot [Hnp Hwf]] Hle] [old Hold] Hlen.
  split; [split; [done|split; [done|]]|].
  - intros i page Hi. cbn [put_table_page put_page pager pages] in Hi.
    destruct (decide (i = n)) as [->|Hne].
    + rewrite lookup_insert_eq in Hi. injection Hi as <-.
      destruct (Hwf n old Hold) as (? & ? & _). done.
    + rewrite lookup_insert_ne in Hi by done. by apply Hwf.
  - eapply table_le_trans; [exact Hle|].
    split; [done|]. split; [done|]. split; [done|]. split; [done|].
    intros i Hi. cbn [put_table_page put_page pager pages].
    destruct (decide (i = n)) as [->|Hne].
    + rewrite lookup_insert_eq. by eexists.
    + by rewrite lookup_insert_ne.
Qed.

Lemma cached_put_table_page t n node m : cached t m -> cached (put_table_page t n node) m.
Proof.
  unfold cached. cbn [put_table_page put_page pager pages]. intros H.
  destruct (decide (n = m)) as [->|Hne].
  - rewrite lookup_insert_eq. by eexists.
  - by rewrite lookup_insert_ne.
Qed.

Lemma update_page_reaches t0 t n f :
  reaches t0 t -> cached t n -> keeps_length f -> reaches t0 (update_page t n f).
Proof.
  intros Hr Hc Hf. unfold update_page. apply put_table_page_reaches; [done|done|].
  rewrite Hf. destruct Hc as [old Hold]. unfold page_at. rewrite Hold. cbn.
  destruct Hr as [[_ [_ Hwf]] _]. by destruct (Hwf n old Hold) as (_ & _ & ?).
Qed.

Lemma cached_update_page t n f m : cached t m -> cached (update_page t n f) m.
Proof. apply cached_put_table_page. Qed.

Section Keeps.

Variable malloc_page : Z -> list byte.
Variable malloc_cursor : Cursor.
Variable LEAF_NODE_SPLIT_COUNT : Z.
Hypothesis malloc_size : forall n, length (malloc_page n) = Z.to_nat PAGE_SIZE.

Lemma table_get_page_reaches t0 t n node t' :
  reaches t0 t -> 0 <= n ->
  table_get_page malloc_page t n = Ok (node, t') ->
  reaches t0 t' /\ cached t' n /\ n <= TABLE_MAX_PAGES /\
  page_at t' n = node /\ length node = Z.to_nat PAGE_SIZE /\
  forall m, cached t m -> page_at t' m = page_at t m.
Proof.
  intros [[Hroot Hwf] Hle] Hn. unfold table_get_page.
  destruct (get_page malloc_page (pager t) n) as [[x p']|e|] eqn:Hg; [|done|done].
  rewrite bind_Ok. intros [= <- <-].
  destruct (get_page_pager_wf malloc_page malloc_size _ _ _ _ Hwf Hn Hg)
    as (Hwf' & Hlen & Hfd & Hfl & Hnp & Hlt & Hkeep & Hother).
  destruct (get_page_again malloc_page _ _ _ _ Hg) as [Hslot _].
  split; [split; [by split|]|].
  - eapply table_le_trans; [exact Hle|].
    split; [done|]. split; [done|]. split; [done|]. split; [done|].
    intros i [y Hy]. cbn [pager]. exists y. by apply Hkeep.
  - split; [by exists x|]. split.
    + unfold get_page in Hg. by destruct (Z.gtb_spec n TABLE_MAX_PAGES).
    + split; [unfold page_at; cbn [pager]; by rewrite Hslot|]. split; [done|].
      intros m [y Hy]. unfold page_at. cbn [pager]. by rewrite (Hkeep m y Hy), Hy.
Qed.


Lemma reaches_root t0 t : reaches t0 t -> root_page_num t = root_page_num t0.
Proof. by intros [_ [? _]]. Qed.

Lemma reaches_root_nonneg t0 t : reaches t0 t -> 0 <= root_page_num t.
Proof. by intros [[? _] _]. Qed.

(** Runs the [get_page] at the head of the goal from the state of [Hr]. *)
Ltac run_get_page Hr node t1 Hr1 Hc1 :=
  let Hg := fresh "Hg" in
  match goal with
  | |- context [table_get_page malloc_page ?t ?n] =>
      destruct (table_get_page malloc_page t n) as [[node t1]|?|] eqn:Hg;
      [|discriminate|discriminate];
      rewrite bind_Ok;
      let H := fresh in
      assert (H : 0 <= n) by
        first [ exact (reaches_root_nonneg _ _ Hr) | assumption | lia ];
      destruct (table_get_page_reaches _ _ _ _ _ Hr H Hg) as (Hr1 & Hc1 & _)
  end.

Lemma table_start_reaches t0 t c t' :
  reaches t0 t -> table_start malloc_page t = Ok (c, t') ->
  reaches t0 t' /\ page_num c = root_page_num t0 /\ cell_num c = 0.
Proof.
  intros Hr. unfold table_start. run_get_page Hr node t1 Hr1 Hc1.
  intros [= <- <-]. cbn [page_num cell_num].
  split; [done|]. split; [by apply reaches_root in Hr1|done].
Qed.

Lemma leaf_node_find_reaches t0 t n key c t' :
  reaches t0 t -> 0 <= n ->
  leaf_node_find malloc_page malloc_cursor t n key = Ok (c, t') ->
  reaches t0 t' /\ page_num c = n.
Proof.
  intros Hr Hn. unfold leaf_node_find. run_get_page Hr node t1 Hr1 Hc1.
  destruct (leaf_node_find_loop _ _ _ _ _); [|discriminate].
  by intros [= <- <-].
Qed.

Lemma table_find_reaches t0 t key c t' :
  reaches t0 t -> table_find malloc_page malloc_cursor t key = Ok (c, t') ->
  reaches t0 t' /\ page_num c = root_page_num t0.
Proof.
  intros Hr. unfold table_find. run_get_page Hr node t1 Hr1 Hc1.
  destruct (_ =? _); [|discriminate]. intros Hf.
  apply (leaf_node_find_reaches t0) in Hf; [|done|exact (reaches_root_nonneg _ _ Hr)].
  destruct Hf as [? ->]. split; [done|]. by apply reaches_root in Hr.
Qed.

Lemma cursor_value_reaches t0 t c page off t' :
  reaches t0 t -> 0 <= page_num c ->
  cursor_value malloc_page c t = Ok (page, off, t') -> reaches t0 t'.
Proof.
  intros Hr Hn. unfold cursor_value. run_get_page Hr node t1 Hr1 Hc1.
  by intros [= <- <- <-].
Qed.

Lemma cursor_advance_reaches t0 t c c' t' :
  reaches t0 t -> 0 <= page_num c ->
  cursor_advance malloc_page c t = Ok (c', t') ->
  reaches t0 t' /\ page_num c' = page_num c.
Proof.
  intros Hr Hn. unfold cursor_advance. run_get_page Hr node t1 Hr1 Hc1.
  by intros [= <- <-].
Qed.

Lemma select_loop_reaches t0 (fuel : nat) : forall c t rows t',
  reaches t0 t -> 0 <= page_num c ->
  select_loop malloc_page fuel c t = Ok (rows, t') -> reaches t0 t'.
Proof.
  induction fuel as [|fuel IH]; intros c t rows t' Hr Hn; cbn [select_loop].
  - destruct (end_of_table c); [|discriminate]. by intros [= <- <-].
  - destruct (end_of_table c); [by intros [= <- <-]|].
    destruct (cursor_value malloc_page c t) as [[[page off] t1]|?|] eqn:Hv;
      [|discriminate|discriminate].
    rewrite bind_Ok. apply (cursor_value_reaches t0) in Hv; [|done|done].
    destruct (cursor_advance malloc_page c t1) as [[c1 t2]|?|] eqn:Ha;
      [|discriminate|discriminate].
    rewrite bind_Ok. apply (cursor_advance_reaches t0) in Ha as [Hr2 Hp]; [|done|done].
    destruct (select_loop malloc_page fuel c1 t2) as [[rows' t3]|?|] eqn:Hs;
      [|discriminate|discriminate].
    rewrite bind_Ok. intros [= <- <-]. eapply IH; [exact Hr2| |exact Hs]. lia.
Qed.

Lemma execute_select_reaches t0 t st r rows t' :
  reaches t0 t -> execute_select malloc_page st t = Ok (r, rows, t') -> reaches t0 t'.
Proof.
  intros Hr. unfold execute_select.
  destruct (table_start malloc_page t) as [[c t1]|?|] eqn:Hs; [|discriminate|discriminate].
  rewrite bind_Ok. apply (table_start_reaches t0) in Hs as (Hr1 & Hp & _); [|done].
  destruct (select_loop _ _ _ _) as [[rows' t2]|?|] eqn:Hl; [|discriminate|discriminate].
  rewrite bind_Ok. intros [= <- <- <-]. eapply select_loop_reaches; [exact Hr1| |exact Hl].
  rewrite Hp, <- (reaches_root _ _ Hr). exact (reaches_root_nonneg _ _ Hr).
Qed.


Lemma table_get_page_cached t n node t' m :
  table_wf t -> 0 <= n ->
  table_get_page malloc_page t n = Ok (node, t') -> cached t m -> cached t' m.
Proof.
  intros Hwf Hn Hg.
  destruct (table_get_page_reaches t t n node t' (reaches_refl t Hwf) Hn Hg) as (Hr & _).
  by apply reaches_cached.
Qed.

Lemma pager_num_pages_nonneg t0 t : reaches t0 t -> 0 <= num_pages (pager t).
Proof. intros [[_ [? _]] _]. lia. Qed.

(** Runs the first [get_page] of the goal, on a table that has a [reaches]
    hypothesis, and carries the [cached] hypotheses over. *)
Ltac run_get :=
  match goal with
  | |- context [table_get_page _ ?t ?n] =>
      is_var t;
      match goal with
      | Hr : reaches ?t0 t |- _ =>
          let Hg := fresh "Hg" in
          let node := fresh "node" in
          let t1 := fresh "t" in
          let Hn := fresh "Hn" in
          let Hr1 := fresh "Hr" in
          let Hc := fresh "Hc" in
          let Hlen := fresh "Hlen" in
          assert (Hn : 0 <= n) by
            first [ assumption | exact (reaches_root_nonneg _ _ Hr)
                  | exact (pager_num_pages_nonneg _ _ Hr) | lia ];
          destruct (table_get_page malloc_page t n) as [[node t1]|?|] eqn:Hg;
          [|discriminate|discriminate];
          rewrite bind_Ok; cbv beta iota;
          destruct (table_get_page_reaches _ _ _ _ _ Hr Hn Hg)
            as (Hr1 & Hc & _ & _ & Hlen & _);
          repeat match goal with
                 | H : cached t ?m |- _ =>
                     apply (table_get_page_cached t n node t1 m (proj1 Hr) Hn Hg) in H
                 end
      end
  end.

(** Runs the innermost write of the goal. *)
Ltac run_update :=
  match goal with
  | |- context [update_page ?t ?n ?f] =>
      is_var t;
      match goal with
      | Hr : reaches ?t0 t |- _ =>
          let t1 := fresh "t" in
          let Hr1 := fresh "Hr" in
          assert (Hr1 : reaches t0 (update_page t n f)) by
            (apply update_page_reaches; [exact Hr | assumption | auto with keeps_length]);
          repeat match goal with
                 | H : cached t ?m |- _ => apply (cached_update_page t n f m) in H
                 end;
          set (t1 := update_page t n f) in *; clearbody t1
      end
  end.

Lemma create_new_root_reaches t0 t right_child_page_num t' :
  reaches t0 t -> 0 <= right_child_page_num ->
  create_new_root malloc_page t right_child_page_num = Ok t' -> reaches t0 t'.
Proof.
  intros Hr Hn. unfold create_new_root. cbv zeta.
  run_get. run_get. run_get.
  rewrite (reaches_root _ _ Hr), <- (reaches_root _ _ Hr0) in *.
  do 5 run_update.
  destruct (internal_node_child _ _) as [child0|?|]; [|discriminate|discriminate].
  rewrite bind_Ok. run_update.
  destruct (get_node_max_key _) as [k|?|]; [|discriminate|discriminate].
  rewrite bind_Ok. do 2 run_update. by intros [= <-].
Qed.


Lemma split_loop_body_reaches t0 t c value new_page_num i t' :
  reaches t0 t -> cached t (page_num c) -> cached t new_page_num ->
  0 <= new_page_num ->
  split_loop_body malloc_page LEAF_NODE_SPLIT_COUNT c value new_page_num i t = Ok t' ->
  reaches t0 t'.
Proof.
  intros Hr Hold Hnew Hn. unfold split_loop_body.
  destruct (i >=? LEAF_NODE_SPLIT_COUNT), (i =? cell_num c), (i >? cell_num c);
    cbv zeta; do 3 run_update;
    (destruct (is_node_root _); [|discriminate]);
    by apply create_new_root_reaches.
Qed.

Lemma leaf_node_split_and_insert_reaches t0 t c key value t' :
  reaches t0 t -> 0 <= page_num c ->
  leaf_node_split_and_insert malloc_page LEAF_NODE_SPLIT_COUNT c key value t = Ok t' ->
  reaches t0 t'.
Proof.
  intros Hr Hn. unfold leaf_node_split_and_insert. cbv zeta.
  run_get. run_get. run_update. unfold get_unused_page_num in *.
  apply split_loop_body_reaches; [done|done|done|].
  exact (pager_num_pages_nonneg _ _ Hr0).
Qed.

Lemma leaf_node_insert_reaches t0 t c key value t' :
  reaches t0 t -> 0 <= page_num c ->
  leaf_node_insert malloc_page LEAF_NODE_SPLIT_COUNT c key value t = Ok t' ->
  reaches t0 t'.
Proof.
  intros Hr Hn. unfold leaf_node_insert. run_get.
  destruct (_ >=? _); [by apply leaf_node_split_and_insert_reaches|].
  cbv zeta. intros [= <-]. apply put_table_page_reaches; [done|done|].
  rewrite keeps_length_serialize_row. unfold store_u32. rewrite !length_memwrite.
  destruct (_ <? _); [by rewrite length_shift_cells|done].
Qed.

Lemma execute_insert_reaches t0 t st r t' :
  reaches t0 t ->
  execute_insert malloc_page malloc_cursor LEAF_NODE_SPLIT_COUNT st t = Ok (r, t') -> reaches t0 t'.
Proof.
  intros Hr. unfold execute_insert. run_get. cbv zeta.
  destruct (table_find _ _ _ _) as [[c t2]|?|] eqn:Hf; [|discriminate|discriminate].
  rewrite bind_Ok. cbv beta iota.
  apply (table_find_reaches t0) in Hf as [Hr2 Hp]; [|done].
  destruct (_ && _); [by intros [= <- <-]|].
  destruct (leaf_node_insert _ _ _ _ _ _) as [t3|?|] eqn:Hi; [|discriminate|discriminate].
  rewrite bind_Ok. intros [= <- <-].
  eapply leaf_node_insert_reaches; [exact Hr2| |exact Hi].
  rewrite Hp, <- (reaches_root _ _ Hr). exact (reaches_root_nonneg _ _ Hr).
Qed.

Lemma execute_statement_reaches t0 t st r rows t' :
  reaches t0 t ->
  execute_statement malloc_page malloc_cursor LEAF_NODE_SPLIT_COUNT st t = Ok (r, rows, t') ->
  reaches t0 t'.
Proof.
  intros Hr. unfold execute_statement. destruct (type st).
  - destruct (execute_insert _ _ _ _ _) as [[r1 t1]|?|] eqn:Hi; [|discriminate|discriminate].
    rewrite bind_Ok. intros [= <- <- <-]. by eapply execute_insert_reaches.
  - by apply execute_select_reaches.
Qed.

End Keeps.

(** ** The pager and the statements, in general *)

Section General.

Variable malloc_page : Z -> list byte.
Variable malloc_cursor : Cursor.
Variable LEAF_NODE_SPLIT_COUNT : Z.
Hypothesis malloc_size : forall n, length (malloc_page n) = Z.to_nat PAGE_SIZE.

(** X1.  A page that [get_page] returned is returned again, the same
    buffer, by every later call for it, and these calls leave the pager as
    it is. *)
Theorem get_page_twice (p p' : Pager) (n : Z) (page : list byte) :
  get_page malloc_page p n = Ok (page, p') ->
  pages p' !! n = Some page /\ get_page malloc_page p' n = Ok (page, p').
Proof. apply get_page_again. Qed.

(** X2.  A page that is not cached and that the file holds whole comes
    back with the bytes the file has at [page_num * PAGE_SIZE]; what
    [malloc] left in the buffer is gone. *)
Theorem get_page_reads_file_page (p : Pager) (n : Z) :
  0 <= n <= TABLE_MAX_PAGES ->
  pages p !! n = None ->
  file_length p = Z.of_nat (length (file_descriptor p)) ->
  (n + 1) * PAGE_SIZE <= Z.of_nat (length (file_descriptor p)) < 4294967296 ->
  exists p',
    get_page malloc_page p n
    = Ok (memread (file_descriptor p) (n * PAGE_SIZE) PAGE_SIZE, p') /\
    pages p' !! n = Some (memread (file_descriptor p) (n * PAGE_SIZE) PAGE_SIZE).
Proof. by apply get_page_from_file. Qed.

(** X3.  [get_page] never writes to the file and never drops a page from
    the cache; the cached pages stay buffers of [PAGE_SIZE] bytes at page
    numbers below [num_pages], and [num_pages] only grows, past the page
    that was asked for. *)
Theorem get_page_keeps_pager (p p' : Pager) (n : Z) (page : list byte) :
  pager_wf p -> 0 <= n ->
  get_page malloc_page p n = Ok (page, p') ->
  pager_wf p' /\
  length page = Z.to_nat PAGE_SIZE /\
  file_descriptor p' = file_descriptor p /\
  file_length p' = file_length p /\
  num_pages p' = Z.max (num_pages p) (n + 1) /\
  (forall i x, pages p !! i = Some x -> pages p' !! i = Some x) /\
  (forall i, i <> n -> pages p' !! i = pages p !! i).
Proof.
  intros Hwf Hn Hg.
  destruct (get_page_pager_wf malloc_page malloc_size p p' n page Hwf Hn Hg)
    as (H1 & H2 & H3 & H4 & _ & _ & H5 & H6).
  split; [done|]. split; [done|]. split; [done|]. split; [done|].
  split; [by eapply get_page_num_pages|]. by split.
Qed.

(** X4.  A statement that returns leaves the file as it is and keeps every
    page of the cache in it; the root page number stays, and the pager
    stays well formed. *)
Theorem execute_statement_keeps_file (st : Statement) (t t' : Table)
    (r : ExecuteResult) (rows : list Row) :
  table_wf t ->
  execute_statement malloc_page malloc_cursor LEAF_NODE_SPLIT_COUNT st t = Ok (r, rows, t') ->
  table_wf t' /\ table_le t t'.
Proof.
  intros Hwf Hex.
  exact (execute_statement_reaches malloc_page malloc_cursor LEAF_NODE_SPLIT_COUNT malloc_size
           t t st r rows t' (reaches_refl t Hwf) Hex).
Qed.

(** X5.  No statement returns [EXECUTE_TABLE_FULL]: a select returns
    [EXECUTE_SUCCESS] and no rows come with an insert. *)
Theorem execute_statement_never_table_full (st : Statement) (t t' : Table)
    (r : ExecuteResult) (rows : list Row) :
  execute_statement malloc_page malloc_cursor LEAF_NODE_SPLIT_COUNT st t = Ok (r, rows, t') ->
  r <> EXECUTE_TABLE_FULL /\
  (type st = STATEMENT_SELECT -> r = EXECUTE_SUCCESS) /\
  (type st = STATEMENT_INSERT -> rows = []).
Proof.
  unfold execute_statement. destruct (type st).
  - unfold execute_insert.
    destruct (table_get_page _ _ _) as [[node t1]|?|]; [|done|done]. rewrite bind_Ok.
    destruct (table_find _ _ _ _) as [[c t2]|?|]; [|done|done]. rewrite bind_Ok.
    destruct (_ && _).
    + rewrite bind_Ok. by intros [= <- <- <-].
    + destruct (leaf_node_insert _ _ _ _ _ _) as [t3|?|]; [|done|done].
      rewrite !bind_Ok. by intros [= <- <- <-].
  - unfold execute_select.
    destruct (table_start _ _) as [[c t1]|?|]; [|done|done]. rewrite bind_Ok.
    destruct (select_loop _ _ _ _) as [[rows' t2]|?|]; [|done|done]. rewrite bind_Ok.
    by intros [= <- <- <-].
Qed.

(** X6.  [db_open] returns exactly on the files that are a whole number of
    pages long. *)
Theorem db_open_returns_iff (file : list byte) :
  (exists t, db_open malloc_page file = Ok t)
  <-> Z.of_nat (length file) mod PAGE_SIZE = 0.
Proof.
  unfold db_open, pager_open.
  destruct (Z.eqb_spec (Z.of_nat (length file) mod PAGE_SIZE) 0) as [E|E]; cbn [negb].
  - split; [done|]. intros _. rewrite bind_Ok. cbn [num_pages].
    destruct (_ =? 0); [|by eexists].
    destruct (get_page_returns malloc_page
                {| file_descriptor := file; file_length := u32 (Z.of_nat (length file));
                   num_pages := u32 (Z.of_nat (length file) / PAGE_SIZE); pages := ∅ |} 0)
      as (page & p' & Hg); [done|].
    unfold table_get_page. cbn [pager]. rewrite Hg, !bind_Ok. by eexists.
  - split; [|done]. by intros [t Ht].
Qed.

End General.


(** ** Closing and opening again *)

Section Reopen.

Variable malloc_page : Z -> list byte.
Variable malloc_cursor : Cursor.
Variable LEAF_NODE_SPLIT_COUNT : Z.
Hypothesis malloc_size : forall n, length (malloc_page n) = Z.to_nat PAGE_SIZE.

Lemma execute_inserts_reaches t0 rows : forall t codes t',
  reaches t0 t ->
  execute_inserts malloc_page malloc_cursor LEAF_NODE_SPLIT_COUNT rows t = Ok (codes, t') ->
  reaches t0 t'.
Proof.
  induction rows as [|r rows IH]; intros t codes t' Hr; cbn [execute_inserts].
  - by intros [= <- <-].
  - destruct (execute_insert _ _ _ _ _) as [[code t1]|?|] eqn:Hi; [|discriminate|discriminate].
    rewrite bind_Ok. apply (execute_insert_reaches _ _ _ malloc_size t0) in Hi; [|done].
    destruct (execute_inserts _ _ _ rows t1) as [[codes' t2]|?|] eqn:Hs;
      [|discriminate|discriminate].
    rewrite bind_Ok. intros [= <- <-]. by eapply IH.
Qed.

Lemma table_get_page_again t n node t1 :
  table_get_page malloc_page t n = Ok (node, t1) ->
  table_get_page malloc_page t1 n = Ok (node, t1).
Proof.
  unfold table_get_page.
  destruct (get_page malloc_page (pager t) n) as [[x p']|?|] eqn:Hg; [|done|done].
  rewrite bind_Ok. intros [= <- <-]. cbn [pager root_page_num].
  destruct (get_page_again malloc_page _ _ _ _ Hg) as [_ ->]. reflexivity.
Qed.

Lemma table_get_page_root t n node t1 :
  table_get_page malloc_page t n = Ok (node, t1) -> root_page_num t1 = root_page_num t.
Proof.
  unfold table_get_page.
  destruct (get_page malloc_page (pager t) n) as [[x p']|?|]; [|done|done].
  rewrite bind_Ok. by intros [= <- <-].
Qed.

(** The scan of a table whose root page is not in the cache yet is the
    scan after the page has been brought in. *)
Lemma execute_select_after_fault st t node t1 :
  table_get_page malloc_page t (root_page_num t) = Ok (node, t1) ->
  execute_select malloc_page st t = execute_select malloc_page st t1.
Proof.
  intros Hg.
  assert (Hg1 : table_get_page malloc_page t1 (root_page_num t1) = Ok (node, t1)).
  { rewrite (table_get_page_root _ _ _ _ Hg). by apply (table_get_page_again t). }
  unfold execute_select, table_start. by rewrite Hg, Hg1.
Qed.

Lemma single_leaf_close_reopen t cells :
  table_wf t -> single_leaf t cells ->
  (exists k : nat, length (file_descriptor (pager t)) = (4096 * k)%nat) ->
  (length (file_descriptor (pager t)) <= 4096)%nat ->
  exists file t0 t1 node,
    db_close t = Some file /\ length file = 4096%nat /\
    db_open malloc_page file = Ok t0 /\
    pages (pager t0) = ∅ /\
    table_get_page malloc_page t0 (root_page_num t0) = Ok (node, t1) /\
    single_leaf t1 cells /\ table_wf t1 /\
    file_descriptor (pager t1) = file /\ memread file 0 PAGE_SIZE = node.
Proof.
  intros [Hroot0 Hpwf] Hsl Hk Hle. open_single_leaf Hsl.
  destruct (db_close_spec t Hpwf Hk) as (file & Hclose & (k' & Hk') & Hlo & Hhi & Hin & _).
  assert (Hrd := Hin 0 node Hpage). change (0 * PAGE_SIZE) with 0 in Hrd.
  assert (Hfl : length file = 4096%nat).
  { rewrite Hnp in Hhi. change (Z.to_nat 1) with 1%nat in Hhi.
    assert (length (memread file 0 PAGE_SIZE) = 4096%nat) by (by rewrite Hrd).
    unfold memread in H. rewrite length_take, length_drop in H.
    change (Z.to_nat PAGE_SIZE) with 4096%nat in H. lia. }
  set (p0 := {| file_descriptor := file; file_length := 4096; num_pages := 1; pages := ∅ |}).
  set (t0 := {| root_page_num := 0; pager := p0 |}).
  assert (Hopen : db_open malloc_page file = Ok t0).
  { unfold db_open, pager_open. rewrite Hfl. reflexivity. }
  destruct (get_page_from_file malloc_page malloc_size p0 0) as (p1 & Hget & Hslot).
  - done.
  - done.
  - cbn [p0 file_descriptor file_length]. by rewrite Hfl.
  - cbn [p0 file_descriptor]. rewrite Hfl. done.
  - cbn [p0 file_descriptor] in Hget, Hslot. change (0 * PAGE_SIZE) with 0 in Hget, Hslot.
    rewrite Hrd in Hget, Hslot.
    assert (Hp1 : p1 = {| file_descriptor := file; file_length := 4096; num_pages := 1;
                          pages := <[0 := node]> ∅ |}).
    { by rewrite (get_page_miss_pager malloc_page p0 p1 0 node eq_refl Hget). }
    exists file, t0, {| root_page_num := 0; pager := p1 |}, node.
    split; [done|]. split; [done|]. split; [done|]. split; [done|]. split.
    + unfold table_get_page. cbn [t0 root_page_num pager]. by rewrite Hget.
    + split.
      * split; [done|]. split; [by rewrite Hp1|]. exists node. by split.
      * split; [|by rewrite Hp1].
        split; [done|]. rewrite Hp1. split; [done|]. intros i page Hi. cbn [pages pager] in Hi.
        apply lookup_insert_Some in Hi as [[<- <-]|[_ Hi]]; [|done].
        done.
Qed.


Lemma empty_table_wf : table_wf (empty_table malloc_page).
Proof.
  split; [done|]. split; [done|]. intros i page Hi. cbn [empty_table pager pages] in Hi.
  apply lookup_insert_Some in Hi as [[<- <-]|[_ Hi]]; [|done].
  split; [done|]. split; [done|].
  rewrite keeps_length_initialize_leaf_node. apply malloc_size.
Qed.

(** X8.  Rows that were inserted into a new database are in the file after
    [db_close]: opening that file and scanning gives them back. *)
Theorem rows_survive_close_and_reopen (rows : list Row) (st : Statement) :
  Forall row_wf rows ->
  Forall (fun r => id r < 65536) rows ->
  NoDup (map id rows) ->
  Z.of_nat (length rows) <= LEAF_NODE_MAX_CELLS ->
  exists t0 t1 file t2 t3 scanned,
    db_open malloc_page [] = Ok t0 /\
    execute_inserts malloc_page malloc_cursor LEAF_NODE_SPLIT_COUNT rows t0
    = Ok (map (fun _ => EXECUTE_SUCCESS) rows, t1) /\
    db_close t1 = Some file /\
    length file = Z.to_nat PAGE_SIZE /\
    db_open malloc_page file = Ok t2 /\
    execute_select malloc_page st t2 = Ok (EXECUTE_SUCCESS, scanned, t3) /\
    Permutation scanned rows /\
    ascending scanned.
Proof.
  intros Hwf Hid Hnd Hlen.
  assert (Hsl0 : single_leaf (empty_table malloc_page) [])
    by (apply empty_table_single_leaf, malloc_size).
  destruct (execute_inserts_fresh malloc_page malloc_cursor LEAF_NODE_SPLIT_COUNT rows
              (empty_table malloc_page) [])
    as (t1 & cells & Hins & Hsl1 & Hasc & Hperm).
  { done. } { constructor. } { done. } { done. } { by rewrite app_nil_r. }
  { cbn [length]. lia. }
  rewrite app_nil_r in Hperm.
  assert (Hr : reaches (empty_table malloc_page) t1).
  { eapply execute_inserts_reaches; [apply reaches_refl, empty_table_wf|exact Hins]. }
  destruct Hr as [Hwf1 (_ & Hfile & _)].
  destruct (single_leaf_close_reopen t1 cells Hwf1 Hsl1)
    as (file & t2 & t3 & node & Hclose & Hfl & Hopen & _ & Hget & Hsl3 & _ & _ & _).
  { exists 0%nat. by rewrite Hfile. } { rewrite Hfile. cbn. lia. }
  exists (empty_table malloc_page), t1, file, t2, t3, cells.
  split; [apply db_open_empty_eq|]. split; [done|]. split; [done|]. split; [done|].
  split; [done|]. split; [|done].
  rewrite (execute_select_after_fault st t2 node t3 Hget).
  by apply execute_select_cells.
Qed.

End Reopen.

(** ** Searching and scanning any page *)

Lemma leaf_node_find_loop_bounds node key n (fuel : nat) : forall lo hi,
  0 <= lo <= hi -> hi <= n -> n < 2147483648 -> hi - lo <= Z.of_nat fuel ->
  (lo = 0 \/ key_at node (lo - 1) < key) ->
  (hi = n \/ key < key_at node hi) ->
  exists i,
    leaf_node_find_loop fuel node key lo hi = Some i /\
    0 <= i <= n /\
    (i < n /\ key_at node i = key \/
     (0 < i -> key_at node (i - 1) < key) /\ (i < n -> key < key_at node i)).
Proof.
  induction fuel as [|fuel IH]; intros lo hi Hlo Hhi Hn Hfuel Hl Hh.
  - assert (hi = lo) as -> by lia. cbn [leaf_node_find_loop]. rewrite Z.eqb_refl.
    exists lo. split; [done|]. split; [lia|]. right. split; intros; [|]; lia.
  - cbn [leaf_node_find_loop]. destruct (Z.eqb_spec hi lo) as [->|Hne].
    + exists lo. split; [done|]. split; [lia|]. right. split; intros; lia.
    + assert (Hu : u32 (lo + hi) = lo + hi) by (unfold u32; rewrite Z.mod_small; lia).
      rewrite Hu. set (m := (lo + hi) / 2).
      assert (Hm : lo <= m < hi) by (subst m; split;
        [apply Z.div_le_lower_bound|apply Z.div_lt_upper_bound]; lia).
      assert (Hu1 : u32 (m + 1) = m + 1) by (unfold u32; rewrite Z.mod_small; lia).
      rewrite Hu1. fold (key_at node m).
      destruct (Z.eqb_spec key (key_at node m)) as [Heq|Hneq].
      * exists m. split; [done|]. split; [lia|]. left. split; [lia|done].
      * destruct (Z.ltb_spec key (key_at node m)) as [Hlt|Hge].
        -- apply IH; [lia|lia|lia|lia|done|by right].
        -- apply IH; [lia|lia|lia|lia| |done].
           right. replace (m + 1 - 1) with m by lia. lia.
Qed.

Section AnyPage.

Variable malloc_page : Z -> list byte.
Variable malloc_cursor : Cursor.
Variable LEAF_NODE_SPLIT_COUNT : Z.





(** X11.  On a root page that is not a leaf, a search and an insert exit the
    process. *)
Theorem insert_into_internal_root_exits (st : Statement) (t : Table)
    (node : list byte) (key : Z) :
  pages (pager t) !! root_page_num t = Some node ->
  root_page_num t <= TABLE_MAX_PAGES ->
  get_node_type node <> NODE_LEAF ->
  table_find malloc_page malloc_cursor t key = Fatal InternalSearchUnimplemented /\
  execute_insert malloc_page malloc_cursor LEAF_NODE_SPLIT_COUNT st t = Fatal InternalSearchUnimplemented.
Proof.
  intros Hpage Hn Hty.
  assert (Hfind : forall k, table_find malloc_page malloc_cursor t k = Fatal InternalSearchUnimplemented).
  { intros k. unfold table_find.
    rewrite (table_get_page_hit malloc_page t _ node Hpage Hn), bind_Ok.
    by destruct (Z.eqb_spec (get_node_type node) NODE_LEAF). }
  split; [apply Hfind|]. unfold execute_insert.
  rewrite (table_get_page_hit malloc_page t _ node Hpage Hn), bind_Ok.
  by rewrite Hfind.
Qed.

End AnyPage.

(** X12.  The largest key of a leaf with cells in ascending order is the id
    of its last cell, and no id of the leaf is above it. *)
Theorem get_node_max_key_of_leaf (node : list byte) (cells : list Row) (r : Row) :
  leaf_holds node cells -> ascending cells -> last cells = Some r ->
  get_node_max_key node = Ok (id r) /\ Forall (fun x => id x <= id r) cells.
Proof.
  intros Hleaf Hasc Hlast.
  pose proof Hleaf as (Hlen & Hty & Hnr & Hnum & Hmax & Hwf & Hcells).
  change LEAF_NODE_MAX_CELLS with 13 in Hmax.
  rewrite last_lookup in Hlast.
  assert (Hpos : (0 < length cells)%nat).
  { destruct cells; [done|simpl; lia]. }
  split.
  - unfold get_node_max_key. rewrite Hty. change (NODE_LEAF =? NODE_INTERNAL) with false.
    change (NODE_LEAF =? NODE_LEAF) with true. cbv iota. do 2 f_equal.
    rewrite Hnum.
    assert (Hu : u32 (Z.of_nat (length cells) - 1) = Z.of_nat (pred (length cells))).
    { unfold u32. rewrite Z.mod_small; lia. }
    rewrite Hu. apply (load_key_of_cell node _ (id r) r); [lia| |by apply Hcells].
    by destruct (cell_row_wf node cells _ r Hleaf Hlast) as (? & _).
  - apply Forall_lookup. intros j x Hx.
    assert (Hj : (j < length cells)%nat) by (by eapply lookup_lt_Some).
    destruct (decide (j = pred (length cells))) as [->|Hne].
    + rewrite Hlast in Hx. injection Hx as <-. lia.
    + destruct (rank_spec (id r) cells _ r Hasc Hlast) as [_ Hrk].
      destruct (rank_spec (id r) cells j x Hasc Hx) as [Hlt _].
      rewrite <- (Hrk eq_refl) in Hlt. assert (id x < id r) by (apply Hlt; lia). lia.
Qed.

(** ** Finding rows in a leaf *)

Section Finding.

Variable malloc_page : Z -> list byte.
Variable malloc_cursor : Cursor.
Variable LEAF_NODE_SPLIT_COUNT : Z.

(** X13.  On a leaf with ascending ids [table_find] puts the cursor at the
    first cell whose id is not below the key: the ids before it are
    smaller, the ids from it on are not. *)
Theorem table_find_position (t : Table) (cells : list Row) (key : Z) :
  single_leaf t cells -> ascending cells ->
  exists i : nat,
    table_find malloc_page malloc_cursor t key
    = Ok ({| page_num := 0; cell_num := Z.of_nat i;
             end_of_table := end_of_table malloc_cursor |}, t) /\
    (i <= length cells)%nat /\
    Forall (fun r => id r < key) (take i cells) /\
    Forall (fun r => key <= id r) (drop i cells).
Proof.
  intros Hsl Hasc. exists (rank key cells).
  split; [by apply table_find_rank|]. split; [apply rank_le_length|]. split.
  - apply Forall_lookup. intros j r Hj. apply lookup_take_Some in Hj as [Hj Hlt].
    by apply (rank_spec key cells j r Hasc Hj).
  - apply Forall_lookup. intros j r Hj. rewrite lookup_drop in Hj.
    destruct (rank_spec key cells _ r Hasc Hj) as [Hiff _].
    destruct (decide (id r < key)) as [Hlt|Hge]; [|lia].
    apply Hiff in Hlt. lia.
Qed.

(** X14.  An id below 65536 that the leaf holds is turned down as a
    duplicate, and the table stays as it is. *)
Theorem execute_insert_detects_duplicate (t : Table) (cells : list Row) (r : Row) :
  single_leaf t cells -> ascending cells ->
  0 <= id r < 65536 -> id r ∈ map id cells ->
  execute_insert malloc_page malloc_cursor LEAF_NODE_SPLIT_COUNT (insert_statement r) t
  = Ok (EXECUTE_DUPLICATE_KEY, t).
Proof.
  intros Hsl Hasc Hid Hin.
  assert (Hu : u16 (id r) = id r) by (unfold u16; rewrite Z.mod_small; lia).
  apply list_elem_of_fmap in Hin as (x & Hx & Hin).
  apply list_elem_of_lookup in Hin as [j Hj].
  destruct (rank_spec (id r) cells j x Hasc Hj) as [_ Hrk].
  apply (execute_insert_duplicate malloc_page malloc_cursor LEAF_NODE_SPLIT_COUNT t cells r x);
    [done|done| |congruence].
  rewrite Hu. by rewrite <- Hrk.
Qed.

(** X15.  A row that went in is found under its id: the cursor of
    [table_find] is on a cell from which [cursor_value] reads the row. *)
Theorem inserted_row_is_found (t : Table) (cells : list Row) (r : Row) :
  single_leaf t cells -> ascending cells ->
  row_wf r -> id r < 65536 -> id r ∉ map id cells ->
  Z.of_nat (length cells) < LEAF_NODE_MAX_CELLS ->
  exists t' c page off,
    execute_insert malloc_page malloc_cursor LEAF_NODE_SPLIT_COUNT (insert_statement r) t
    = Ok (EXECUTE_SUCCESS, t') /\
    table_find malloc_page malloc_cursor t' (id r) = Ok (c, t') /\
    cursor_value malloc_page c t' = Ok (page, off, t') /\
    deserialize_row page off = r.
Proof.
  intros Hsl Hasc Hrwf Hid Hfresh Hroom.
  destruct (execute_insert_fresh malloc_page malloc_cursor LEAF_NODE_SPLIT_COUNT t cells r)
    as (t' & Hins & Hsl'); [done..|].
  set (p := rank (id r) cells) in *.
  set (cells' := take p cells ++ r :: drop p cells) in *.
  assert (Hasc' : ascending cells') by (by apply insert_at_rank_ascending).
  assert (Hp : (p <= length cells)%nat) by apply rank_le_length.
  assert (Hat : cells' !! p = Some r).
  { subst cells'. rewrite lookup_app_r by (rewrite length_take; lia).
    rewrite length_take. by replace (p - p `min` length cells)%nat with 0%nat by lia. }
  assert (Hrk : rank (id r) cells' = p).
  { symmetry. by apply (rank_spec (id r) cells' p r Hasc' Hat). }
  open_single_leaf Hsl'.
  exists t', {| page_num := 0; cell_num := Z.of_nat p;
                end_of_table := end_of_table malloc_cursor |},
    node, (leaf_node_value (Z.of_nat p)).
  split; [done|]. split; [by rewrite (table_find_rank malloc_page malloc_cursor t' cells'), Hrk|].
  split.
  - unfold cursor_value. cbn [page_num cell_num].
    by rewrite (table_get_page_hit malloc_page t' 0 node).
  - apply (deserialize_row_of_cell node _ (id r) r); [|done|by apply Hcells].
    assert (length cells' = S (length cells)).
    { subst cells'. rewrite length_app, length_take. cbn [length]. rewrite length_drop. lia. }
    lia.
Qed.

End Finding.

(** ** The key of an insert *)

(** The page [leaf_node_insert] leaves when the leaf has room, whatever
    the cells hold: the cell at the cursor has the key and the row, the
    cells after it are the old cells moved up by one. *)
Lemma leaf_insert_page_cells node i key r :
  length node = 4096%nat ->
  0 <= load_u32 node leaf_node_num_cells < 13 ->
  0 <= i <= load_u32 node leaf_node_num_cells ->
  row_wf r -> 0 <= key < 4294967296 ->
  let n := load_u32 node leaf_node_num_cells in
  let node1 := if i <? n then shift_cells (Z.to_nat (n - i)) node n else node in
  let node2 := store_u32 node1 leaf_node_num_cells
                 (u32 (load_u32 node1 leaf_node_num_cells + 1)) in
  let node3 := store_u32 node2 (leaf_node_key i) key in
  let node4 := serialize_row r node3 (leaf_node_value i) in
  length node4 = 4096%nat /\
  load_u32 node4 leaf_node_num_cells = n + 1 /\
  key_at node4 i = key /\
  row_at node4 i = r /\
  (forall j, 0 <= j < i -> cell_at node4 j = cell_at node j) /\
  (forall j, i < j <= n -> cell_at node4 j = cell_at node (j - 1)).
Proof.
  intros Hlen Hn Hi Hr Hkey n node1 node2 node3 node4.
  change leaf_node_num_cells with 4 in *. fold n in Hn, Hi.
  assert (H1 : length node1 = 4096%nat /\ load_u32 node1 4 = n /\
               forall j, 0 <= j <= 12 ->
                 cell_at node1 j = if decide (i < j <= n)
                                   then cell_at node (j - 1) else cell_at node j).
  { subst node1. destruct (Z.ltb_spec i n) as [Hlt|Hge].
    - destruct (shift_cells_header (Z.to_nat (n - i)) node n) as (_ & _ & A4); [lia|].
      rewrite length_shift_cells. split; [done|]. split; [exact A4|].
      intros j Hj. rewrite shift_cells_cells by lia.
      by replace (n - Z.of_nat (Z.to_nat (n - i))) with i by lia.
    - split; [done|]. split; [done|]. intros j Hj. destruct (decide _); [lia|done]. }
  destruct H1 as (L1 & N1 & C1).
  assert (Hn1 : u32 (load_u32 node1 4 + 1) = n + 1).
  { rewrite N1. unfold u32. rewrite Z.mod_small; lia. }
  assert (Hcp : leaf_node_cell i = 8 + 297 * i) by (apply leaf_cell_off; lia).
  assert (Hfinal : node4 = memwrite node2 (leaf_node_cell i) (cell_bytes key r)).
  { subst node4 node3. unfold leaf_node_value, leaf_node_key, void_ptr_add.
    change LEAF_NODE_KEY_SIZE with 4. apply serialize_row_after_key; [lia|].
    by destruct Hr as (_ & Hu & _). }
  assert (L2 : length node2 = 4096%nat)
    by (subst node2; unfold store_u32; by rewrite length_memwrite).
  pose proof (length_cell_bytes key r Hr) as Lc.
  assert (Hcell : forall j, 0 <= j <= 12 ->
            cell_at node4 j = if decide (i = j) then cell_bytes key r
                              else if decide (i < j <= n) then cell_at node (j - 1)
                                   else cell_at node j).
  { intros j Hj. rewrite Hfinal, cell_at_memwrite_cell by lia.
    destruct (decide (i = j)); [done|]. subst node2. unfold store_u32.
    rewrite cell_at_memwrite_header by (rewrite ?length_encode_u32; lia).
    by apply C1. }
  assert (Hat : cell_at node4 i = cell_bytes key r).
  { rewrite Hcell by lia. by destruct (decide (i = i)). }
  split; [by rewrite Hfinal, length_memwrite|]. split.
  { rewrite Hfinal, load_u32_memwrite_disjoint by lia. subst node2.
    rewrite load_store_u32; lia. }
  split; [by apply (load_key_of_cell node4 i key r); [lia| |]|].
  split; [by apply (deserialize_row_of_cell node4 i key r); [lia| |]|].
  split.
  - intros j Hj. rewrite Hcell by lia. destruct (decide (i = j)); [lia|].
    destruct (decide _); [lia|done].
  - intros j Hj. rewrite Hcell by lia. destruct (decide (i = j)); [lia|].
    destruct (decide _); [done|lia].
Qed.

Section Key.

Variable malloc_page : Z -> list byte.
Variable malloc_cursor : Cursor.
Variable LEAF_NODE_SPLIT_COUNT : Z.

Lemma table_get_page_in_bound t n node t' :
  table_get_page malloc_page t n = Ok (node, t') ->
  n <= TABLE_MAX_PAGES /\ pages (pager t') !! n = Some node /\
  root_page_num t' = root_page_num t.
Proof.
  unfold table_get_page.
  destruct (get_page malloc_page (pager t) n) as [[x p']|?|] eqn:Hg; [|done|done].
  rewrite bind_Ok. intros [= <- <-]. cbn [pager root_page_num].
  split; [|split; [by apply (get_page_again malloc_page _ _ _ _ Hg)|done]].
  unfold get_page in Hg. by destruct (Z.gtb_spec n TABLE_MAX_PAGES).
Qed.

(** C9.  [execute_insert] cuts the id of the row to 16 bits for the search
    and for the duplicate check, and hands the whole id to
    [leaf_node_insert].  In every state in which the root page is a leaf:
    the cursor [table_find] gives for a 16-bit key is within the cells, on
    that key or between a smaller and a larger one; and for every row whose
    id is that key modulo 65536, the insert is turned down, with the table
    as it is, exactly when the cell under this cursor has the cut id as its
    key, and otherwise, if the leaf has room, the row is stored in the cell
    under this cursor with its whole 32-bit id as the key of the cell, the
    cells from the cursor on having moved up by one. *)
Theorem execute_insert_truncates_key (t t0 : Table) (node : list byte)
    (key_to_insert : Z) :
  table_get_page malloc_page t (root_page_num t) = Ok (node, t0) ->
  length node = Z.to_nat PAGE_SIZE ->
  get_node_type node = NODE_LEAF ->
  0 <= load_u32 node leaf_node_num_cells < 2147483648 ->
  exists i,
    table_find malloc_page malloc_cursor t key_to_insert
    = Ok ({| page_num := root_page_num t; cell_num := i;
             end_of_table := end_of_table malloc_cursor |}, t0) /\
    0 <= i <= load_u32 node leaf_node_num_cells /\
    (i < load_u32 node leaf_node_num_cells /\ key_at node i = key_to_insert \/
     (0 < i -> key_at node (i - 1) < key_to_insert) /\
     (i < load_u32 node leaf_node_num_cells -> key_to_insert < key_at node i)) /\
    forall st : Statement,
      id (row_to_insert st) mod 65536 = key_to_insert ->
      (i < load_u32 node leaf_node_num_cells /\ key_at node i = key_to_insert ->
       execute_insert malloc_page malloc_cursor LEAF_NODE_SPLIT_COUNT st t
       = Ok (EXECUTE_DUPLICATE_KEY, t0)) /\
      (~ (i < load_u32 node leaf_node_num_cells /\ key_at node i = key_to_insert) ->
       load_u32 node leaf_node_num_cells < LEAF_NODE_MAX_CELLS ->
       row_wf (row_to_insert st) ->
       exists t',
         execute_insert malloc_page malloc_cursor LEAF_NODE_SPLIT_COUNT st t
         = Ok (EXECUTE_SUCCESS, t') /\
         load_u32 (page_at t' (root_page_num t)) leaf_node_num_cells
         = load_u32 node leaf_node_num_cells + 1 /\
         key_at (page_at t' (root_page_num t)) i = id (row_to_insert st) /\
         row_at (page_at t' (root_page_num t)) i = row_to_insert st /\
         (forall j, 0 <= j < i ->
            cell_at (page_at t' (root_page_num t)) j = cell_at node j) /\
         (forall j, i < j <= load_u32 node leaf_node_num_cells ->
            cell_at (page_at t' (root_page_num t)) j = cell_at node (j - 1))).
Proof.
  intros Hget Hlen Hty Hnum.
  destruct (table_get_page_in_bound _ _ _ _ Hget) as (Hle & Hslot & Hroot0).
  set (root := root_page_num t) in *. set (num := load_u32 node leaf_node_num_cells) in *.
  assert (Hhit : table_get_page malloc_page t0 root = Ok (node, t0))
    by (by apply table_get_page_hit).
  destruct (leaf_node_find_loop_bounds node key_to_insert num (Z.to_nat num) 0 num)
    as (i & Hloop & Hi & Hbr); [lia|lia|lia|lia|by left|by left|].
  assert (Hfind : forall t1, table_get_page malloc_page t1 root = Ok (node, t0) ->
            root_page_num t1 = root ->
            table_find malloc_page malloc_cursor t1 key_to_insert
            = Ok ({| page_num := root; cell_num := i;
                     end_of_table := end_of_table malloc_cursor |}, t0)).
  { intros t1 Hg1 Hr1. unfold table_find. rewrite Hr1, Hg1, bind_Ok, Hty.
    change (NODE_LEAF =? NODE_LEAF) with true. cbv iota. unfold leaf_node_find.
    rewrite Hhit, bind_Ok. fold num. by rewrite Hloop. }
  exists i. split; [by apply Hfind|]. split; [done|]. split; [done|].
  intros st Hcut.
  assert (Hstart : execute_insert malloc_page malloc_cursor LEAF_NODE_SPLIT_COUNT st t
            = if (i <? num) && (key_at node i =? key_to_insert)
              then Ok (EXECUTE_DUPLICATE_KEY, t0)
              else t' ← leaf_node_insert malloc_page LEAF_NODE_SPLIT_COUNT
                          {| page_num := root; cell_num := i;
                             end_of_table := end_of_table malloc_cursor |}
                          (id (row_to_insert st)) (row_to_insert st) t0;
                   Ok (EXECUTE_SUCCESS, t')).
  { unfold execute_insert. fold root. rewrite Hget, bind_Ok. unfold u16. rewrite Hcut.
    rewrite (Hfind t0 Hhit Hroot0), bind_Ok. cbn [cell_num]. fold num.
    fold (key_at node i). by destruct (_ && _). }
  rewrite Hstart. split.
  - intros [Hlt Heq]. destruct (Z.ltb_spec i num) as [_|?]; [|lia].
    by rewrite Heq, Z.eqb_refl.
  - intros Hnodup Hroom Hr.
    assert (Hno : (i <? num) && (key_at node i =? key_to_insert) = false).
    { destruct (Z.ltb_spec i num) as [Hlt|?]; [|done].
      destruct (Z.eqb_spec (key_at node i) key_to_insert) as [Heq|?]; [|done].
      by destruct Hnodup. }
    rewrite Hno. unfold leaf_node_insert. cbn [page_num cell_num].
    rewrite Hhit, bind_Ok. fold num.
    change LEAF_NODE_MAX_CELLS with 13 in *.
    destruct (Z.geb_spec num 13) as [?|_]; [lia|].
    unfold mret, result_ret. rewrite bind_Ok.
    eexists. split; [reflexivity|]. rewrite page_at_put.
    destruct (decide (root = root)) as [_|?]; [|done].
    destruct (leaf_insert_page_cells node i (id (row_to_insert st)) (row_to_insert st))
      as (_ & H1 & H2 & H3 & H4 & H5);
      [exact Hlen|fold num; lia|exact Hi|exact Hr|by destruct Hr|].
    done.
Qed.

End Key.

(** ** A new root *)

Lemma memwrite_whole buf data :
  length data = length buf -> memwrite buf 0 data = data.
Proof.
  intros Hlen. unfold memwrite. change (Z.to_nat 0) with 0%nat.
  rewrite <- (app_nil_r buf) at 1. rewrite list_inserts_0_r by done. apply app_nil_r.
Qed.

Lemma get_node_max_key_set_node_root node b :
  get_node_max_key (set_node_root node b) = get_node_max_key node.
Proof.
  unfold get_node_max_key, get_node_type, set_node_root, store_u8.
  change NODE_TYPE_OFFSET with 0. change IS_ROOT_OFFSET with 1.
  rewrite load_u8_memwrite_above by lia.
  assert (H4 : forall off, 4 <= off ->
            load_u32 (memwrite node 1 [u8 (if b then 1 else 0)]) off = load_u32 node off).
  { intros off Hoff. apply load_u32_memwrite_disjoint; [lia|lia|]. right. cbn [length]. lia. }
  assert (Hmod : forall x, 0 <= u32 x) by (intros x; unfold u32; apply Z.mod_pos_bound; lia).
  rewrite (H4 internal_node_num_keys) by done.
  rewrite (H4 leaf_node_num_cells) by done.
  rewrite !H4; [done| |].
  - unfold leaf_node_key, leaf_node_cell, void_ptr_add. change LEAF_NODE_HEADER_SIZE with 8.
    specialize (Hmod (u32 (load_u32 node leaf_node_num_cells - 1) * LEAF_NODE_CELL_SIZE)). lia.
  - unfold internal_node_key, internal_node_cell, void_ptr_add, u32_ptr_add.
    change INTERNAL_NODE_HEADER_SIZE with 12.
    specialize (Hmod (u32 (load_u32 node internal_node_num_keys - 1) * INTERNAL_NODE_CELL_SIZE)).
    change INTERNAL_NODE_CHILD_SIZE with 4. lia.
Qed.

Lemma is_node_root_set_node_root node b :
  (2 <= length node)%nat -> is_node_root (set_node_root node b) = b.
Proof.
  intros Hlen. destruct node as [|a [|c node]]; [simpl in Hlen; lia..|].
  by destruct b.
Qed.

Section NewRoot.

Variable malloc_page : Z -> list byte.
Hypothesis malloc_size : forall n, length (malloc_page n) = Z.to_nat PAGE_SIZE.

Lemma table_get_page_returns t0 t n :
  reaches t0 t -> 0 <= n <= TABLE_MAX_PAGES ->
  exists node t',
    table_get_page malloc_page t n = Ok (node, t') /\
    reaches t0 t' /\ cached t' n /\
    num_pages (pager t') = Z.max (num_pages (pager t)) (n + 1) /\
    length node = Z.to_nat PAGE_SIZE /\
    forall m, cached t m -> page_at t' m = page_at t m.
Proof.
  intros Hr Hn.
  destruct (get_page_returns malloc_page (pager t) n) as (node & p' & Hg); [lia|].
  assert (Hg' : table_get_page malloc_page t n
                = Ok (node, {| root_page_num := root_page_num t; pager := p' |})).
  { unfold table_get_page. by rewrite Hg. }
  exists node, {| root_page_num := root_page_num t; pager := p' |}.
  destruct (table_get_page_reaches malloc_page malloc_size t0 t n _ _ Hr (proj1 Hn) Hg')
    as (Hr' & Hc & _ & _ & Hlen & Hframe).
  split; [done|]. split; [done|]. split; [done|]. split; [|by split].
  cbn [pager]. eapply get_page_num_pages; [|lia|done].
  by destruct Hr as [[_ ?] _].
Qed.

(** X16.  [create_new_root] on a table with a cached root page.  The page
    after the last one, and after the right child, becomes the left child:
    a copy of the old root with the root flag cleared.  The root page gets
    the root flag, one key, the left child as child 0, the largest key of
    the old root as key 0 and the right child as right child.  Of
    [initialize_internal_node] only this is used: it writes within the
    page. *)
Theorem create_new_root_links_children (t : Table) (right_child_page_num : Z)
    (root : list byte) (k : Z) :
  table_wf t ->
  pages (pager t) !! root_page_num t = Some root ->
  0 <= right_child_page_num ->
  Z.max (num_pages (pager t)) (right_child_page_num + 1) <= TABLE_MAX_PAGES ->
  get_node_max_key root = Ok k -> 0 <= k < 4294967296 ->
  exists t',
    create_new_root malloc_page t right_child_page_num = Ok t' /\
    num_pages (pager t') = Z.max (num_pages (pager t)) (right_child_page_num + 1) + 1 /\
    page_at t' (Z.max (num_pages (pager t)) (right_child_page_num + 1))
    = set_node_root root false /\
    is_node_root (page_at t' (root_page_num t)) = true /\
    load_u32 (page_at t' (root_page_num t)) internal_node_num_keys = 1 /\
    internal_node_child (page_at t' (root_page_num t)) 0 = Ok (internal_node_cell 0) /\
    load_u32 (page_at t' (root_page_num t)) (internal_node_cell 0)
    = Z.max (num_pages (pager t)) (right_child_page_num + 1) /\
    load_u32 (page_at t' (root_page_num t)) (internal_node_key 0) = k /\
    load_u32 (page_at t' (root_page_num t)) internal_node_right_child = right_child_page_num.
Proof.
  intros Hwf Hroot Hrc Hmax Hkey Hk.
  set (left := Z.max (num_pages (pager t)) (right_child_page_num + 1)) in *.
  change TABLE_MAX_PAGES with 100 in Hmax.
  set (r := root_page_num t) in *.
  pose proof Hwf as [Hr0 [Hnp Hpages]].
  destruct (Hpages r root Hroot) as (Hr & _ & Hlen).
  assert (Hrl : r <> left) by (subst left; lia).
  unfold create_new_root. fold r.
  rewrite (table_get_page_hit malloc_page t r root Hroot) by (change TABLE_MAX_PAGES with 100; lia).
  rewrite bind_Ok. cbv beta iota.
  destruct (table_get_page_returns t t right_child_page_num (reaches_refl t Hwf))
    as (n2 & t2 & -> & Hr2 & Hc2 & Hnp2 & _ & Hfr2); [change TABLE_MAX_PAGES with 100; lia|].
  rewrite bind_Ok. cbv beta iota. unfold get_unused_page_num. rewrite Hnp2. fold left.
  destruct (table_get_page_returns t t2 left Hr2)
    as (n3 & t3 & -> & Hr3 & Hc3 & Hnp3 & Hlen3 & Hfr3); [change TABLE_MAX_PAGES with 100; lia|].
  rewrite bind_Ok. cbv beta iota zeta.
  assert (Hroot3 : page_at t3 r = root).
  { rewrite Hfr3, Hfr2; [by apply page_at_cached|by exists root|].
    apply (reaches_cached t t2); [done|by exists root]. }
  assert (Hleft3 : length (page_at t3 left) = Z.to_nat PAGE_SIZE).
  { destruct Hc3 as [x Hx]. rewrite (page_at_cached _ _ _ Hx).
    destruct Hr3 as [[_ [_ Hp3]] _]. by destruct (Hp3 _ _ Hx) as (_ & _ & ?). }
  fold r.
  (* the pages after each write *)
  rewrite !page_at_update.
  rewrite ?(decide_True _ _ (eq_refl r)), ?(decide_True _ _ (eq_refl left)).
  rewrite ?decide_False by (done || (intros E; symmetry in E; done)).
  rewrite Hroot3.
  assert (Hcopy : memwrite (page_at t3 left) 0 (memread root 0 PAGE_SIZE) = root).
  { rewrite (memread_whole root Hlen). apply memwrite_whole. congruence. }
  set (R2 := set_node_root (initialize_internal_node root) true).
  assert (HlenR2 : length R2 = 4096%nat).
  { subst R2. by rewrite keeps_length_set_node_root, keeps_length_initialize_internal_node. }
  assert (Hchild : internal_node_child (store_u32 R2 internal_node_num_keys 1) 0
                   = Ok (internal_node_cell 0)).
  { unfold internal_node_child. rewrite load_store_u32; [done|done|lia|].
    rewrite HlenR2. change internal_node_num_keys with 4. lia. }
  rewrite Hchild, bind_Ok.
  rewrite !page_at_update.
  rewrite ?(decide_True _ _ (eq_refl r)), ?(decide_True _ _ (eq_refl left)).
  rewrite ?decide_False by (done || (intros E; symmetry in E; done)).
  rewrite Hcopy. rewrite get_node_max_key_set_node_root, Hkey, bind_Ok.
  eexists. split; [reflexivity|].
  rewrite !page_at_update.
  rewrite ?(decide_True _ _ (eq_refl r)), ?(decide_True _ _ (eq_refl left)).
  rewrite ?decide_False by (done || (intros E; symmetry in E; done)).
  rewrite Hroot3, Hcopy. fold R2.
  change (internal_node_cell 0) with 12. change (internal_node_key 0) with 28.
  change internal_node_num_keys with 4. change internal_node_right_child with 8.
  split; [cbn [update_page put_table_page put_page pager num_pages]; lia|].
  split; [done|]. unfold store_u32.
  split.
  { rewrite !is_node_root_memwrite by lia. subst R2. apply is_node_root_set_node_root.
    rewrite keeps_length_initialize_internal_node, Hlen. change (Z.to_nat PAGE_SIZE) with 4096%nat. lia. }
  assert (Hl4 : load_u32 (memwrite (memwrite (memwrite (memwrite R2 4 (encode_u32 1)) 12
                   (encode_u32 left)) 28 (encode_u32 k)) 8 (encode_u32 right_child_page_num)) 4 = 1).
  { rewrite !load_u32_memwrite_disjoint by (rewrite ?length_encode_u32; lia).
    apply load_store_u32; [lia|lia|rewrite HlenR2; lia]. }
  split; [exact Hl4|]. split.
  { unfold internal_node_child. change internal_node_num_keys with 4. by rewrite Hl4. }
  split.
  { rewrite !load_u32_memwrite_disjoint by (rewrite ?length_encode_u32; lia).
    apply load_store_u32; [lia|lia|rewrite !length_memwrite, HlenR2; lia]. }
  split.
  { rewrite !load_u32_memwrite_disjoint by (rewrite ?length_encode_u32; lia).
    apply load_store_u32; [lia|lia|rewrite !length_memwrite, HlenR2; lia]. }
  apply load_store_u32; [lia|lia|rewrite !length_memwrite, HlenR2; lia].
Qed.

End NewRoot.

(** ** Tokens of a line *)

Lemma tokens_go_split_token s : forall cur,
  tokens_go cur s
  = match cur ++ (split_token s).1 with
    | [] => tokens (split_token s).2
    | tok => tok :: tokens (split_token s).2
    end.
Proof.
  induction s as [|c s IH]; intros cur; cbn [tokens_go split_token].
  - cbn [fst snd]. rewrite app_nil_r. by destruct cur.
  - destruct (is_delim c).
    + cbn [fst snd]. rewrite app_nil_r. by destruct cur.
    + rewrite IH. destruct (split_token s) as [tok rest]. cbn [fst snd].
      rewrite <- app_assoc. cbn [app]. by destruct cur.
Qed.

Lemma tokens_skip_delims s : tokens (skip_delims s) = tokens s.
Proof.
  induction s as [|c s IH]; [done|]. cbn [skip_delims]. unfold tokens in *.
  cbn [tokens_go]. destruct (is_delim c) eqn:E; [exact IH|].
  cbn [tokens_go]. by rewrite E.
Qed.

Lemma skip_delims_head s c s' : skip_delims s = c :: s' -> is_delim c = false.
Proof.
  induction s as [|x s IH]; [done|]. cbn [skip_delims].
  destruct (is_delim x) eqn:E; [done|]. by intros [= <- <-].
Qed.

Lemma strtok_tokens s :
  match strtok s with
  | None => tokens s = []
  | Some (tok, rest) => tokens s = tok :: tokens rest
  end.
Proof.
  unfold strtok. rewrite <- (tokens_skip_delims s).
  destruct (skip_delims s) as [|c s1] eqn:E; [done|].
  apply skip_delims_head in E. unfold tokens at 1. rewrite tokens_go_split_token.
  cbn [split_token app]. rewrite E.
  destruct (split_token s1) as [tok rest]. reflexivity.
Qed.

Lemma strtok_None s : tokens s = [] -> strtok s = None.
Proof.
  intros H. pose proof (strtok_tokens s) as Hs.
  destruct (strtok s) as [[tok rest]|]; [congruence|done].
Qed.

Lemma strtok_Some s tok l :
  tokens s = tok :: l -> exists rest, strtok s = Some (tok, rest) /\ tokens rest = l.
Proof.
  intros H. pose proof (strtok_tokens s) as Hs.
  destruct (strtok s) as [[tok' rest]|]; [|congruence].
  rewrite H in Hs. injection Hs as -> ->. by exists rest.
Qed.

(** [prepare_insert] on the tokens of the line. *)
Lemma prepare_insert_tokens buffer statement :
  let statement' := {| type := STATEMENT_INSERT;
                       row_to_insert := row_to_insert statement |} in
  prepare_insert buffer statement
  = match tokens buffer with
    | _ :: id_string :: name :: mail :: _ =>
        if atoi id_string <? 0 then (PREPARE_NEGATIVE_ID, statement')
        else if strlen name >? COLUMN_USERNAME_SIZE
        then (PREPARE_STRING_TOO_LONG, statement')
        else if strlen mail >? COLUMN_EMAIL_SIZE
        then (PREPARE_STRING_TOO_LONG, statement')
        else (PREPARE_SUCCESS,
              {| type := STATEMENT_INSERT;
                 row_to_insert :=
                   {| id := u32 (atoi id_string);
                      username := strcpy (username (row_to_insert statement)) name;
                      email := strcpy (email (row_to_insert statement)) mail |} |})
    | _ => (PREPARE_SYNTAX_ERROR, statement')
    end.
Proof.
  intros statement'. unfold prepare_insert. fold statement'.
  destruct (tokens buffer) as [|kw l1] eqn:H0.
  { by rewrite (strtok_None _ H0). }
  destruct (strtok_Some _ _ _ H0) as (r1 & -> & H1). cbn [mbind option_bind].
  destruct l1 as [|ids l2].
  { by rewrite (strtok_None _ H1). }
  destruct (strtok_Some _ _ _ H1) as (r2 & -> & H2). cbn [mbind option_bind].
  destruct l2 as [|u l3].
  { by rewrite (strtok_None _ H2). }
  destruct (strtok_Some _ _ _ H2) as (r3 & -> & H3). cbn [mbind option_bind].
  destruct l3 as [|e l4].
  { by rewrite (strtok_None _ H3). }
  destruct (strtok_Some _ _ _ H3) as (r4 & -> & H4). reflexivity.
Qed.

Lemma tokens_go_elem_of c tok s : forall cur,
  tok ∈ tokens_go cur s -> c ∈ tok -> c ∈ cur \/ c ∈ s.
Proof.
  induction s as [|x s IH]; intros cur Htok Hc; cbn [tokens_go] in Htok.
  - destruct cur; [by apply elem_of_nil in Htok|].
    apply list_elem_of_singleton in Htok as ->. by left.
  - destruct (is_delim x).
    + destruct cur as [|y cur].
      * destruct (IH [] Htok Hc) as [H|H]; [by apply elem_of_nil in H|].
        right. by apply list_elem_of_further.
      * apply elem_of_cons in Htok as [->|Htok]; [by left|].
        destruct (IH [] Htok Hc) as [H|H]; [by apply elem_of_nil in H|].
        right. by apply list_elem_of_further.
    + destruct (IH _ Htok Hc) as [H|H].
      * apply elem_of_app in H as [H|H]; [by left|].
        apply list_elem_of_singleton in H as ->. right. apply list_elem_of_here.
      * right. by apply list_elem_of_further.
Qed.

Lemma tokens_elem_of c tok s : tok ∈ tokens s -> c ∈ tok -> c ∈ s.
Proof.
  intros Htok Hc. destruct (tokens_go_elem_of c tok s [] Htok Hc) as [H|H]; [|done].
  by apply elem_of_nil in H.
Qed.

Lemma byte_of_ascii_zero c : byte_of_ascii c = 0 -> c = Ascii.zero.
Proof.
  unfold byte_of_ascii. intros H. rewrite <- (ascii_N_embedding c).
  by replace (N_of_ascii c) with 0%N by lia.
Qed.

Lemma atoi_range s : - 2147483648 <= atoi s < 2147483648.
Proof.
  assert (H : forall x, - 2147483648 <= int_of_long x < 2147483648).
  { intros x. unfold int_of_long.
    pose proof (Z.mod_pos_bound (x + 2147483648) 4294967296). lia. }
  unfold atoi. destruct (skip_spaces s) as [|c s']; [apply H|].
  destruct c as [[] [] [] [] [] [] [] []]; apply H.
Qed.

Lemma strcpy_eq dst src :
  (length src < length dst)%nat ->
  strcpy dst src = (byte_of_ascii <$> src) ++ 0 :: drop (S (length src)) dst.
Proof.
  intros Hlen. unfold strcpy, memwrite. change (Z.to_nat 0) with 0%nat.
  rewrite <- (take_drop (S (length src)) dst) at 1.
  rewrite list_inserts_0_r.
  - by rewrite <- app_assoc.
  - rewrite length_app, length_take, length_fmap. cbn [length]. lia.
Qed.

Lemma c_chars_app_zero s rest :
  Forall (fun b => b <> 0) s -> c_chars (s ++ 0 :: rest) = s.
Proof.
  induction 1 as [|b s Hb Hs IH]; [done|]. cbn [app c_chars].
  destruct (Z.eqb_spec b 0); [done|]. by rewrite IH.
Qed.

Lemma c_chars_strcpy dst src :
  (length src < length dst)%nat -> Ascii.zero ∉ src ->
  c_chars (strcpy dst src) = byte_of_ascii <$> src.
Proof.
  intros Hlen Hz. rewrite strcpy_eq by done. apply c_chars_app_zero.
  apply Forall_fmap, Forall_forall. intros c Hc E. apply byte_of_ascii_zero in E.
  by subst c.
Qed.

Lemma length_strcpy dst src : length (strcpy dst src) = length dst.
Proof. apply length_memwrite. Qed.

Lemma strcpy_has_zero dst src : (length src < length dst)%nat -> In 0 (strcpy dst src).
Proof.
  intros Hlen. rewrite strcpy_eq by done. apply in_or_app. right. by left.
Qed.

(** X17.  The verdict of [prepare_insert] on a line with four tokens or
    more.  The id is looked at before the strings. *)
Theorem prepare_insert_verdict (buffer : list ascii) (statement : Statement)
    (keyword id_string name mail : list ascii) (more : list (list ascii)) :
  tokens buffer = keyword :: id_string :: name :: mail :: more ->
  (prepare_insert buffer statement).1
  = if atoi id_string <? 0 then PREPARE_NEGATIVE_ID
    else if (COLUMN_USERNAME_SIZE <? strlen name) || (COLUMN_EMAIL_SIZE <? strlen mail)
         then PREPARE_STRING_TOO_LONG
         else PREPARE_SUCCESS.
Proof.
  intros Htok. rewrite prepare_insert_tokens, Htok.
  destruct (atoi id_string <? 0); [done|]. rewrite !Z.gtb_ltb.
  destruct (COLUMN_USERNAME_SIZE <? strlen name); [done|].
  by destruct (COLUMN_EMAIL_SIZE <? strlen mail).
Qed.

(** X18.  A line is a syntax error for [prepare_insert] exactly when it
    has fewer than four tokens. *)
Theorem prepare_insert_syntax_error_iff (buffer : list ascii) (statement : Statement) :
  (prepare_insert buffer statement).1 = PREPARE_SYNTAX_ERROR
  <-> (length (tokens buffer) < 4)%nat.
Proof.
  rewrite prepare_insert_tokens.
  destruct (tokens buffer) as [|kw [|ids [|u [|e more]]]]; cbn [length fst];
    try (split; [lia|done]); try (split; [done|lia]).
  split; [|lia]. destruct (_ <? 0); [done|].
  destruct (_ >? _); [done|]. by destruct (_ >? _).
Qed.

(** X19.  When [prepare_insert] turns a line down, the row of the statement
    is as it was; the type of the statement has been set. *)
Theorem prepare_insert_error_keeps_row (buffer : list ascii) (statement : Statement) :
  (prepare_insert buffer statement).1 <> PREPARE_SUCCESS ->
  (prepare_insert buffer statement).2
  = {| type := STATEMENT_INSERT; row_to_insert := row_to_insert statement |}.
Proof.
  rewrite prepare_insert_tokens.
  destruct (tokens buffer) as [|kw [|ids [|u [|e more]]]]; try done.
  destruct (_ <? 0); [done|]. destruct (_ >? _); [done|]. by destruct (_ >? _).
Qed.

(** X20.  The row that [prepare_insert] makes of a line is a row of the C
    type with its strings ended, and [print_row] shows the number and the
    strings of the line. *)
Theorem prepare_insert_row_prints_as_typed (buffer : list ascii) (statement : Statement)
    (keyword id_string name mail : list ascii) (more : list (list ascii)) :
  tokens buffer = keyword :: id_string :: name :: mail :: more ->
  Ascii.zero ∉ buffer ->
  length (username (row_to_insert statement)) = Z.to_nat USERNAME_SIZE ->
  length (email (row_to_insert statement)) = Z.to_nat EMAIL_SIZE ->
  0 <= atoi id_string ->
  strlen name <= COLUMN_USERNAME_SIZE -> strlen mail <= COLUMN_EMAIL_SIZE ->
  exists statement',
    prepare_insert buffer statement = (PREPARE_SUCCESS, statement') /\
    type statement' = STATEMENT_INSERT /\
    row_valid (row_to_insert statement') /\
    id (row_to_insert statement') = atoi id_string /\
    print_row (row_to_insert statement')
    = (atoi id_string, byte_of_ascii <$> name, byte_of_ascii <$> mail).
Proof.
  intros Htok Hz Hu He Hid Hname Hmail.
  change (Z.to_nat USERNAME_SIZE) with 33%nat in Hu.
  change (Z.to_nat EMAIL_SIZE) with 256%nat in He.
  change COLUMN_USERNAME_SIZE with 32 in Hname. change COLUMN_EMAIL_SIZE with 255 in Hmail.
  unfold strlen in Hname, Hmail.
  rewrite prepare_insert_tokens, Htok.
  destruct (Z.ltb_spec (atoi id_string) 0) as [?|_]; [lia|].
  rewrite !Z.gtb_ltb. unfold strlen.
  change COLUMN_USERNAME_SIZE with 32. change COLUMN_EMAIL_SIZE with 255.
  destruct (Z.ltb_spec 32 (Z.of_nat (length name))) as [?|_]; [lia|].
  destruct (Z.ltb_spec 255 (Z.of_nat (length mail))) as [?|_]; [lia|].
  pose proof (atoi_range id_string) as Hrange.
  assert (Hu32 : u32 (atoi id_string) = atoi id_string)
    by (unfold u32; rewrite Z.mod_small; lia).
  assert (Hzn : Ascii.zero ∉ name).
  { intros H. apply Hz. apply (tokens_elem_of _ name); [|done].
    rewrite Htok. do 2 apply list_elem_of_further. apply list_elem_of_here. }
  assert (Hzm : Ascii.zero ∉ mail).
  { intros H. apply Hz. apply (tokens_elem_of _ mail); [|done].
    rewrite Htok. do 3 apply list_elem_of_further. apply list_elem_of_here. }
  eexists. split; [reflexivity|]. cbn [type row_to_insert id]. split; [done|].
  split; [|split; [done|]].
  - split; [|split]; [|apply strcpy_has_zero; cbn [username]; lia
                      |apply strcpy_has_zero; cbn [email]; lia].
    unfold row_wf. cbn [id username email]. rewrite !length_strcpy, Hu32.
    split; [lia|]. by split.
  - unfold print_row. cbn [id username email]. rewrite Hu32.
    rewrite !c_chars_strcpy by (done || lia).
    do 2 f_equal. unfold int_of_long. rewrite Z.mod_small; lia.
Qed.

(** ** The keyword of a line *)

Lemma strncmp_eq_prefix a : forall b,
  strncmp_eq b a (length a) = true <-> a `prefix_of` b.
Proof.
  induction a as [|x a IH]; intros b.
  - split; [intros _; apply prefix_nil|by destruct b].
  - destruct b as [|y b]; cbn [length strncmp_eq].
    + split; [done|]. intros H. by apply prefix_nil_not in H.
    + rewrite andb_true_iff, IH. split.
      * intros [E H]. apply Ascii.eqb_eq in E as ->. by apply prefix_cons.
      * intros H. split; [apply Ascii.eqb_eq; by apply prefix_cons_inv_1 in H|].
        by apply prefix_cons_inv_2 in H.
Qed.

Lemma prepare_insert_type buffer statement :
  type (prepare_insert buffer statement).2 = STATEMENT_INSERT /\
  (prepare_insert buffer statement).1 <> PREPARE_UNRECOGNIZED_STATEMENT.
Proof.
  rewrite prepare_insert_tokens.
  destruct (tokens buffer) as [|kw [|ids [|u [|e more]]]]; try done.
  destruct (_ <? 0); [done|]. destruct (_ >? _); [done|]. by destruct (_ >? _).
Qed.

(** X21.  A line is prepared as a select exactly when it is the word
    [select] and nothing else. *)
Theorem prepare_statement_select_iff (buffer : list ascii) (statement : Statement) :
  (prepare_statement buffer statement).1 = PREPARE_SUCCESS /\
  type (prepare_statement buffer statement).2 = STATEMENT_SELECT
  <-> buffer = list_ascii_of_string "select".
Proof.
  unfold prepare_statement.
  destruct (strncmp_eq buffer (list_ascii_of_string "insert") 6) eqn:E.
  - split.
    + intros [_ H]. by rewrite (proj1 (prepare_insert_type buffer statement)) in H.
    + intros ->. done.
  - destruct (decide (buffer = list_ascii_of_string "select")) as [->|Hne]; [done|].
    split; [by intros [? _]|done].
Qed.

(** X22.  A line is turned down as unrecognized exactly when it neither
    starts with the six characters [insert] nor is the word [select]; what
    follows [insert] in its token is not looked at. *)
Theorem prepare_statement_unrecognized_iff (buffer : list ascii) (statement : Statement) :
  (prepare_statement buffer statement).1 = PREPARE_UNRECOGNIZED_STATEMENT
  <-> ~ list_ascii_of_string "insert" `prefix_of` buffer /\
      buffer <> list_ascii_of_string "select".
Proof.
  unfold prepare_statement.
  pose proof (strncmp_eq_prefix (list_ascii_of_string "insert") buffer) as Hp.
  change (length (list_ascii_of_string "insert")) with 6%nat in Hp.
  destruct (strncmp_eq buffer (list_ascii_of_string "insert") 6) eqn:E.
  - split.
    + intros H. by destruct (proj2 (prepare_insert_type buffer statement)).
    + intros [H _]. destruct H. by apply Hp.
  - destruct (decide (buffer = list_ascii_of_string "select")) as [->|Hne].
    + split; [done|]. by intros [_ ?].
    + split; [|done]. intros _. split; [|done]. intros H. apply Hp in H. done.
Qed.

(** ** The command loop *)

Section Loop.

Variable malloc_page : Z -> list byte.
Variable malloc_cursor : Cursor.
Variable LEAF_NODE_SPLIT_COUNT : Z.
Variable stack_statement : nat -> Statement.
Hypothesis malloc_size : forall n, length (malloc_page n) = Z.to_nat PAGE_SIZE.

Lemma do_meta_command_other buffer t :
  table_wf t ->
  buffer <> list_ascii_of_string ".exit" ->
  exists out r t',
    do_meta_command malloc_page buffer t = META_RETURNS out r t' /\ reaches t t'.
Proof.
  intros Hwf Hne. unfold do_meta_command.
  destruct (decide (buffer = list_ascii_of_string ".exit")) as [?|_]; [done|].
  destruct (decide (buffer = list_ascii_of_string ".btree")) as [_|_].
  - destruct (table_get_page_returns malloc_page malloc_size t t 0 (reaches_refl t Hwf))
      as (node & t' & -> & Hr & _); [done|].
    by eexists _, _, _.
  - destruct (decide _); eexists _, _, _; (split; [reflexivity|by apply reaches_refl]).
Qed.

(** X23.  As long as no line is [.exit], the loop of [main] writes nothing to
    the file: it does not end with [EXIT_SUCCESS] nor in [pager_flush], and
    when the input ends the file is as it was, so that the rows that were
    inserted are lost. *)
Theorem main_loop_without_exit_keeps_file (stdin : list (list ascii)) :
  forall (i : nat) (t : Table) (out : list output) (e : ending),
  table_wf t ->
  Forall (fun raw => read_input raw <> Some (list_ascii_of_string ".exit")) stdin ->
  main_loop malloc_page malloc_cursor LEAF_NODE_SPLIT_COUNT stack_statement stdin i t
  = (out, e) ->
  (forall file, e <> EXIT_SUCCESS file) /\
  e <> EXIT_FAILURE_flush /\
  (forall file, e = EXIT_FAILURE_input file -> file = file_descriptor (pager t)).
Proof.
  induction stdin as [|raw stdin IH]; intros i t out e Hwf Hno; cbn [main_loop].
  - intros [= <- <-]. split; [done|]. split; [done|]. by intros file [= <-].
  - apply Forall_cons in Hno as [Hraw Hno].
    destruct (read_input raw) as [buffer|].
    2:{ intros [= <- <-]. split; [done|]. split; [done|]. by intros file [= <-]. }
    assert (Hnext : forall o t' out e,
              reaches t t' ->
              (let '(rest, e) :=
                 main_loop malloc_page malloc_cursor LEAF_NODE_SPLIT_COUNT stack_statement
                   stdin (S i) t' in (PROMPT :: o ++ rest, e)) = (out, e) ->
              (forall file, e <> EXIT_SUCCESS file) /\
              e <> EXIT_FAILURE_flush /\
              (forall file, e = EXIT_FAILURE_input file -> file = file_descriptor (pager t))).
    { intros o t' out' e' [Hwf' (_ & Hfile & _)].
      destruct (main_loop _ _ _ _ stdin (S i) t') as [rest e1] eqn:Hrun.
      intros [= <- <-]. rewrite <- Hfile. by apply (IH (S i) t' rest e1). }
    destruct (bool_decide (head buffer = Some "."%char)).
    + destruct (do_meta_command_other buffer t Hwf) as (o & r & t' & -> & Hr);
        [by intros ->|].
      destruct r; by apply Hnext.
    + destruct (prepare_statement buffer (stack_statement i)) as [[] statement];
        try (by apply Hnext, reaches_refl).
      destruct (execute_statement _ _ _ statement t) as [[[r rows] t']|?|] eqn:Hex.
      * apply Hnext.
        by apply (execute_statement_reaches malloc_page malloc_cursor
                    LEAF_NODE_SPLIT_COUNT malloc_size t t statement r rows t'
                    (reaches_refl t Hwf)).
      * intros [= <- <-]. by repeat split.
      * intros [= <- <-]. by repeat split.
Qed.


(** X24.  On a database of one leaf, [.btree] prints the number of rows and,
    cell by cell, the ids of the rows in the order of the leaf, each as an
    [int]; the table stays as it is. *)
Theorem btree_prints_the_ids (t : Table) (cells : list Row) :
  single_leaf t cells ->
  do_meta_command malloc_page (list_ascii_of_string ".btree") t
  = META_RETURNS
      (TREE :: LEAF_SIZE (Z.of_nat (length cells))
            :: imap (fun i r => LEAF_KEY (Z.of_nat i) (int_of_long (id r))) cells)
      META_COMMAND_SUCCESS t.
Proof.
  intros Hsl. open_single_leaf Hsl.
  unfold do_meta_command.
  destruct (decide (list_ascii_of_string ".btree" = list_ascii_of_string ".exit"))
    as [?|_]; [done|].
  destruct (decide (list_ascii_of_string ".btree" = list_ascii_of_string ".btree"))
    as [_|?]; [|done].
  rewrite (table_get_page_hit malloc_page t 0 node Hpage) by done.
  unfold print_leaf_node. rewrite Hnum.
  assert (Hsmall : forall x, 0 <= x <= 13 -> int_of_long x = x).
  { intros x Hx. unfold int_of_long. rewrite Z.mod_small; lia. }
  rewrite Hsmall by lia. do 3 f_equal.
  apply list_eq. intros i. rewrite list_lookup_fmap, list_lookup_imap.
  destruct (cells !! i) as [r|] eqn:Hr.
  - pose proof (lookup_lt_Some _ _ _ Hr) as Hi.
    rewrite (lookup_seqZ_lt 0 (Z.of_nat (length cells)) i) by lia.
    cbn [fmap option_fmap option_map]. rewrite Z.add_0_l, Hsmall by lia.
    unfold key_at. rewrite (load_key_of_cell node _ (id r) r); [done|lia| |by apply Hcells].
    by destruct (cell_row_wf node cells i r Hleaf Hr).
  - apply lookup_ge_None in Hr.
    by rewrite (lookup_seqZ_ge 0 (Z.of_nat (length cells)) i) by lia.
Qed.

End Loop.

(** ** Lines of a session *)

Lemma c_line_no_zero s : Ascii.zero ∉ s -> c_line s = s.
Proof.
  induction s as [|c s IH]; [done|]. intros Hz. cbn [c_line].
  apply not_elem_of_cons in Hz as [Hc Hs].
  destruct (Ascii.eqb_spec c Ascii.zero) as [->|_]; [done|]. by rewrite IH.
Qed.

Lemma tokens_go_word w rest : forall cur,
  (" "%char) ∉ w ->
  tokens_go cur (w ++ " "%char :: rest)
  = match cur ++ w with
    | [] => tokens_go [] rest
    | tok => tok :: tokens_go [] rest
    end.
Proof.
  induction w as [|c w IH]; intros cur Hw.
  - cbn [app tokens_go]. change (is_delim " "%char) with true. cbv iota.
    rewrite app_nil_r. by destruct cur.
  - apply not_elem_of_cons in Hw as [Hc Hw]. cbn [app tokens_go].
    assert (Hd : is_delim c = false).
    { unfold is_delim. by destruct (Ascii.eqb_spec c " "%char) as [->|_]. }
    rewrite Hd, IH by done. rewrite <- app_assoc. cbn [app]. done.
Qed.

Lemma tokens_go_last_word w : forall cur,
  (" "%char) ∉ w ->
  tokens_go cur w = match cur ++ w with [] => [] | tok => [tok] end.
Proof.
  induction w as [|c w IH]; intros cur Hw.
  - cbn [tokens_go]. rewrite app_nil_r. by destruct cur.
  - apply not_elem_of_cons in Hw as [Hc Hw]. cbn [tokens_go].
    assert (Hd : is_delim c = false).
    { unfold is_delim. by destruct (Ascii.eqb_spec c " "%char) as [->|_]. }
    rewrite Hd, IH by done. rewrite <- app_assoc. cbn [app]. done.
Qed.

(** The buffer that [read_input] makes of the line of an entry. *)
Lemma read_input_insert_line id_string name mail :
  entry_ok (id_string, name, mail) ->
  exists buffer,
    read_input (insert_line (id_string, name, mail)) = Some buffer /\
    head buffer = Some "i"%char /\
    strncmp_eq buffer (list_ascii_of_string "insert") 6 = true /\
    tokens buffer = [list_ascii_of_string "insert"; id_string; name; mail].
Proof.
  intros ((Hi0 & Hi1 & Hi2) & (Hn0 & Hn1 & Hn2) & (Hm0 & Hm1 & Hm2) & _).
  set (buffer := list_ascii_of_string "insert " ++ id_string ++ (" "%char :: name)
                   ++ (" "%char :: mail)).
  exists buffer. split; [|split; [done|split; [done|]]].
  - unfold read_input, insert_line.
    replace (list_ascii_of_string "insert " ++ id_string ++ (" "%char :: name)
               ++ (" "%char :: mail) ++ ["010"%char])
      with (buffer ++ ["010"%char])
      by (subst buffer; by rewrite <- !app_assoc).
    destruct (buffer ++ ["010"%char]) as [|c l] eqn:E.
    { subst buffer. discriminate E. }
    rewrite <- E, removelast_last. f_equal. apply c_line_no_zero.
    subst buffer. rewrite !not_elem_of_app, !not_elem_of_cons.
    split; [apply (bool_decide_unpack _); by vm_compute|].
    split; [done|]. split; [split; [done|done]|]. split; [done|done].
  - subst buffer. unfold tokens.
    change (list_ascii_of_string "insert " ++ id_string ++ (" "%char :: name)
              ++ (" "%char :: mail))
      with (list_ascii_of_string "insert"
              ++ " "%char :: (id_string ++ " "%char :: (name ++ " "%char :: mail))).
    rewrite tokens_go_word by (apply (bool_decide_unpack _); by vm_compute).
    cbn [app]. f_equal.
    rewrite tokens_go_word by done. cbn [app].
    destruct id_string as [|c0 id_string]; [done|]. f_equal.
    rewrite tokens_go_word by done. cbn [app].
    destruct name as [|c1 name]; [done|]. f_equal.
    rewrite tokens_go_last_word by done. cbn [app].
    by destruct mail.
Qed.

Lemma entry_row_facts (st : Statement) (e : entry) :
  entry_ok e ->
  length (username (row_to_insert st)) = Z.to_nat USERNAME_SIZE ->
  length (email (row_to_insert st)) = Z.to_nat EMAIL_SIZE ->
  row_wf (entry_row st e) /\ id (entry_row st e) = entry_id e /\
  0 <= id (entry_row st e) < 65536 /\
  print_row (entry_row st e) = entry_printed e.
Proof.
  destruct e as [[id_string name] mail].
  intros (_ & (_ & _ & Hzn) & (_ & _ & Hzm) & Hid & Hname & Hmail) Hu He.
  unfold strlen in *.
  change COLUMN_USERNAME_SIZE with 32 in Hname. change COLUMN_EMAIL_SIZE with 255 in Hmail.
  change (Z.to_nat USERNAME_SIZE) with 33%nat in *.
  change (Z.to_nat EMAIL_SIZE) with 256%nat in *.
  assert (Hu32 : u32 (atoi id_string) = atoi id_string)
    by (unfold u32; rewrite Z.mod_small; lia).
  unfold entry_row, entry_id, entry_printed, row_wf, print_row.
  cbn [id username email fst snd]. rewrite !length_strcpy, Hu32.
  split; [split; [lia|by split]|]. split; [done|]. split; [lia|].
  rewrite !c_chars_strcpy by (done || lia). do 2 f_equal.
  unfold int_of_long. rewrite Z.mod_small; lia.
Qed.

Section Session.

Variable malloc_page : Z -> list byte.
Variable malloc_cursor : Cursor.
Variable LEAF_NODE_SPLIT_COUNT : Z.
Variable stack_statement : nat -> Statement.
Hypothesis malloc_size : forall n, length (malloc_page n) = Z.to_nat PAGE_SIZE.
Hypothesis stack_size : forall i,
  length (username (row_to_insert (stack_statement i))) = Z.to_nat USERNAME_SIZE /\
  length (email (row_to_insert (stack_statement i))) = Z.to_nat EMAIL_SIZE.

Lemma prepare_statement_insert_line (e : entry) (i : nat) :
  entry_ok e ->
  exists buffer,
    read_input (insert_line e) = Some buffer /\
    bool_decide (head buffer = Some "."%char) = false /\
    prepare_statement buffer (stack_statement i)
    = (PREPARE_SUCCESS, insert_statement (entry_row (stack_statement i) e)).
Proof.
  intros Hok. destruct e as [[id_string name] mail].
  destruct (read_input_insert_line id_string name mail Hok)
    as (buffer & Hread & Hhead & Hcmp & Htok).
  exists buffer. split; [done|]. split; [by rewrite Hhead|].
  unfold prepare_statement. rewrite Hcmp, prepare_insert_tokens, Htok.
  destruct Hok as (_ & _ & _ & Hid & Hname & Hmail).
  destruct (Z.ltb_spec (atoi id_string) 0) as [?|_]; [lia|].
  destruct (Z.gtb_spec (strlen name) COLUMN_USERNAME_SIZE) as [?|_]; [lia|].
  destruct (Z.gtb_spec (strlen mail) COLUMN_EMAIL_SIZE) as [?|_]; [lia|].
  reflexivity.
Qed.

(** The loop on the lines of entries that all go in. *)
Lemma main_loop_insert_lines (es : list entry) : forall (i : nat) (t t' : Table) rest,
  Forall entry_ok es ->
  execute_inserts malloc_page malloc_cursor LEAF_NODE_SPLIT_COUNT
    (entry_rows stack_statement i es) t
  = Ok (map (fun _ => EXECUTE_SUCCESS) (entry_rows stack_statement i es), t') ->
  main_loop malloc_page malloc_cursor LEAF_NODE_SPLIT_COUNT stack_statement
    ((insert_line <$> es) ++ rest) i t
  = let '(out, e) :=
      main_loop malloc_page malloc_cursor LEAF_NODE_SPLIT_COUNT stack_statement
        rest (i + length es) t' in
    (concat ((fun _ => [PROMPT; EXECUTED]) <$> es) ++ out, e).
Proof.
  induction es as [|e es IH]; intros i t t' rest Hok; cbn [entry_rows execute_inserts].
  - intros [= <-]. cbn [fmap list_fmap app length concat]. rewrite Nat.add_0_r.
    by destruct (main_loop _ _ _ _ rest i t).
  - apply Forall_cons in Hok as [He Hes].
    destruct (execute_insert _ _ _ _ t) as [[code t1]|?|] eqn:Hins; [|done|done].
    rewrite bind_Ok.
    destruct (execute_inserts _ _ _ (entry_rows stack_statement (S i) es) t1)
      as [[codes t2]|?|] eqn:Hrest; [|done|done].
    rewrite bind_Ok. cbn [map]. intros [= -> -> ->].
    destruct (prepare_statement_insert_line e i He) as (buffer & Hread & Hhead & Hprep).
    cbn [fmap list_fmap app main_loop]. rewrite Hread, Hhead, Hprep.
    unfold execute_statement, insert_statement. cbn [type]. rewrite Hins, !bind_Ok.
    cbn [fmap list_fmap app print_execute_result].
    change (list_fmap _ _ insert_line es) with (insert_line <$> es).
    unfold mret, result_ret. cbv iota.
    rewrite (IH (S i) t1 t' rest Hes Hrest).
    cbn [length]. replace (i + S (length es))%nat with (S i + length es)%nat by lia.
    destruct (main_loop _ _ _ _ rest (S i + length es) t') as [out e'].
    reflexivity.
Qed.

Lemma entry_rows_facts (es : list entry) : forall i,
  Forall entry_ok es ->
  Forall row_wf (entry_rows stack_statement i es) /\
  Forall (fun r => 0 <= id r < 65536) (entry_rows stack_statement i es) /\
  map id (entry_rows stack_statement i es) = map entry_id es /\
  print_row <$> entry_rows stack_statement i es = entry_printed <$> es.
Proof.
  induction es as [|e es IH]; intros i Hok; cbn [entry_rows map fmap list_fmap].
  - by repeat split.
  - apply Forall_cons in Hok as [He Hes].
    destruct (IH (S i) Hes) as (H1 & H2 & H3 & H4).
    destruct (stack_size i) as [Hu Hm].
    destruct (entry_row_facts (stack_statement i) e He Hu Hm) as (F1 & F2 & F3 & F4).
    split; [by constructor|]. split; [by constructor|].
    split; [by rewrite F2, H3|]. by rewrite F4, <- H4.
Qed.

Lemma sorted_print_row (cells : list Row) :
  ascending cells -> Forall (fun r => 0 <= id r < 65536) cells ->
  StronglySorted (fun a b : Z * list byte * list byte => a.1.1 < b.1.1)
    (print_row <$> cells).
Proof.
  assert (Hid : forall r, 0 <= id r < 65536 -> (print_row r).1.1 = id r).
  { intros r Hr. unfold print_row, int_of_long. cbn [fst]. rewrite Z.mod_small; lia. }
  unfold ascending. induction 1 as [|c cs Hs IH Hc]; intros Hall; cbn [fmap list_fmap].
  - constructor.
  - apply Forall_cons in Hall as [Hc0 Hcs]. constructor; [by apply IH|].
    apply Forall_fmap, Forall_forall. intros r Hr. cbn [compose].
    rewrite Forall_forall in Hc, Hcs. rewrite !Hid by auto. by apply Hc.
Qed.

Lemma main_loop_exit_line (i : nat) (t : Table) (file : list byte)
    (stack : nat -> Statement) :
  db_close t = Some file ->
  main_loop malloc_page malloc_cursor LEAF_NODE_SPLIT_COUNT stack [typed ".exit"] i t
  = ([PROMPT], EXIT_SUCCESS file).
Proof.
  intros Hclose. cbn [main_loop].
  change (read_input (typed ".exit")) with (Some (list_ascii_of_string ".exit")).
  cbv iota.
  change (bool_decide (head (list_ascii_of_string ".exit") = Some "."%char)) with true.
  cbv iota. unfold do_meta_command.
  destruct (decide (list_ascii_of_string ".exit" = list_ascii_of_string ".exit"))
    as [_|?]; [|done].
  by rewrite Hclose.
Qed.

Lemma main_loop_select_line (i : nat) (t t' : Table) (rows : list Row)
    (stack : nat -> Statement) (stdin : list (list ascii)) :
  execute_select malloc_page
    {| type := STATEMENT_SELECT; row_to_insert := row_to_insert (stack i) |} t
  = Ok (EXECUTE_SUCCESS, rows, t') ->
  main_loop malloc_page malloc_cursor LEAF_NODE_SPLIT_COUNT stack
    (typed "select" :: stdin) i t
  = let '(rest, e) :=
      main_loop malloc_page malloc_cursor LEAF_NODE_SPLIT_COUNT stack stdin (S i) t' in
    (PROMPT :: ((PRINTED_ROW <$> (print_row <$> rows)) ++ [EXECUTED]) ++ rest, e).
Proof.
  intros Hsel. cbn [main_loop].
  change (read_input (typed "select")) with (Some (list_ascii_of_string "select")).
  cbv iota.
  change (bool_decide (head (list_ascii_of_string "select") = Some "."%char)) with false.
  cbv iota.
  change (prepare_statement (list_ascii_of_string "select") (stack i))
    with (PREPARE_SUCCESS,
          {| type := STATEMENT_SELECT; row_to_insert := row_to_insert (stack i) |}).
  cbv iota. unfold execute_statement. cbn [type]. rewrite Hsel.
  by rewrite list_fmap_compose.
Qed.

(** X25.  A session of insert lines ended by [.exit], and a second run on
    the file it leaves. *)
Theorem main_keeps_rows_across_runs (es : list entry) (stack_statement' : nat -> Statement) :
  Forall entry_ok es ->
  NoDup (entry_id <$> es) ->
  Z.of_nat (length es) <= LEAF_NODE_MAX_CELLS ->
  exists file rows,
    main malloc_page malloc_cursor LEAF_NODE_SPLIT_COUNT stack_statement (Some [])
      ((insert_line <$> es) ++ [typed ".exit"])
    = (concat ((fun _ => [PROMPT; EXECUTED]) <$> es) ++ [PROMPT], EXIT_SUCCESS file) /\
    main malloc_page malloc_cursor LEAF_NODE_SPLIT_COUNT stack_statement' (Some file)
      [typed "select"; typed ".exit"]
    = (PROMPT :: (PRINTED_ROW <$> rows) ++ [EXECUTED; PROMPT], EXIT_SUCCESS file) /\
    rows ≡ₚ entry_printed <$> es /\
    StronglySorted (fun a b : Z * list byte * list byte => a.1.1 < b.1.1) rows.
Proof.
  intros Hok Hnd Hlen.
  destruct (entry_rows_facts es 0 Hok) as (Hwf & Hids & Hmap & Hprint).
  set (rows0 := entry_rows stack_statement 0 es) in *.
  assert (Hlen0 : length rows0 = length es).
  { rewrite <- (length_map id rows0), Hmap. apply length_map. }
  destruct (execute_inserts_fresh malloc_page malloc_cursor LEAF_NODE_SPLIT_COUNT rows0
              (empty_table malloc_page) [])
    as (t1 & cells & Hins & Hsl1 & Hasc & Hperm).
  { apply empty_table_single_leaf, malloc_size. } { constructor. } { done. }
  { eapply Forall_impl; [exact Hids|]. cbn. lia. }
  { by rewrite app_nil_r, Hmap. } { cbn [length]. lia. }
  rewrite app_nil_r in Hperm.
  assert (Hr1 : reaches (empty_table malloc_page) t1).
  { eapply (execute_inserts_reaches malloc_page malloc_cursor LEAF_NODE_SPLIT_COUNT
              malloc_size); [apply reaches_refl, empty_table_wf, malloc_size|exact Hins]. }
  destruct Hr1 as [Hwf1 (_ & Hfile1 & _)].
  destruct (single_leaf_close_reopen malloc_page malloc_size t1 cells Hwf1 Hsl1)
    as (file & t2 & t3 & node & Hclose & Hfl & Hopen & _ & Hget & Hsl3 & Hwf3 & Hfile3 & Hrd).
  { exists 0%nat. by rewrite Hfile1. } { rewrite Hfile1. cbn. lia. }
  exists file, (print_row <$> cells).
  split; [|split; [|split]].
  - unfold main. rewrite db_open_empty_eq.
    rewrite (main_loop_insert_lines es 0 (empty_table malloc_page) t1 _ Hok Hins).
    by rewrite (main_loop_exit_line (0 + length es) t1 file stack_statement Hclose).
  - unfold main. rewrite Hopen.
    assert (Hroot2 : root_page_num t2 = 0).
    { destruct Hsl3 as (Hroot3 & _).
      by rewrite <- (table_get_page_root malloc_page _ _ _ _ Hget). }
    assert (Hclose3 : db_close t3 = Some file).
    { destruct (db_close_spec t3 (proj2 Hwf3)) as (file' & Hc & _ & Hlo & Hhi & Hin & _).
      { exists 1%nat. by rewrite Hfile3, Hfl. }
      rewrite Hc. f_equal.
      pose proof Hsl3 as (_ & Hnp3 & node3 & Hpage3 & Hleaf3).
      assert (Hnode : node3 = node).
      { destruct (table_get_page_in_bound malloc_page _ _ _ _ Hget) as (_ & Hslot & _).
        rewrite Hroot2, Hpage3 in Hslot. by injection Hslot. }
      subst node3. rewrite Hfile3, Hnp3, Hfl in *. change (Z.to_nat 1) with 1%nat in Hhi.
      assert (Hfl' : length file' = Z.to_nat PAGE_SIZE)
        by (change (Z.to_nat PAGE_SIZE) with 4096%nat; lia).
      rewrite <- (memread_whole file' Hfl'), <- (memread_whole file) by done.
      rewrite Hrd. exact (Hin 0 node Hpage3). }
    rewrite (main_loop_select_line 0 t2 t3 cells stack_statement').
    + rewrite (main_loop_exit_line 1 t3 file stack_statement' Hclose3).
      by rewrite <- app_assoc.
    + rewrite (execute_select_after_fault malloc_page _ t2 node t3 Hget).
      by apply execute_select_cells.
  - rewrite <- Hprint. by apply fmap_Permutation.
  - apply sorted_print_row; [done|]. by rewrite Hperm.
Qed.

End Session.

(** ** More theorems at sample inputs *)

Lemma zeroed_malloc_size n : length (zeroed_malloc n) = Z.to_nat PAGE_SIZE.
Proof. reflexivity. Qed.

Lemma stale_malloc_size n : length (stale_malloc n) = Z.to_nat PAGE_SIZE.
Proof. reflexivity. Qed.

Lemma sample_table_eq :
  execute_inserts zeroed_malloc stale_cursor 7 (map sample_row [3; 1; 2])
    (empty_table zeroed_malloc)
  = Ok ([EXECUTE_SUCCESS; EXECUTE_SUCCESS; EXECUTE_SUCCESS], sample_table).
Proof. vm_compute. reflexivity. Qed.

Lemma sample_table_wf : table_wf sample_table.
Proof.
  pose proof (reaches_refl _ (empty_table_wf zeroed_malloc zeroed_malloc_size)) as H1.
  pose proof (execute_inserts_reaches zeroed_malloc stale_cursor 7 zeroed_malloc_size
                (empty_table zeroed_malloc) (map sample_row [3; 1; 2])
                (empty_table zeroed_malloc)
                [EXECUTE_SUCCESS; EXECUTE_SUCCESS; EXECUTE_SUCCESS] sample_table H1
                sample_table_eq) as H2.
  destruct H2 as [H _]. exact H.
Qed.

Lemma sample_cells_ascending : ascending sample_cells.
Proof.
  unfold ascending, sample_cells.
  repeat (apply SSorted_cons; [|forall_by ltac:(cbn [id sample_row]; lia)]).
  apply SSorted_nil.
Qed.

Lemma ascending_unique (l1 l2 : list Row) :
  ascending l1 -> ascending l2 -> l1 ≡ₚ l2 -> l1 = l2.
Proof.
  assert (Hanti : AntiSymm eq (fun a b : Row => id a < id b))
    by (intros a b H1 H2; lia).
  apply (StronglySorted_unique (fun a b : Row => id a < id b)).
Qed.

Lemma sample_table_single_leaf : single_leaf sample_table sample_cells.
Proof.
  destruct (execute_inserts_fresh zeroed_malloc stale_cursor 7 (map sample_row [3; 1; 2])
              (empty_table zeroed_malloc) [])
    as (t' & cells & Hins & Hsl & Hasc & Hperm).
  - by apply empty_table_single_leaf.
  - constructor.
  - forall_by ltac:(apply sample_row_wf; lia).
  - forall_by ltac:(cbn [id sample_row]; lia).
  - apply (bool_decide_unpack _). vm_compute. exact I.
  - vm_compute. discriminate.
  - pose proof sample_table_eq as Heq. rewrite Hins in Heq.
    assert (Ht : t' = sample_table)
      by exact (f_equal (fun x => match x with Ok (_, t) => t | _ => t' end) Heq).
    assert (Hc : cells = sample_cells); [|by rewrite <- Ht, <- Hc].
    apply ascending_unique; [done|apply sample_cells_ascending|].
    rewrite Hperm, app_nil_r. unfold sample_cells. cbn [map].
    rewrite (Permutation_swap (sample_row 1) (sample_row 3)).
    apply Permutation_skip. apply Permutation_swap.
Qed.

Lemma single_leaf_page_at t cells : single_leaf t cells -> leaf_holds (page_at t 0) cells.
Proof. intros (_ & _ & node & Hpage & Hleaf). by rewrite (page_at_cached t 0 node Hpage). Qed.


Lemma sample_table_get_page :
  table_get_page zeroed_malloc sample_table (root_page_num sample_table)
  = Ok (page_at sample_table 0, sample_table).
Proof. vm_compute. reflexivity. Qed.

Lemma sample_table_num_cells :
  load_u32 (page_at sample_table 0) leaf_node_num_cells = 3.
Proof. vm_compute. reflexivity. Qed.

Lemma sample_pager_wf : pager_wf sample_pager.
Proof.
  split; [done|]. intros i page Hi. unfold sample_pager in Hi. cbn [pages] in Hi.
  by rewrite lookup_empty in Hi.
Qed.

(** C9 on the table with the rows 1, 2, 3.  The row with id 65538 is
    looked for as 2 and turned down as a duplicate of the row with id 2;
    the row with id 65536 is looked for as 0 and stored in cell 0, before
    the row with id 1, under the key 65536. *)
Lemma execute_insert_truncates_key_witness :
  execute_insert zeroed_malloc stale_cursor 7 (insert_statement (sample_row 65538))
    sample_table
  = Ok (EXECUTE_DUPLICATE_KEY, sample_table) /\
  exists t',
    execute_insert zeroed_malloc stale_cursor 7 (insert_statement (sample_row 65536))
      sample_table
    = Ok (EXECUTE_SUCCESS, t') /\
    load_u32 (page_at t' (root_page_num sample_table)) leaf_node_num_cells
    = load_u32 (page_at sample_table 0) leaf_node_num_cells + 1 /\
    key_at (page_at t' (root_page_num sample_table)) 0 = id (sample_row 65536) /\
    row_at (page_at t' (root_page_num sample_table)) 0 = sample_row 65536 /\
    cell_at (page_at t' (root_page_num sample_table)) 1 = cell_at (page_at sample_table 0) 0.
Proof.
  assert (Hlen : length (page_at sample_table 0) = Z.to_nat PAGE_SIZE)
    by (vm_compute; reflexivity).
  assert (Hty : get_node_type (page_at sample_table 0) = NODE_LEAF)
    by (vm_compute; reflexivity).
  assert (Hnum : 0 <= load_u32 (page_at sample_table 0) leaf_node_num_cells < 2147483648)
    by (rewrite sample_table_num_cells; lia).
  split.
  - destruct (execute_insert_truncates_key zeroed_malloc stale_cursor 7
                sample_table sample_table (page_at sample_table 0) 2
                sample_table_get_page Hlen Hty Hnum) as (i & Hfind & _ & _ & Hst).
    assert (Hf : table_find zeroed_malloc stale_cursor sample_table 2
                 = Ok ({| page_num := root_page_num sample_table; cell_num := 1;
                          end_of_table := end_of_table stale_cursor |}, sample_table))
      by (vm_compute; reflexivity).
    rewrite Hf in Hfind.
    assert (Hi : 1 = i)
      by exact (f_equal (fun x => match x with Ok (c, _) => cell_num c | _ => 0 end) Hfind).
    destruct (Hst (insert_statement (sample_row 65538)) eq_refl) as [Hdup _].
    apply Hdup. rewrite <- Hi, sample_table_num_cells.
    split; [lia|vm_compute; reflexivity].
  - destruct (execute_insert_truncates_key zeroed_malloc stale_cursor 7
                sample_table sample_table (page_at sample_table 0) 0
                sample_table_get_page Hlen Hty Hnum) as (i & Hfind & _ & _ & Hst).
    assert (Hf : table_find zeroed_malloc stale_cursor sample_table 0
                 = Ok ({| page_num := root_page_num sample_table; cell_num := 0;
                          end_of_table := end_of_table stale_cursor |}, sample_table))
      by (vm_compute; reflexivity).
    rewrite Hf in Hfind.
    assert (Hi : 0 = i)
      by exact (f_equal (fun x => match x with Ok (c, _) => cell_num c | _ => 0 end) Hfind).
    destruct (Hst (insert_statement (sample_row 65536)) eq_refl) as [_ Hstore].
    destruct Hstore as (t' & Hins & Hn & Hk & Hr & _ & Hup).
    + rewrite <- Hi. intros [_ Hkey]. vm_compute in Hkey. discriminate Hkey.
    + rewrite sample_table_num_cells. vm_compute. reflexivity.
    + apply sample_row_wf. lia.
    + exists t'. rewrite <- Hi in Hk, Hr, Hup.
      split; [exact Hins|]. split; [exact Hn|]. split; [exact Hk|]. split; [exact Hr|].
      apply (Hup 1). rewrite sample_table_num_cells. lia.
Defined.

(** X1 at page 0 of a file of one page. *)
Lemma get_page_twice_witness :
  pages (put_page sample_pager 0 (replicate 4096 7)) !! 0 = Some (replicate 4096 7) /\
  get_page stale_malloc (put_page sample_pager 0 (replicate 4096 7)) 0
  = Ok (replicate 4096 7, put_page sample_pager 0 (replicate 4096 7)).
Proof.
  apply (get_page_twice stale_malloc sample_pager
           (put_page sample_pager 0 (replicate 4096 7)) 0 (replicate 4096 7)).
  vm_compute. reflexivity.
Defined.

(** X2 at page 0 of a file of one page. *)
Lemma get_page_reads_file_page_witness :
  exists p',
    get_page stale_malloc sample_pager 0
    = Ok (memread (file_descriptor sample_pager) (0 * PAGE_SIZE) PAGE_SIZE, p') /\
    pages p' !! 0 = Some (memread (file_descriptor sample_pager) (0 * PAGE_SIZE) PAGE_SIZE).
Proof.
  apply (get_page_reads_file_page stale_malloc stale_malloc_size sample_pager 0).
  - vm_compute. split; discriminate.
  - reflexivity.
  - reflexivity.
  - vm_compute. split; [discriminate|reflexivity].
Defined.

(** X3 at page 3 of a file of one page. *)
Lemma get_page_keeps_pager_witness :
  pager_wf (put_page
              {| file_descriptor := replicate 4096 7; file_length := 4096;
                 num_pages := 4; pages := ∅ |} 3 (stale_malloc 3)) /\
  length (stale_malloc 3) = Z.to_nat PAGE_SIZE /\
  file_descriptor (put_page
                     {| file_descriptor := replicate 4096 7; file_length := 4096;
                        num_pages := 4; pages := ∅ |} 3 (stale_malloc 3))
  = file_descriptor sample_pager.
Proof.
  destruct (get_page_keeps_pager stale_malloc stale_malloc_size sample_pager
              (put_page
                 {| file_descriptor := replicate 4096 7; file_length := 4096;
                    num_pages := 4; pages := ∅ |} 3 (stale_malloc 3))
              3 (stale_malloc 3) sample_pager_wf)
    as (H1 & H2 & H3 & _).
  - lia.
  - vm_compute. reflexivity.
  - split; [exact H1|]. split; [exact H2|exact H3].
Defined.


Lemma sample_table_select :
  execute_statement zeroed_malloc stale_cursor 7 select_statement sample_table
  = Ok (EXECUTE_SUCCESS, sample_cells, sample_table).
Proof. vm_compute. reflexivity. Qed.

(** X4 at the insert of row 4 into the table
    with the rows 1, 2, 3. *)
Lemma execute_statement_keeps_file_witness :
  exists t',
    execute_statement zeroed_malloc stale_cursor 7 (insert_statement (sample_row 4))
      sample_table
    = Ok (EXECUTE_SUCCESS, [], t') /\
    table_wf t' /\ table_le sample_table t'.
Proof.
  destruct (execute_insert_fresh zeroed_malloc stale_cursor 7 sample_table sample_cells
              (sample_row 4)) as (t' & Hins & _).
  - exact sample_table_single_leaf.
  - exact sample_cells_ascending.
  - apply sample_row_wf. lia.
  - vm_compute. reflexivity.
  - apply (bool_decide_unpack _). vm_compute. exact I.
  - vm_compute. reflexivity.
  - assert (Hst : execute_statement zeroed_malloc stale_cursor 7
                    (insert_statement (sample_row 4)) sample_table
                  = Ok (EXECUTE_SUCCESS, [], t')).
    { unfold execute_statement. cbn [type insert_statement].
      fold (insert_statement (sample_row 4)). rewrite Hins. reflexivity. }
    exists t'. split; [exact Hst|].
    exact (execute_statement_keeps_file zeroed_malloc stale_cursor 7 zeroed_malloc_size
             (insert_statement (sample_row 4)) sample_table t' EXECUTE_SUCCESS []
             sample_table_wf Hst).
Defined.

(** X5 at a select on the table with the
    rows 1, 2, 3. *)
Lemma execute_statement_never_table_full_witness :
  EXECUTE_SUCCESS <> EXECUTE_TABLE_FULL /\
  (type select_statement = STATEMENT_SELECT -> EXECUTE_SUCCESS = EXECUTE_SUCCESS) /\
  (type select_statement = STATEMENT_INSERT -> sample_cells = []).
Proof.
  exact (execute_statement_never_table_full zeroed_malloc stale_cursor 7
           select_statement sample_table sample_table EXECUTE_SUCCESS sample_cells
           sample_table_select).
Defined.



(** X11 on a table whose root page was made
    an internal node. *)
Lemma insert_into_internal_root_exits_witness :
  table_find zeroed_malloc stale_cursor internal_root_table 1
  = Fatal InternalSearchUnimplemented /\
  execute_insert zeroed_malloc stale_cursor 7 (insert_statement (sample_row 1))
    internal_root_table
  = Fatal InternalSearchUnimplemented.
Proof.
  apply (insert_into_internal_root_exits zeroed_malloc stale_cursor 7
           (insert_statement (sample_row 1)) internal_root_table
           (page_at internal_root_table 0) 1).
  - vm_compute. reflexivity.
  - vm_compute. discriminate.
  - vm_compute. discriminate.
Defined.

(** X12 on the leaf with the rows 1, 2, 3. *)
Lemma get_node_max_key_of_leaf_witness :
  get_node_max_key (page_at sample_table 0) = Ok (id (sample_row 3)) /\
  Forall (fun x => id x <= id (sample_row 3)) sample_cells.
Proof.
  apply (get_node_max_key_of_leaf (page_at sample_table 0) sample_cells (sample_row 3)).
  - exact (single_leaf_page_at sample_table sample_cells sample_table_single_leaf).
  - exact sample_cells_ascending.
  - reflexivity.
Defined.

(** X13 at the key 2 on the leaf with the rows 1, 2, 3. *)
Lemma table_find_position_witness :
  exists i : nat,
    table_find zeroed_malloc stale_cursor sample_table 2
    = Ok ({| page_num := 0; cell_num := Z.of_nat i;
             end_of_table := end_of_table stale_cursor |}, sample_table) /\
    (i <= length sample_cells)%nat /\
    Forall (fun r => id r < 2) (take i sample_cells) /\
    Forall (fun r => 2 <= id r) (drop i sample_cells).
Proof.
  apply (table_find_position zeroed_malloc stale_cursor sample_table sample_cells 2).
  - exact sample_table_single_leaf.
  - exact sample_cells_ascending.
Defined.

(** X14 at row 2 on the table with the rows
    1, 2, 3. *)
Lemma execute_insert_detects_duplicate_witness :
  execute_insert zeroed_malloc stale_cursor 7 (insert_statement (sample_row 2)) sample_table
  = Ok (EXECUTE_DUPLICATE_KEY, sample_table).
Proof.
  apply (execute_insert_detects_duplicate zeroed_malloc stale_cursor 7 sample_table
           sample_cells (sample_row 2)).
  - exact sample_table_single_leaf.
  - exact sample_cells_ascending.
  - vm_compute. split; [discriminate|reflexivity].
  - apply (bool_decide_unpack _). vm_compute. exact I.
Defined.

(** X15 at row 7 on the table with the rows 1, 2, 3. *)
Lemma inserted_row_is_found_witness :
  exists t' c page off,
    execute_insert zeroed_malloc stale_cursor 7 (insert_statement (sample_row 7))
      sample_table
    = Ok (EXECUTE_SUCCESS, t') /\
    table_find zeroed_malloc stale_cursor t' (id (sample_row 7)) = Ok (c, t') /\
    cursor_value zeroed_malloc c t' = Ok (page, off, t') /\
    deserialize_row page off = sample_row 7.
Proof.
  apply (inserted_row_is_found zeroed_malloc stale_cursor 7 sample_table sample_cells
           (sample_row 7)).
  - exact sample_table_single_leaf.
  - exact sample_cells_ascending.
  - apply sample_row_wf. lia.
  - vm_compute. reflexivity.
  - apply (bool_decide_unpack _). vm_compute. exact I.
  - vm_compute. reflexivity.
Defined.

(** X16 on the table with the rows 1, 2, 3,
    with page 1 as the right child: page 2 becomes the left child. *)
Lemma create_new_root_links_children_witness :
  exists t',
    create_new_root zeroed_malloc sample_table 1 = Ok t' /\
    num_pages (pager t') = Z.max (num_pages (pager sample_table)) (1 + 1) + 1 /\
    page_at t' (Z.max (num_pages (pager sample_table)) (1 + 1))
    = set_node_root (page_at sample_table 0) false /\
    is_node_root (page_at t' (root_page_num sample_table)) = true /\
    load_u32 (page_at t' (root_page_num sample_table)) internal_node_num_keys = 1 /\
    internal_node_child (page_at t' (root_page_num sample_table)) 0
    = Ok (internal_node_cell 0) /\
    load_u32 (page_at t' (root_page_num sample_table)) (internal_node_cell 0)
    = Z.max (num_pages (pager sample_table)) (1 + 1) /\
    load_u32 (page_at t' (root_page_num sample_table)) (internal_node_key 0) = 3 /\
    load_u32 (page_at t' (root_page_num sample_table)) internal_node_right_child = 1.
Proof.
  apply (create_new_root_links_children zeroed_malloc zeroed_malloc_size sample_table 1
           (page_at sample_table 0) 3).
  - exact sample_table_wf.
  - vm_compute. reflexivity.
  - lia.
  - vm_compute. discriminate.
  - vm_compute. reflexivity.
  - lia.
Defined.

(** X17 at a line with a negative id and a name that
    is too long. *)
Lemma prepare_insert_verdict_witness :
  (prepare_insert
     (list_ascii_of_string "insert -1 a_name_of_more_than_thirty_two_characters b@x")
     select_statement).1
  = PREPARE_NEGATIVE_ID.
Proof.
  exact (prepare_insert_verdict
           (list_ascii_of_string "insert -1 a_name_of_more_than_thirty_two_characters b@x")
           select_statement
           (list_ascii_of_string "insert") (list_ascii_of_string "-1")
           (list_ascii_of_string "a_name_of_more_than_thirty_two_characters")
           (list_ascii_of_string "b@x") [] eq_refl).
Defined.

(** X19 at a line of three tokens. *)
Lemma prepare_insert_error_keeps_row_witness :
  (prepare_insert (list_ascii_of_string "insert 1 bob") select_statement).2
  = {| type := STATEMENT_INSERT; row_to_insert := row_to_insert select_statement |}.
Proof.
  apply (prepare_insert_error_keeps_row (list_ascii_of_string "insert 1 bob")
           select_statement).
  vm_compute. discriminate.
Defined.

(** X20 at the line [insert 7 bob b@x]. *)
Lemma prepare_insert_row_prints_as_typed_witness :
  exists statement',
    prepare_insert (list_ascii_of_string "insert 7 bob b@x") select_statement
    = (PREPARE_SUCCESS, statement') /\
    type statement' = STATEMENT_INSERT /\
    row_valid (row_to_insert statement') /\
    id (row_to_insert statement') = atoi (list_ascii_of_string "7") /\
    print_row (row_to_insert statement')
    = (atoi (list_ascii_of_string "7"),
       byte_of_ascii <$> list_ascii_of_string "bob",
       byte_of_ascii <$> list_ascii_of_string "b@x").
Proof.
  apply (prepare_insert_row_prints_as_typed (list_ascii_of_string "insert 7 bob b@x")
           select_statement (list_ascii_of_string "insert") (list_ascii_of_string "7")
           (list_ascii_of_string "bob") (list_ascii_of_string "b@x") []).
  - reflexivity.
  - apply (bool_decide_unpack _). vm_compute. exact I.
  - reflexivity.
  - reflexivity.
  - vm_compute. discriminate.
  - vm_compute. discriminate.
  - vm_compute. discriminate.
Defined.

(** X8 at the rows with ids 3, 1, 2. *)
Lemma rows_survive_close_and_reopen_witness :
  exists t0 t1 file t2 t3 scanned,
    db_open zeroed_malloc [] = Ok t0 /\
    execute_inserts zeroed_malloc stale_cursor 7 (map sample_row [3; 1; 2]) t0
    = Ok ([EXECUTE_SUCCESS; EXECUTE_SUCCESS; EXECUTE_SUCCESS], t1) /\
    db_close t1 = Some file /\
    length file = Z.to_nat PAGE_SIZE /\
    db_open zeroed_malloc file = Ok t2 /\
    execute_select zeroed_malloc select_statement t2 = Ok (EXECUTE_SUCCESS, scanned, t3) /\
    Permutation scanned (map sample_row [3; 1; 2]) /\
    ascending scanned.
Proof.
  apply (rows_survive_close_and_reopen zeroed_malloc stale_cursor 7 (fun _ => eq_refl)
           (map sample_row [3; 1; 2]) select_statement).
  - forall_by ltac:(apply sample_row_wf; lia).
  - forall_by ltac:(cbn [id sample_row]; lia).
  - apply (bool_decide_unpack _). vm_compute. exact I.
  - vm_compute. discriminate.
Defined.

(** ** The command loop at sample inputs *)

Lemma sample_run :
  main_loop zeroed_malloc stale_cursor 7 sample_stack
    [typed "insert 1 bob b@x"; typed "select"] 0 (empty_table zeroed_malloc)
  = ([PROMPT; EXECUTED; PROMPT; PRINTED_ROW (1, [98; 111; 98], [98; 64; 120]); EXECUTED;
      PROMPT; ERROR_READING_INPUT],
     EXIT_FAILURE_input []).
Proof. vm_compute. reflexivity. Qed.

(** X23 at an insert and a select on a new database, without [.exit]: the
    input ends and the file is still empty. *)
Lemma main_loop_without_exit_keeps_file_witness :
  (forall file, EXIT_FAILURE_input [] <> EXIT_SUCCESS file) /\
  EXIT_FAILURE_input [] <> EXIT_FAILURE_flush /\
  (forall file, EXIT_FAILURE_input [] = EXIT_FAILURE_input file ->
     file = file_descriptor (pager (empty_table zeroed_malloc))).
Proof.
  apply (main_loop_without_exit_keeps_file zeroed_malloc stale_cursor 7 sample_stack
           zeroed_malloc_size [typed "insert 1 bob b@x"; typed "select"] 0
           (empty_table zeroed_malloc)
           [PROMPT; EXECUTED; PROMPT; PRINTED_ROW (1, [98; 111; 98], [98; 64; 120]);
            EXECUTED; PROMPT; ERROR_READING_INPUT]
           (EXIT_FAILURE_input [])).
  - apply empty_table_wf, zeroed_malloc_size.
  - repeat (apply Forall_cons_2; [vm_compute; discriminate|]). apply Forall_nil_2.
  - exact sample_run.
Defined.

(** X24 on the table with the rows 1, 2, 3. *)
Lemma btree_prints_the_ids_witness :
  do_meta_command zeroed_malloc (list_ascii_of_string ".btree") sample_table
  = META_RETURNS
      (TREE :: LEAF_SIZE (Z.of_nat (length sample_cells))
            :: imap (fun i r => LEAF_KEY (Z.of_nat i) (int_of_long (id r))) sample_cells)
      META_COMMAND_SUCCESS sample_table.
Proof.
  apply (btree_prints_the_ids zeroed_malloc sample_table sample_cells).
  exact sample_table_single_leaf.
Defined.

Lemma sample_entries_ok : Forall entry_ok sample_entries.
Proof.
  repeat (apply Forall_cons_2; [|]); [| |apply Forall_nil_2];
    (split; [|split; [|split; [|split; [|split]]]]);
    try (split; [discriminate|split; apply (bool_decide_unpack _); vm_compute; exact I]);
    try (vm_compute; split; discriminate);
    vm_compute; discriminate.
Qed.

(** X25 at the lines [insert 2 bob b@x] and [insert 1 al a@y]. *)
Lemma main_keeps_rows_across_runs_witness :
  exists file rows,
    main zeroed_malloc stale_cursor 7 sample_stack (Some [])
      ((insert_line <$> sample_entries) ++ [typed ".exit"])
    = (concat ((fun _ => [PROMPT; EXECUTED]) <$> sample_entries) ++ [PROMPT],
       EXIT_SUCCESS file) /\
    main zeroed_malloc stale_cursor 7 sample_stack (Some file)
      [typed "select"; typed ".exit"]
    = (PROMPT :: (PRINTED_ROW <$> rows) ++ [EXECUTED; PROMPT], EXIT_SUCCESS file) /\
    rows ≡ₚ entry_printed <$> sample_entries /\
    StronglySorted (fun a b : Z * list byte * list byte => a.1.1 < b.1.1) rows.
Proof.
  apply (main_keeps_rows_across_runs zeroed_malloc stale_cursor 7 sample_stack
           zeroed_malloc_size (fun _ => conj eq_refl eq_refl) sample_entries sample_stack).
  - exact sample_entries_ok.
  - apply (bool_decide_unpack _). vm_compute. exact I.
  - vm_compute. discriminate.
Defined.
